(** * Veriscope backend: transparency scoring and report lifecycle

    A shallow embedding of [routes/reports.ts] (the report routes and the
    transparency scorer declared inside the POST handler), of the Report
    schema of [models/Report.ts] and of the [protect] middleware.

    - JavaScript numbers are IEEE-754 binary64 values, taken from the
      Standard Library's [SpecFloat] (precision 53, emax 1024), so that
      [*], [+], [-] and [/] round exactly as the engine does.
    - JSON data ([any] in the source) is an inductive [value]; objects are
      finite maps from keys to values.
    - The stores are finite maps keyed by document id; handlers are
      state-passing functions over a [World] that also holds the ambient
      effects the handlers reach for: the AI service, [Math.random], the
      clock and the event trace.
    - What the libraries decide and the source does not show (the text
      of a number, what the driver makes of an unsafe [skip], what
      Mongoose does with a body key the route never validated) is a
      parameter of the development: the classes [Engine] and
      [Builtins]. *)

From Stdlib Require Import ZArith Lia Bool List String Ascii.
From Stdlib Require Import Floats.SpecFloat.
From stdpp Require Import gmap strings list sorting.

Set Warnings "-register-all".
Open Scope Z_scope.

(** ** JavaScript numbers *)

Module JsNumber.

Abbreviation number := spec_float.

Definition prec : Z := 53.
Definition emax : Z := 1024.

Definition NaN : number := S754_nan.
Definition Nmul : number -> number -> number := SFmul prec emax.
Definition Nadd : number -> number -> number := SFadd prec emax.
Definition Nsub : number -> number -> number := SFsub prec emax.
Definition Ndiv : number -> number -> number := SFdiv prec emax.

(** The Number denoting an integer (exact below 2^53, rounded above). *)
Definition Z2N (n : Z) : number := binary_normalize prec emax n 0 false.

(** A decimal literal [m / 10^k] of the source text, as the nearest
    double: one correctly rounded division of two exact integers. *)
Definition decimal (m : Z) (k : Z) : number := Ndiv (Z2N m) (Z2N (10 ^ k)).

(** Signed mantissa and exponent of a zero or finite number: the number
    denotes [Fmant x * 2 ^ Fexp x]. *)
Definition Fmant (x : number) : Z :=
  match x with
  | S754_finite s m _ => cond_Zopp s (Zpos m)
  | _ => 0
  end.

Definition Fexp (x : number) : Z :=
  match x with
  | S754_finite _ _ e => e
  | _ => 0
  end.

(** IEEE comparison, by the values denoted: [None] when unordered (a
    NaN operand); the two zeros compare equal. *)
Definition Ncompare (x y : number) : option comparison :=
  match x, y with
  | S754_nan, _ | _, S754_nan => None
  | S754_infinity s1, S754_infinity s2 =>
      Some (match s1, s2 with
            | true, false => Lt
            | false, true => Gt
            | _, _ => Eq
            end)
  | S754_infinity s, _ => Some (if s then Lt else Gt)
  | _, S754_infinity s => Some (if s then Gt else Lt)
  | _, _ =>
      let e := Z.min (Fexp x) (Fexp y) in
      Some (Z.compare (Fmant x * 2 ^ (Fexp x - e)) (Fmant y * 2 ^ (Fexp y - e)))
  end.

(** [x >= y], [x > y], [x < y] *)
Definition Nge (x y : number) : bool :=
  match Ncompare x y with
  | Some (Gt | Eq) => true
  | _ => false
  end.

Definition Ngt (x y : number) : bool :=
  match Ncompare x y with
  | Some Gt => true
  | _ => false
  end.

Definition Nlt (x y : number) : bool :=
  match Ncompare x y with
  | Some Lt => true
  | _ => false
  end.

Definition Number_isFinite (x : number) : bool :=
  match x with
  | S754_zero _ | S754_finite _ _ _ => true
  | _ => false
  end.

(** [Math.max(x, y)] and [Math.min(x, y)]: NaN if either is NaN, and
    [+0] is larger than [-0]. *)
Definition Math_max (x y : number) : number :=
  match Ncompare x y with
  | None => NaN
  | Some Lt => y
  | Some Gt => x
  | Some Eq => match x with S754_zero true => y | _ => x end
  end.

Definition Math_min (x y : number) : number :=
  match Ncompare x y with
  | None => NaN
  | Some Lt => x
  | Some Gt => y
  | Some Eq => match x with S754_zero false => y | _ => x end
  end.

(** [Math.floor(x)]: the largest integer not above [x]; integers, zeros,
    infinities and NaN are returned as they are. A finite [x] with a
    negative exponent is [Fmant x / 2 ^ (- Fexp x)], whose floor is an
    arithmetic right shift. *)
Definition Math_floor (x : number) : number :=
  match x with
  | S754_finite s m e =>
      if 0 <=? e then x else Z2N (Z.shiftl (cond_Zopp s (Zpos m)) e)
  | _ => x
  end.

(** [Math.round(x)]: the integer closest to [x], ties towards +infinity,
    that is [floor (x + 1/2)] computed exactly; a result of zero keeps
    the sign of [x] ([Math.round(-0.2)] is [-0]). *)
Definition Math_round (x : number) : number :=
  match x with
  | S754_finite s m e =>
      if 0 <=? e then x
      else
        let n := Z.shiftl (2 * cond_Zopp s (Zpos m) + 2 ^ (- e)) (e - 1) in
        if n =? 0 then S754_zero s else Z2N n
  | _ => x
  end.

(** [Math.ceil(x)]: the smallest integer not below [x]; a result of
    zero keeps the sign of [x]. *)
Definition Math_ceil (x : number) : number :=
  match x with
  | S754_finite s m e =>
      if 0 <=? e then x
      else
        let n := - Z.shiftl (- cond_Zopp s (Zpos m)) e in
        if n =? 0 then S754_zero s else Z2N n
  | _ => x
  end.

(** The integer a number denotes, when it is an integer. *)
Definition Number_toZ (x : number) : option Z :=
  match x with
  | S754_zero _ => Some 0
  | S754_finite s m e =>
      if 0 <=? e then Some (cond_Zopp s (Zpos m) * 2 ^ e)
      else if Zpos m mod 2 ^ (- e) =? 0
           then Some (cond_Zopp s (Zpos m / 2 ^ (- e)))
           else None
  | _ => None
  end.

(** [Number.isSafeInteger(x) && x >= 0] *)
Definition safe_count (x : number) : option nat :=
  match Number_toZ x with
  | Some n => if (0 <=? n) && (n <? 2 ^ 53) then Some (Z.to_nat n) else None
  | None => None
  end.

(** [x === y] on numbers *)
Definition Neq (x y : number) : bool :=
  match Ncompare x y with
  | Some Eq => true
  | _ => false
  end.

End JsNumber.
Export JsNumber.

(** ** JavaScript values *)

Module Js.

(** What a [try] block can catch. *)
Inductive Exn := AxiosError | CastError | ValidationError | TypeError | MongoServerError.

Inductive result (A : Type) :=
| Ok (a : A)
| Throw (e : Exn).
Arguments Ok {A} a.
Arguments Throw {A} e.

(** The [any] of the source: what [JSON.parse] can produce, plus
    [undefined]. *)
Inductive value :=
| VUndefined
| VNull
| VBool (b : bool)
| VNum (x : number)
| VStr (s : string)
| VArr (l : list value)
| VObj (o : gmap string value).

(** [v?.k] for the keys the source reads ([transparencyScore], [score],
    [questions], [expectedQuestions], [category], ...): none of them is
    defined on a primitive, an array or a prototype. *)
Definition get (v : value) (k : string) : value :=
  match v with
  | VObj o => default VUndefined (o !! k)
  | _ => VUndefined
  end.

(** [a ?? b] *)
Definition nullish (a b : value) : value :=
  match a with
  | VUndefined | VNull => b
  | _ => a
  end.

(** Truthiness, as [&&], [||], [!] and [if] test it. *)
Definition truthy (v : value) : bool :=
  match v with
  | VUndefined | VNull => false
  | VBool b => b
  | VNum (S754_zero _) | VNum S754_nan => false
  | VNum _ => true
  | VStr s => negb (String.eqb s EmptyString)
  | VArr _ | VObj _ => true
  end.

Definition Array_isArray (v : value) : bool :=
  match v with
  | VArr _ => true
  | _ => false
  end.

(** [typeof v === 'object'] *)
Definition typeof_object (v : value) : bool :=
  match v with
  | VNull | VArr _ | VObj _ => true
  | _ => false
  end.

(** [v.length] of an array *)
Definition Array_length (v : value) : number :=
  match v with
  | VArr l => Z2N (Z.of_nat (length l))
  | _ => NaN
  end.

(** [Object.keys(v).length] of an object or an array *)
Definition Object_keys_length (v : value) : number :=
  match v with
  | VObj o => Z2N (Z.of_nat (size o))
  | VArr l => Z2N (Z.of_nat (length l))
  | _ => Z2N 0
  end.

(** One character stands for one UTF-16 code unit below 256.
    [toLowerCase] maps A-Z and the Latin-1 capitals to their small
    letters. *)
Definition lower_ascii (c : ascii) : ascii :=
  let n := nat_of_ascii c in
  if ((65 <=? n) && (n <=? 90))%nat then ascii_of_nat (n + 32)
  else if ((192 <=? n) && (n <=? 222) && negb (n =? 215))%nat then ascii_of_nat (n + 32)
  else c.

Fixpoint toLowerCase (s : string) : string :=
  match s with
  | EmptyString => EmptyString
  | String c s' => String (lower_ascii c) (toLowerCase s')
  end.

(** [s.includes(t)] *)
Fixpoint includes (s t : string) : bool :=
  String.prefix t s ||
  match s with
  | EmptyString => false
  | String _ s' => includes s' t
  end.

(** [l.join(sep)], given how an element prints; a null or undefined
    element prints as the empty string. *)
Definition join_with (print : value -> result string) (sep : string)
  : list value -> result string :=
  fix join (l : list value) : result string :=
    match l with
    | [] => Ok EmptyString
    | e :: l' =>
        match match e with
              | VUndefined | VNull => Ok EmptyString
              | _ => print e
              end with
        | Throw x => Throw x
        | Ok se =>
            match l' with
            | [] => Ok se
            | _ => match join l' with
                   | Ok rest => Ok (se ++ sep ++ rest)%string
                   | Throw x => Throw x
                   end
            end
        end
    end.

(** Mongoose's [deepEqual] on two JSON values: [===] on primitives, the
    same elements in the same order for arrays, the same keys with
    equal values for objects. (A finite map keeps no order of its keys:
    two objects that differ in that order only are one value here.) *)
Fixpoint deepEqual (a b : value) {struct a} : bool :=
  match a, b with
  | VUndefined, VUndefined | VNull, VNull => true
  | VBool x, VBool y => Bool.eqb x y
  | VNum x, VNum y => Neq x y
  | VStr x, VStr y => String.eqb x y
  | VArr l1, VArr l2 =>
      (fix go (l1 l2 : list value) : bool :=
         match l1, l2 with
         | [], [] => true
         | x :: l1', y :: l2' => deepEqual x y && go l1' l2'
         | _, _ => false
         end) l1 l2
  | VObj o1, VObj o2 =>
      Nat.eqb (size o1) (size o2)
      && map_fold (fun k x acc => acc && match o2 !! k with
                                         | Some y => deepEqual x y
                                         | None => false
                                         end) true o1
  | _, _ => false
  end.

(** [o.hasOwnProperty(k)] *)
Definition has_own (o : gmap string value) (k : string) : bool :=
  match o !! k with
  | Some _ => true
  | None => false
  end.

(** The two conversions of the language between numbers and text, which
    the routes reach through [Number(...)], [.toString()] and the
    casts of Mongoose. They are left to the engine, of which only one
    fact is used: what [Number] returns is a binary64 value. Every
    statement below holds for any interpretation of them. *)
Class Engine := {
  StringToNumber : string -> number;
  NumberToString : number -> string;
  StringToNumber_valid : forall s, valid_binary prec emax (StringToNumber s) = true
}.

Section Conversions.
Context `{Engine}.

(** [String(v)] and [v.toString()]. The elements of an array are joined
    with commas. An object prints through [Object.prototype.toString], unless
    it has a [toString] key of its own: what JSON puts there is no
    function, and the conversion throws a TypeError. *)
Fixpoint ToString (v : value) : result string :=
  match v with
  | VUndefined => Ok "undefined"
  | VNull => Ok "null"
  | VBool true => Ok "true"
  | VBool false => Ok "false"
  | VNum x => Ok (NumberToString x)
  | VStr s => Ok s
  | VArr l => join_with ToString "," l
  | VObj o => if has_own o "toString" then Throw TypeError else Ok "[object Object]"
  end%string.

(** [Number(v)]: an array or an object is first made a string. *)
Definition ToNumber (v : value) : result number :=
  match v with
  | VUndefined => Ok NaN
  | VNull => Ok (Z2N 0)
  | VBool true => Ok (Z2N 1)
  | VBool false => Ok (Z2N 0)
  | VNum x => Ok x
  | VStr s => Ok (StringToNumber s)
  | VArr _ =>
      match ToString v with
      | Ok s => Ok (StringToNumber s)
      | Throw e => Throw e
      end
  | VObj o => if has_own o "toString" then Throw TypeError else Ok NaN
  end.
End Conversions.

End Js.
Export Js.

(** ** Documents, the world and the handler monad *)

Module Model.

(** A 12-byte document id. *)
Abbreviation ObjectId := N.

Inductive Role := admin | user.

Record User := {
  u_id : ObjectId;
  u_role : Role;
  u_isActive : bool
}.

Record Product := {
  p_id : ObjectId;
  p_name : string;
  p_category : string;
  p_brand : string;
  p_ingredients : list string;
  p_description : option string
}.

Inductive Status := draft | pending | completed.

Record Analysis := {
  strengths : list string;
  improvements : list string;
  recommendations : list string
}.

(** [IReport]; [userId] is optional in the interface, and the routes
    test for it. *)
Record Report := {
  r_id : ObjectId;
  productId : ObjectId;
  userId : option ObjectId;
  summary : string;
  transparencyScore : number;
  analysis : Analysis;
  answers : value;
  pdfUrl : option string;
  status : Status;
  createdAt : Z;
  updatedAt : Z
}.

(** What a handler leaves behind besides its response. *)
Inductive Event :=
| EvAiRequest (product : ObjectId)
| EvScorer
| EvReportCreate (id : ObjectId)
| EvReportSave (id : ObjectId)
| EvReportDelete (id : ObjectId).

(** The three stores and the ambient effects of the process:
    [jwt_verify] is [jwt.verify] ([None] when it throws), [ai_service]
    the remote analyze-product endpoint ([None] when the call fails:
    transport error, timeout or a non-2xx status), [random_source] the
    successive results of [Math.random()]. *)
Record World := {
  users : gmap N User;
  products : gmap N Product;
  reports : gmap N Report;
  jwt_verify : string -> option ObjectId;
  ai_service : value -> value -> option value;
  random_source : nat -> number;
  random_used : nat;
  clock : Z;
  trace : list Event
}.

Definition set_reports (f : gmap N Report -> gmap N Report) (w : World) : World :=
  {| users := users w; products := products w; reports := f (reports w);
     jwt_verify := jwt_verify w; ai_service := ai_service w;
     random_source := random_source w; random_used := random_used w;
     clock := clock w; trace := trace w |}.

Definition set_random_used (n : nat) (w : World) : World :=
  {| users := users w; products := products w; reports := reports w;
     jwt_verify := jwt_verify w; ai_service := ai_service w;
     random_source := random_source w; random_used := n;
     clock := clock w; trace := trace w |}.

Definition set_trace (t : list Event) (w : World) : World :=
  {| users := users w; products := products w; reports := reports w;
     jwt_verify := jwt_verify w; ai_service := ai_service w;
     random_source := random_source w; random_used := random_used w;
     clock := clock w; trace := t |}.

Definition M (A : Type) : Type := World -> result A * World.

Definition ret {A} (a : A) : M A := fun w => (Ok a, w).

Definition bind {A B} (m : M A) (k : A -> M B) : M B :=
  fun w =>
    match m w with
    | (Ok a, w') => k a w'
    | (Throw e, w') => (Throw e, w')
    end.

Definition throw {A} (e : Exn) : M A := fun w => (Throw e, w).

(** [try { m } catch (e) { h }] *)
Definition try_catch {A} (m : M A) (h : Exn -> M A) : M A :=
  fun w =>
    match m w with
    | (Ok a, w') => (Ok a, w')
    | (Throw e, w') => h e w'
    end.

(** A conversion inside a handler: what it throws, the handler throws. *)
Definition of_result {A} (r : result A) : M A := fun w => (r, w).

Definition emit (e : Event) : M unit :=
  fun w => (Ok tt, set_trace (trace w ++ [e]) w).

(** [Math.random()]: the next draw of the process-wide source. *)
Definition Math_random : M number :=
  fun w => (Ok (random_source w (random_used w)), set_random_used (S (random_used w)) w).

End Model.
Export Model.

Notation "'let*' x ':=' m 'in' k" := (bind m (fun x => k))
  (at level 10, x name, m at level 100, k at level 200).
Notation "m ';;' k" := (bind m (fun _ => k))
  (at level 100, k at level 200, right associativity, only parsing).

(** ** The transparency scorer *)

Module Scorer.
Section WithEngine.
Context `{Engine}.

(** The literals of the source. *)
Definition lit_0_6 : number := decimal 6 1.
Definition lit_0_4 : number := decimal 4 1.
Definition lit_0_5 : number := decimal 5 1.

(** [deriveTransparencyScore], statement by statement. The [null] of
    [aiQuestionsCount] is [None]. [Number(...)] and [.toString()] can
    throw, the second after [Math.random()] has been called. *)
Definition deriveTransparencyScore (aiResult productObj answersObj : value) : M number :=
  let* baseFromAI :=
    of_result (ToNumber (nullish (get aiResult "transparencyScore") (get aiResult "score"))) in
  let* base :=
    if Number_isFinite baseFromAI
    then ret (Math_max (Z2N 0) (Math_min (Z2N 100) (Math_round baseFromAI)))
    else let* r := Math_random in ret (Nadd (Math_floor (Nmul r (Z2N 40))) (Z2N 40)) in
  let aiQuestionsCount :=
    if Array_isArray (get aiResult "questions")
    then Some (Array_length (get aiResult "questions"))
    else if Array_isArray (get aiResult "expectedQuestions")
         then Some (Array_length (get aiResult "expectedQuestions"))
         else None in
  let providedAnswersCount :=
    if truthy answersObj && typeof_object answersObj
    then Object_keys_length answersObj
    else Z2N 0 in
  let questionCount :=
    match aiQuestionsCount with
    | Some n => n
    | None => Math_max (Z2N 1) providedAnswersCount
    end in
  let answeredCount := providedAnswersCount in
  let completenessRatio :=
    if Ngt questionCount (Z2N 0)
    then Math_min (Z2N 1) (Ndiv answeredCount questionCount)
    else Z2N 0 in
  let* category :=
    let c := get productObj "category" in
    let* text := of_result (ToString (if truthy c then c else VStr EmptyString)) in
    ret (toLowerCase text) in
  let categoryBoost :=
    if includes category "skincare" then Z2N 5
    else if includes category "food" then Z2N 4
    else if includes category "personal" || includes category "care" then Z2N 3
    else if includes category "cleaning" then Z2N 3
    else if includes category "clothing" || includes category "apparel" then Z2N 2
    else if includes category "electronics" then Z2N 1
    else Z2N 0 in
  let completenessPercent := Math_round (Nmul completenessRatio (Z2N 100)) in
  let computed :=
    Math_round (Nadd (Nmul base lit_0_6) (Nmul completenessPercent lit_0_4)) in
  let computed :=
    if Nge completenessRatio lit_0_5
    then Nadd computed categoryBoost
    else Nsub computed
           (Math_max (Z2N 0)
              (Math_floor (Nmul (Nsub (Z2N 1) completenessRatio) (Z2N 5)))) in
  let computed := Math_max (Z2N 0) (Math_min (Z2N 100) computed) in
  ret computed.

(** *** The same function, one definition per [const]

    [deriveTransparencyScore_by_parts] below shows that the function above
    is these parts put together. *)

(** [Number(aiResult?.transparencyScore ?? aiResult?.score)] *)
Definition baseFromAI (aiResult : value) : result number :=
  ToNumber (nullish (get aiResult "transparencyScore") (get aiResult "score")).

Definition base (aiResult : value) : M number :=
  let* baseFromAI := of_result (baseFromAI aiResult) in
  if Number_isFinite baseFromAI
  then ret (Math_max (Z2N 0) (Math_min (Z2N 100) (Math_round baseFromAI)))
  else let* r := Math_random in ret (Nadd (Math_floor (Nmul r (Z2N 40))) (Z2N 40)).

Definition aiQuestionsCount (aiResult : value) : option number :=
  if Array_isArray (get aiResult "questions")
  then Some (Array_length (get aiResult "questions"))
  else if Array_isArray (get aiResult "expectedQuestions")
       then Some (Array_length (get aiResult "expectedQuestions"))
       else None.

Definition providedAnswersCount (answersObj : value) : number :=
  if truthy answersObj && typeof_object answersObj
  then Object_keys_length answersObj
  else Z2N 0.

Definition questionCount (aiResult answersObj : value) : number :=
  match aiQuestionsCount aiResult with
  | Some n => n
  | None => Math_max (Z2N 1) (providedAnswersCount answersObj)
  end.

Definition completenessRatio (aiResult answersObj : value) : number :=
  let answeredCount := providedAnswersCount answersObj in
  if Ngt (questionCount aiResult answersObj) (Z2N 0)
  then Math_min (Z2N 1) (Ndiv answeredCount (questionCount aiResult answersObj))
  else Z2N 0.

(** [(productObj?.category || '').toString().toLowerCase()] *)
Definition category (productObj : value) : result string :=
  let c := get productObj "category" in
  match ToString (if truthy c then c else VStr EmptyString) with
  | Ok text => Ok (toLowerCase text)
  | Throw e => Throw e
  end.

Definition boost_of (category : string) : number :=
  if includes category "skincare" then Z2N 5
  else if includes category "food" then Z2N 4
  else if includes category "personal" || includes category "care" then Z2N 3
  else if includes category "cleaning" then Z2N 3
  else if includes category "clothing" || includes category "apparel" then Z2N 2
  else if includes category "electronics" then Z2N 1
  else Z2N 0.

Definition categoryBoost (productObj : value) : result number :=
  match category productObj with
  | Ok category => Ok (boost_of category)
  | Throw e => Throw e
  end.

(** The arithmetic after [base], [completenessRatio] and
    [categoryBoost] are known. *)
Definition combine (base completenessRatio categoryBoost : number) : number :=
  let completenessPercent := Math_round (Nmul completenessRatio (Z2N 100)) in
  let computed :=
    Math_round (Nadd (Nmul base lit_0_6) (Nmul completenessPercent lit_0_4)) in
  let computed :=
    if Nge completenessRatio lit_0_5
    then Nadd computed categoryBoost
    else Nsub computed
           (Math_max (Z2N 0)
              (Math_floor (Nmul (Nsub (Z2N 1) completenessRatio) (Z2N 5)))) in
  Math_max (Z2N 0) (Math_min (Z2N 100) computed).

Definition score_from_parts (aiResult productObj answersObj : value) : M number :=
  let* base := base aiResult in
  let* categoryBoost := of_result (categoryBoost productObj) in
  ret (combine base (completenessRatio aiResult answersObj) categoryBoost).

End WithEngine.
End Scorer.
Export Scorer.

(** ** Text helpers *)

Module Text.

(** White space as [String.prototype.trim] sees it, among code units
    below 256. *)
Definition is_space (c : ascii) : bool :=
  let n := nat_of_ascii c in
  ((n =? 32) || ((9 <=? n) && (n <=? 13)) || (n =? 160))%nat.

Fixpoint trim_start (s : string) : string :=
  match s with
  | String c s' => if is_space c then trim_start s' else s
  | EmptyString => EmptyString
  end.

Definition string_rev (s : string) : string :=
  string_of_list_ascii (rev (list_ascii_of_string s)).

Definition trim (s : string) : string :=
  string_rev (trim_start (string_rev (trim_start s))).

(** [s.split(' ')] *)
Fixpoint split_go (s : string) (acc : list ascii) : list string :=
  match s with
  | EmptyString => [string_of_list_ascii (rev acc)]
  | String c s' =>
      if Ascii.eqb c " " then string_of_list_ascii (rev acc) :: split_go s' []
      else split_go s' (c :: acc)
  end.

Definition split_space (s : string) : list string := split_go s [].

Definition digit (c : ascii) : option Z :=
  let n := nat_of_ascii c in
  if ((48 <=? n) && (n <=? 57))%nat then Some (Z.of_nat n - 48) else None.

Fixpoint digits_go (s : string) (acc : Z) : option Z :=
  match s with
  | EmptyString => Some acc
  | String c s' =>
      match digit c with
      | Some d => digits_go s' (10 * acc + d)
      | None => None
      end
  end.

(** A decimal numeral: one digit or more, leading zeros allowed. *)
Definition parse_nat (s : string) : option Z :=
  match s with
  | EmptyString => None
  | _ => digits_go s 0
  end.

(** The integer a string denotes when it matches the pattern of
    validator.js's [isInt], [^[-+]?[0-9]+$] (leading zeros are allowed
    unless the option [allow_leading_zeroes] is false, and no route
    sets it). *)
Definition parse_int (s : string) : option Z :=
  match s with
  | String "+" s' => parse_nat s'
  | String "-" s' => option_map Z.opp (parse_nat s')
  | _ => parse_nat s
  end.

Definition hex_digit (c : ascii) : option N :=
  let n := nat_of_ascii c in
  if ((48 <=? n) && (n <=? 57))%nat then Some (N.of_nat n - 48)%N
  else if ((97 <=? n) && (n <=? 102))%nat then Some (N.of_nat n - 87)%N
  else if ((65 <=? n) && (n <=? 70))%nat then Some (N.of_nat n - 55)%N
  else None.

Fixpoint hex_go (s : string) (acc : N) : option N :=
  match s with
  | EmptyString => Some acc
  | String c s' =>
      match hex_digit c with
      | Some d => hex_go s' (16 * acc + d)%N
      | None => None
      end
  end.

(** The digits of [parseInt]: those of the radix at the start of the
    string, up to the first character that is none; [None] when there
    is no digit. *)
Definition digit_in (radix : Z) (c : ascii) : option Z :=
  match hex_digit c with
  | Some d => if Z.of_N d <? radix then Some (Z.of_N d) else None
  | None => None
  end.

Fixpoint digits_prefix (radix : Z) (s : string) (acc : option Z) : option Z :=
  match s with
  | EmptyString => acc
  | String c s' =>
      match digit_in radix c with
      | Some d => digits_prefix radix s' (Some (radix * default 0 acc + d))
      | None => acc
      end
  end.

(** [parseInt(s)], no radix given: white space at the start is skipped,
    a sign is read, [0x] announces hexadecimal digits; the result is the
    Number nearest to the integer read, [-0] for a negative zero, and NaN
    when no digit is found. *)
Definition parseInt (s : string) : number :=
  let s := trim_start s in
  let '(neg, s) := match s with
                   | String "-" s' => (true, s')
                   | String "+" s' => (false, s')
                   | _ => (false, s)
                   end in
  let '(radix, s) := match s with
                     | String "0" (String "x" s') | String "0" (String "X" s') => (16, s')
                     | _ => (10, s)
                     end in
  match digits_prefix radix s None with
  | None => NaN
  | Some n => if n =? 0 then S754_zero neg else Z2N (if neg then - n else n)
  end.

(** A string of 24 hexadecimal digits, read as the id it names. *)
Definition hex24 (s : string) : option N :=
  if (String.length s =? 24)%nat then hex_go s 0%N else None.

End Text.
Export Text.

(** ** The document stores, as the routes use them *)

Module Store.

(** [$group] of the statistics route: one document, or none when no
    report matches. *)
Record Overview := {
  totalReports : Z;
  averageScore : number;
  maxScore : number;
  minScore : number;
  completedReports : Z;
  pendingReports : Z;
  draftReports : Z
}.

(** The [_id] of a [$bucket] output document: the lower boundary of the
    bucket, or the [default] one. *)
Inductive BucketId := BLower (b : Z) | BOther.

Definition BucketId_eqb (a b : BucketId) : bool :=
  match a, b with
  | BLower x, BLower y => x =? y
  | BOther, BOther => true
  | _, _ => false
  end.

Definition Status_eqb (a b : Status) : bool :=
  match a, b with
  | draft, draft | pending, pending | completed, completed => true
  | _, _ => false
  end.

Definition Status_toString (s : Status) : string :=
  match s with
  | draft => "draft"
  | pending => "pending"
  | completed => "completed"
  end.

Definition Status_ofString (s : string) : option Status :=
  if String.eqb s "draft" then Some draft
  else if String.eqb s "pending" then Some pending
  else if String.eqb s "completed" then Some completed
  else None.

Definition newer_first (a b : Report) : Prop := createdAt b <= createdAt a.

#[global] Instance newer_first_dec a b : Decision (newer_first a b) :=
  Z_le_dec (createdAt b) (createdAt a).

Definition all_reports (w : World) : list Report := map snd (map_to_list (reports w)).

Definition count_where (f : Report -> bool) (rs : list Report) : Z :=
  Z.of_nat (length (List.filter f rs)).

(** [$max] and [$min] of a field over the matched documents *)
Definition agg_max (xs : list number) : number :=
  match xs with
  | [] => NaN
  | x :: xs' => fold_left (fun acc y => if Ngt y acc then y else acc) xs' x
  end.

Definition agg_min (xs : list number) : number :=
  match xs with
  | [] => NaN
  | x :: xs' => fold_left (fun acc y => if Nlt y acc then y else acc) xs' x
  end.

Definition agg_avg (xs : list number) : number :=
  Ndiv (fold_left Nadd xs (Z2N 0)) (Z2N (Z.of_nat (length xs))).

Definition group_overview (rs : list Report) : list Overview :=
  match rs with
  | [] => []
  | _ :: _ =>
      [ {| totalReports := Z.of_nat (length rs);
           averageScore := agg_avg (map transparencyScore rs);
           maxScore := agg_max (map transparencyScore rs);
           minScore := agg_min (map transparencyScore rs);
           completedReports := count_where (fun r => Status_eqb (status r) completed) rs;
           pendingReports := count_where (fun r => Status_eqb (status r) pending) rs;
           draftReports := count_where (fun r => Status_eqb (status r) draft) rs |} ]
  end.

(** [$bucket]: a value [x] falls into the bucket of the boundary pair
    [lo <= x < hi], every upper boundary being exclusive; a value in no
    bucket goes to the [default] one. *)
Fixpoint bucket_of (boundaries : list Z) (x : number) : BucketId :=
  match boundaries with
  | lo :: ((hi :: _) as rest) =>
      if Nge x (Z2N lo) && Nlt x (Z2N hi) then BLower lo else bucket_of rest x
  | _ => BOther
  end.

(** The output documents [{ _id, count }]: the non-empty buckets in
    boundary order, the default bucket last. *)
Definition bucket (boundaries : list Z) (rs : list Report) : list (BucketId * Z) :=
  let count id :=
    count_where (fun r => BucketId_eqb (bucket_of boundaries (transparencyScore r)) id) rs in
  List.filter (fun d => 0 <? snd d)
    (map (fun lo => (BLower lo, count (BLower lo))) (removelast boundaries)
       ++ [(BOther, count BOther)]).

Section Documents.
Context `{Engine}.

(** [product.toObject()], schema paths only *)
Definition Product_toObject (p : Product) : value :=
  VObj (list_to_map
          [("name", VStr (p_name p));
           ("category", VStr (p_category p));
           ("brand", VStr (p_brand p));
           ("ingredients", VArr (map VStr (p_ingredients p)));
           ("description", match p_description p with
                           | Some d => VStr d
                           | None => VUndefined
                           end)]%string).

(** Mongoose's [castString]: null and undefined stay as they are (here
    [None]); a string, a number and a boolean print; an object that
    holds a non-empty string under [_id] is cast to that string; every
    other object and every array is refused. *)
Definition castString (v : value) : result (option string) :=
  match v with
  | VUndefined | VNull => Ok None
  | VStr s => Ok (Some s)
  | VNum x => Ok (Some (NumberToString x))
  | VBool true => Ok (Some "true"%string)
  | VBool false => Ok (Some "false"%string)
  | VArr _ => Throw CastError
  | VObj o =>
      match o !! "_id"%string with
      | Some (VStr (String c s)) => Ok (Some (String c s))
      | _ => Throw CastError
      end
  end.

(** A String path with [trim: true]. A missing string is cast to the
    empty one, which [required] rejects all the same. *)
Definition cast_String (v : value) : result string :=
  match castString v with
  | Ok (Some s) => Ok (trim s)
  | Ok None => Ok EmptyString
  | Throw e => Throw e
  end.

Fixpoint cast_each (l : list value) : result (list string) :=
  match l with
  | [] => Ok []
  | v :: l' =>
      match cast_String v, cast_each l' with
      | Ok s, Ok ss => Ok (s :: ss)
      | Throw e, _ | _, Throw e => Throw e
      end
  end.

(** An array path: a non-array value is wrapped in an array. *)
Definition cast_Strings (v : value) : result (list string) :=
  match v with
  | VUndefined | VNull => Ok []
  | VArr l => cast_each l
  | _ => cast_each [v]
  end.

(** The nested path [analysis] of a new document: an object sets the
    three lists; any other value sets nothing (the constructor of a
    document skips a nested path that is given no object), and the
    lists are empty. *)
Definition cast_Analysis (v : value) : result Analysis :=
  match v with
  | VObj _ =>
      match cast_Strings (get v "strengths"),
            cast_Strings (get v "improvements"),
            cast_Strings (get v "recommendations") with
      | Ok a, Ok b, Ok c =>
          Ok {| strengths := a; improvements := b; recommendations := c |}
      | _, _, _ => Throw CastError
      end
  | _ => Ok {| strengths := []; improvements := []; recommendations := [] |}
  end.

(** Mongoose's [castNumber]. Null, undefined and the empty string are
    cast to null: here NaN, which [min] rejects as [required] rejects
    null. A string that is no number, an array and an object are
    refused. *)
Definition cast_Number (v : value) : result number :=
  match v with
  | VUndefined | VNull | VStr EmptyString => Ok NaN
  | VNum x => Ok x
  | VStr s =>
      match StringToNumber s with
      | S754_nan => Throw CastError
      | x => Ok x
      end
  | VBool true => Ok (Z2N 1)
  | VBool false => Ok (Z2N 0)
  | VArr _ | VObj _ => Throw CastError
  end.

(** A String path with an [enum]: the status of a report. *)
Definition cast_Status (v : value) : result Status :=
  match castString v with
  | Ok (Some s) =>
      match Status_ofString s with
      | Some st => Ok st
      | None => Throw ValidationError
      end
  | Ok None => Throw ValidationError
  | Throw e => Throw e
  end.
End Documents.

(** The validators of [ReportSchema], then its pre-save hook. *)
Definition schema_valid (r : Report) : bool :=
  match userId r with Some _ => true | None => false end
  && negb (String.eqb (summary r) EmptyString)
  && (Nat.leb (String.length (summary r)) 2000)
  && Nge (transparencyScore r) (Z2N 0)
  && Nge (Z2N 100) (transparencyScore r).

Definition pre_save_ok (r : Report) : bool :=
  negb (Status_eqb (status r) completed && Nlt (transparencyScore r) (Z2N 0)).

Definition Product_findById (id : ObjectId) : M (option Product) :=
  fun w => (Ok (products w !! id), w).

Definition Report_findById (id : ObjectId) : M (option Report) :=
  fun w => (Ok (reports w !! id), w).

(** The id a route parameter or a body field names; anything but 24
    hexadecimal digits is a CastError. *)
Definition castObjectId (s : string) : M ObjectId :=
  match hex24 s with
  | Some id => ret id
  | None => throw CastError
  end.

(** The id a value names: that of a string; the validators of the routes
    let nothing else through. *)
Definition castObjectId_of (v : value) : M ObjectId :=
  match v with
  | VStr s => castObjectId s
  | _ => throw CastError
  end.

(** [Report.create(doc)] *)
Definition Report_create (doc : Report) : M Report :=
  fun w =>
    let r := {| r_id := fresh (dom (reports w));
                productId := productId doc; userId := userId doc;
                summary := summary doc;
                transparencyScore := transparencyScore doc;
                analysis := analysis doc; answers := answers doc;
                pdfUrl := pdfUrl doc; status := status doc;
                createdAt := clock w; updatedAt := clock w |} in
    if schema_valid r && pre_save_ok r
    then (Ok r, set_trace (trace w ++ [EvReportCreate (r_id r)])
                  (set_reports (fun m => <[r_id r := r]> m) w))
    else (Throw ValidationError, w).

(** [report.save()] of a document loaded from the store. The document is
    validated whether it was changed or not. Mongoose writes it, and
    the timestamps plugin sets [updatedAt], only when a path was
    modified: an unmodified document is left as it is in the store. *)
Definition Report_save (doc : Report) (modified : bool) : M Report :=
  fun w =>
    let r := {| r_id := r_id doc;
                productId := productId doc; userId := userId doc;
                summary := summary doc;
                transparencyScore := transparencyScore doc;
                analysis := analysis doc; answers := answers doc;
                pdfUrl := pdfUrl doc; status := status doc;
                createdAt := createdAt doc;
                updatedAt := if modified then clock w else updatedAt doc |} in
    if schema_valid r && pre_save_ok r
    then (Ok r, if modified
                then set_trace (trace w ++ [EvReportSave (r_id r)])
                       (set_reports (fun m => <[r_id r := r]> m) w)
                else w)
    else (Throw ValidationError, w).

(** [report.deleteOne()] *)
Definition Report_deleteOne (doc : Report) : M unit :=
  fun w =>
    (Ok tt, set_trace (trace w ++ [EvReportDelete (r_id doc)])
              (set_reports (fun m => delete (r_id doc) m) w)).

End Store.
Export Store.

(** ** The routes of [/api/reports] *)

Module Routes.

(** [req.query] of the list route *)
Record Query := {
  q_page : option string;
  q_limit : option string;
  q_status : option string;
  q_minScore : option string;
  q_maxScore : option string
}.

(** [AuthRequest]: [user] is what [protect] attaches. *)
Record Request := {
  authorization : option string;
  params_id : string;
  query : Query;
  body : value;
  user_ : option User
}.

Definition with_user (u : User) (req : Request) : Request :=
  {| authorization := authorization req; params_id := params_id req;
     query := query req; body := body req; user_ := Some u |}.

(** The JSON envelope [{ success, data | error, ... }]. A report is sent
    with its product reference populated. [count] and [total] are
    lengths; [page] and [totalPages] are the Numbers the handler
    computed. *)
Inductive Payload :=
| PError (error : string)
| PValidation
| PReport (data : Report) (product : option Product)
| PList (count total : Z) (page totalPages : number) (data : list (Report * option Product))
| PStats (overview : Overview) (scoreDistribution : list (BucketId * Z))
| PMessage (message : string).

Record Response := {
  status_code : Z;
  payload : Payload
}.

Definition json (code : Z) (p : Payload) : M Response :=
  ret {| status_code := code; payload := p |}.

(** [protect]: the bearer token of the request resolved to an active
    user, or the 401 response. *)
Definition protect (req : Request) : M (Response + User) :=
  let token :=
    match authorization req with
    | Some h => if String.prefix "Bearer" h then nth_error (split_space h) 1 else None
    | None => None
    end in
  match token with
  | None | Some EmptyString =>
      ret (inl {| status_code := 401; payload := PError "Not authorized, no token provided" |})
  | Some t =>
      fun w =>
        match jwt_verify w t with
        | None =>
            (Ok (inl {| status_code := 401; payload := PError "Not authorized, token failed" |}), w)
        | Some id =>
            match users w !! id with
            | None =>
                (Ok (inl {| status_code := 401;
                            payload := PError "Not authorized, user not found" |}), w)
            | Some u =>
                if negb (u_isActive u)
                then (Ok (inl {| status_code := 401;
                                 payload := PError "Not authorized, account is deactivated" |}), w)
                else (Ok (inr u), w)
            end
        end
  end.

(** The ownership test shared by the three single-report routes:
    [req.user && report.userId &&
     report.userId.toString() !== req.user._id.toString() &&
     req.user.role !== 'admin'] *)
Definition forbidden (req : Request) (report : Report) : bool :=
  match user_ req, userId report with
  | Some u, Some owner =>
      negb (owner =? u_id u)%N
      && negb (match u_role u with admin => true | user => false end)
  | _, _ => false
  end.

Definition populate (r : Report) : M (Report * option Product) :=
  fun w => (Ok (r, products w !! productId r), w).

(** The four paths the PUT route validates. *)
Definition validated_paths : list string :=
  ["summary"; "transparencyScore"; "status"; "answers"]%string.

(** The keys [Object.assign(report, b)] copies are among the four
    validated paths: the own enumerable keys of [b] are those of an
    object, the indices of an array or of a string, and none for any
    other value. *)
Definition validated_keys_onlyb (b : value) : bool :=
  match b with
  | VObj o =>
      forallb (fun kv => existsb (String.eqb (fst kv)) validated_paths) (map_to_list o)
  | VArr (_ :: _) | VStr (String _ _) => false
  | _ => true
  end.

(** What the libraries decide. [unsafe_count x] is what the driver and
    the server make of a [skip] or a [limit] that is no safe
    non-negative integer (a count all the same, or an error).
    [put_unvalidated report b] is the rest of the PUT handler, once the
    ownership test has passed, on a body [b] that carries a key the
    route does not validate ([userId], [_id], [save], ...), which
    [Object.assign] copies onto the document all the same: a payload to
    send with status 200, or [None] when the handler ends in its
    [catch]. *)
Class Builtins := {
  Builtins_engine :: Engine;
  unsafe_count : number -> result nat;
  put_unvalidated : Report -> value -> M (option Payload)
}.

Section Handlers.
Context `{Builtins}.

(** *** validators *)

(** The test of validator.js's [isInt]. On a numeral the comparison
    with [min] and [max] is that of the integers: [Number] is monotone
    and the bounds of the routes are small integers. *)
Definition isInt (lo hi : Z) (s : string) : bool :=
  match parse_int s with
  | Some n => (lo <=? n) && (n <=? hi)
  | None => false
  end.

Definition isInt_min (lo : Z) (s : string) : bool :=
  match parse_int s with
  | Some n => lo <=? n
  | None => false
  end.

Definition optional {A} (f : A -> bool) (o : option A) : bool :=
  match o with
  | Some a => f a
  | None => true
  end.

Definition isIn_status (s : string) : bool :=
  match Status_ofString s with Some _ => true | None => false end.

Definition isMongoId (v : value) : bool :=
  match v with
  | VStr s => match hex24 s with Some _ => true | None => false end
  | _ => false
  end.

Definition isObject (v : value) : bool :=
  match v with
  | VObj _ => true
  | _ => false
  end.

Definition list_query_valid (q : Query) : bool :=
  optional (isInt_min 1) (q_page q)
  && optional (isInt 1 100) (q_limit q)
  && optional isIn_status (q_status q)
  && optional (isInt 0 100) (q_minScore q)
  && optional (isInt 0 100) (q_maxScore q).

Definition create_body_valid (b : value) : bool :=
  isMongoId (get b "productId") && isObject (get b "answers").

(** express-validator's [toString], which every standard validator
    applies to what it tests. An object prints as [[object Object]];
    one whose own [toString] is falsy reaches [isNaN(value)], which
    throws. *)
Definition stringify_item (v : value) : result string :=
  match v with
  | VUndefined | VNull => Ok EmptyString
  | VBool true => Ok "true"%string
  | VBool false => Ok "false"%string
  | VNum S754_nan => Ok EmptyString
  | VNum x => Ok (NumberToString x)
  | VStr s => Ok s
  | VArr _ => ToString v
  | VObj o =>
      match o !! "toString"%string with
      | Some t => if truthy t then Ok "[object Object]"%string else Throw TypeError
      | None => Ok "[object Object]"%string
      end
  end.

(** Of a non-empty array, the first element is printed. *)
Definition stringify (v : value) : result string :=
  match v with
  | VArr (x :: _) => stringify_item x
  | _ => stringify_item v
  end.

(** A standard validator tests a value that is an array element by
    element, and any other value as it is. *)
Fixpoint standard_each (test : string -> bool) (vs : list value) : result bool :=
  match vs with
  | [] => Ok true
  | v :: vs' =>
      match stringify v with
      | Throw e => Throw e
      | Ok s =>
          match standard_each test vs' with
          | Ok b => Ok (test s && b)
          | Throw e => Throw e
          end
      end
  end.

Definition standard (test : string -> bool) (v : value) : result bool :=
  standard_each test (match v with
                      | VArr l => l
                      | _ => [v]
                      end).

(** [.optional()]: a field that is undefined is not validated. *)
Definition optional_field (f : value -> result bool) (v : value) : result bool :=
  match v with
  | VUndefined => Ok true
  | _ => f v
  end.

(** The four chains of the PUT route, in their order: whether no chain
    found an error, or what the first chain that throws passes to
    [next]. *)
Definition update_body_check (b : value) : result bool :=
  match optional_field (standard (fun s => Nat.leb (String.length s) 2000)) (get b "summary"),
        optional_field (standard (isInt 0 100)) (get b "transparencyScore"),
        optional_field (standard isIn_status) (get b "status") with
  | Ok ok1, Ok ok2, Ok ok3 =>
      Ok (ok1 && ok2 && ok3
          && match get b "answers" with
             | VUndefined => true
             | v => isObject v
             end)
  | Throw e, _, _ | Ok _, Throw e, _ | Ok _, Ok _, Throw e => Throw e
  end.

(** The validators ran, and [validationResult(req)] is empty. *)
Definition update_body_valid (b : value) : bool :=
  match update_body_check b with
  | Ok ok => ok
  | Throw _ => false
  end.

Definition validation_failed : M Response := json 400 PValidation.

(** [parseInt(s) || d]; [parseInt(undefined)] is NaN. *)
Definition parseInt_or (o : option string) (d : number) : number :=
  let n := match o with
           | Some s => parseInt s
           | None => NaN
           end in
  if truthy (VNum n) then n else d.

(** *** GET /stats/overview *)

Definition stats_match (req : Request) (r : Report) : bool :=
  match user_ req with
  | Some u => match userId r with
              | Some owner => (owner =? u_id u)%N
              | None => false
              end
  | None => true
  end.

Definition zero_overview : Overview :=
  {| totalReports := 0; averageScore := Z2N 0; maxScore := Z2N 0; minScore := Z2N 0;
     completedReports := 0; pendingReports := 0; draftReports := 0 |}.

Definition get_stats_overview (req : Request) : M Response :=
  try_catch
    (fun w =>
       let matched := List.filter (stats_match req) (all_reports w) in
       let stats := group_overview matched in
       let scoreDistribution := bucket [0; 20; 40; 60; 80; 100] matched in
       json 200 (PStats (match stats with
                         | s :: _ => s
                         | [] => zero_overview
                         end) scoreDistribution) w)
    (fun _ => json 500 (PError "Server error fetching statistics")).

(** *** GET / *)

(** The query document built from the request. A string parameter
    counts when it is non-empty; the bounds are read by [parseInt]. *)
Definition score_bound (o : option string) (test : number -> bool) : bool :=
  match o with
  | Some (String _ _ as s) => test (parseInt s)
  | _ => true
  end.

Definition list_filter (req : Request) (r : Report) : bool :=
  let q := query req in
  (match user_ req with
   | Some u => match userId r with
               | Some owner => (owner =? u_id u)%N
               | None => false
               end
   | None => true
   end)
  && (match q_status q with
      | Some (String _ _ as s) => String.eqb (Status_toString (status r)) s
      | _ => true
      end)
  && score_bound (q_minScore q) (fun b => Nge (transparencyScore r) b)
  && score_bound (q_maxScore q) (fun b => Nge b (transparencyScore r)).

(** [.skip(x)] and [.limit(x)] of a query *)
Definition Query_count (x : number) : result nat :=
  match safe_count x with
  | Some n => Ok n
  | None => unsafe_count x
  end.

(** [Report.find(filter).populate(...).sort({ createdAt: -1 })
      .skip(skip).limit(limit).lean()]; a limit of 0 is no limit. *)
Definition Report_find (f : Report -> bool) (skip limit : number)
  : M (list (Report * option Product)) :=
  let* n := of_result (Query_count skip) in
  let* k := of_result (Query_count limit) in
  fun w =>
    let sorted := merge_sort newer_first (List.filter f (all_reports w)) in
    let page := match k with
                | O => drop n sorted
                | _ => take k (drop n sorted)
                end in
    (Ok (map (fun r => (r, products w !! productId r)) page), w).

(** [Report.countDocuments(filter)] *)
Definition Report_countDocuments (f : Report -> bool) : M Z :=
  fun w => (Ok (Z.of_nat (length (List.filter f (all_reports w)))), w).

Definition get_reports (req : Request) : M Response :=
  if negb (list_query_valid (query req)) then validation_failed
  else
    try_catch
      (let page := parseInt_or (q_page (query req)) (Z2N 1) in
       let limit := parseInt_or (q_limit (query req)) (Z2N 10) in
       let skip := Nmul (Nsub page (Z2N 1)) limit in
       let* reports := Report_find (list_filter req) skip limit in
       let* total := Report_countDocuments (list_filter req) in
       json 200 (PList (Z.of_nat (length reports)) total page
                   (Math_ceil (Ndiv (Z2N total) limit)) reports))
      (fun _ => json 500 (PError "Server error fetching reports")).

(** *** GET /:id *)

Definition get_report (req : Request) : M Response :=
  try_catch
    (let* id := castObjectId (params_id req) in
     let* found := Report_findById id in
     match found with
     | None => json 404 (PError "Report not found")
     | Some report =>
         if forbidden req report then json 403 (PError "Forbidden")
         else
           let* data := populate report in
           json 200 (PReport (fst data) (snd data))
     end)
    (fun _ => json 500 (PError "Server error fetching report")).

(** *** POST / *)

(** [axios.post(AI_SERVICE_URL + '/api/ai/analyze-product', ...)],
    then [.data] *)
Definition axios_post_analyze (product : Product) (answers : value) : M value :=
  fun w =>
    let w' := set_trace (trace w ++ [EvAiRequest (p_id product)]) w in
    match ai_service w (Product_toObject product) answers with
    | Some data => (Ok data, w')
    | None => (Throw AxiosError, w')
    end.

(** The template literal of the fallback summary. *)
Definition fallback_summary (name : string) : string :=
("Analysis for " ++ name
 ++ ": This product shows basic transparency with room for improvement.")%string.

(** The object built in the [catch] of the AI call, [score] being its
    [transparencyScore]. *)
Definition fallback_value (product : Product) (score : number) : value :=
VObj (list_to_map
  [("summary", VStr (fallback_summary (p_name product)));
   ("transparencyScore", VNum score);
   ("analysis",
    VObj (list_to_map
      [("strengths",
        VArr [VStr "Product information provided"; VStr "Basic ingredient list available"]);
       ("improvements",
        VArr [VStr "Add sustainability data"; VStr "Include certification details"]);
       ("recommendations",
        VArr [VStr "Provide sourcing details"; VStr "Add eco-impact information"])]))
  ]%string).

(** [transparencyScore: Math.floor(Math.random() * 40) + 40] *)
Definition fallback_analysis (product : Product) : M value :=
let* r := Math_random in
ret (fallback_value product (Nadd (Math_floor (Nmul r (Z2N 40))) (Z2N 40))).

(** [o.k] where [o] may be null or undefined: a TypeError then. *)
Definition member (o : value) (k : string) : M value :=
  match o with
  | VUndefined | VNull => throw TypeError
  | _ => ret (get o k)
  end.

Definition lift {A} (r : result A) (e : Exn) : M A :=
  match r with
  | Ok a => ret a
  | Throw _ => throw e
  end.

Definition post_report (req : Request) : M Response :=
  if negb (create_body_valid (body req)) then validation_failed
  else
    try_catch
      (let productId_ := get (body req) "productId" in
       let answers_ := get (body req) "answers" in
       let* pid := castObjectId_of productId_ in
       let* found := Product_findById pid in
       match found with
       | None => json 404 (PError "Product not found")
       | Some product =>
           let* aiAnalysis :=
             try_catch (axios_post_analyze product answers_)
                       (fun _ => fallback_analysis product) in
           emit EvScorer ;;
           let* computedScore :=
             deriveTransparencyScore aiAnalysis (Product_toObject product) answers_ in
           let* summary_ := member aiAnalysis "summary" in
           let* analysis_ := member aiAnalysis "analysis" in
           let* summary_ := lift (cast_String summary_) ValidationError in
           let* analysis_ := lift (cast_Analysis analysis_) ValidationError in
           let* report :=
             Report_create
               {| r_id := 0%N; productId := pid;
                  userId := option_map u_id (user_ req);
                  summary := summary_; transparencyScore := computedScore;
                  analysis := analysis_; answers := answers_;
                  pdfUrl := None; status := completed;
                  createdAt := 0; updatedAt := 0 |} in
           let* data := populate report in
           json 201 (PReport (fst data) (snd data))
       end)
      (fun _ => json 500 (PError "Server error creating report")).

(** *** PUT /:id *)

(** [Object.assign(report, req.body)] on a body that carries validated
    paths only: each key that is present is cast to its schema type and
    set. What cannot be cast fails the validation of [save]. *)
Definition assign_body (report : Report) (b : value) : M Report :=
  let* summary_ :=
    match get b "summary" with
    | VUndefined => ret (summary report)
    | v => lift (cast_String v) ValidationError
    end in
  let* score :=
    match get b "transparencyScore" with
    | VUndefined => ret (transparencyScore report)
    | v => lift (cast_Number v) ValidationError
    end in
  let* status_ :=
    match get b "status" with
    | VUndefined => ret (status report)
    | v => lift (cast_Status v) ValidationError
    end in
  let answers_ :=
    match get b "answers" with
    | VUndefined => answers report
    | v => v
    end in
  ret {| r_id := r_id report; productId := productId report; userId := userId report;
         summary := summary_; transparencyScore := score;
         analysis := analysis report; answers := answers_;
         pdfUrl := pdfUrl report; status := status_;
         createdAt := createdAt report; updatedAt := updatedAt report |}.

(** A path of the document is marked modified when the body sets it to
    a value that is not [deepEqual] to the one it had. *)
Definition is_set (b : value) (k : string) : bool :=
  match get b k with
  | VUndefined => false
  | _ => true
  end.

Definition modified (report : Report) (b : value) (assigned : Report) : bool :=
  (is_set b "summary" && negb (String.eqb (summary assigned) (summary report)))
  || (is_set b "transparencyScore"
      && negb (Neq (transparencyScore assigned) (transparencyScore report)))
  || (is_set b "status" && negb (Status_eqb (status assigned) (status report)))
  || (is_set b "answers" && negb (deepEqual (answers assigned) (answers report))).

(** [res.json({ success: true, data: report })] after
    [report.populate('productId', 'name brand category')]: the Product
    schema serialises its virtuals, and [ingredientCount] reads
    [this.ingredients.length] of a product that was loaded without its
    ingredients, a TypeError. Only a report whose product is gone can be
    sent. *)
Definition json_without_ingredients (data : Report * option Product) : M Response :=
  match snd data with
  | Some _ => throw TypeError
  | None => json 200 (PReport (fst data) None)
  end.

Definition put_report (req : Request) : M Response :=
  match update_body_check (body req) with
  | Throw e => throw e
  | Ok false => validation_failed
  | Ok true =>
      try_catch
        (let* id := castObjectId (params_id req) in
         let* found := Report_findById id in
         match found with
         | None => json 404 (PError "Report not found")
         | Some report =>
             if forbidden req report then json 403 (PError "Forbidden")
             else if negb (validated_keys_onlyb (body req))
             then
               let* sent := put_unvalidated report (body req) in
               match sent with
               | Some p => json 200 p
               | None => json 500 (PError "Server error updating report")
               end
             else
               let* assigned := assign_body report (body req) in
               let* saved := Report_save assigned (modified report (body req) assigned) in
               let* data := populate saved in
               json_without_ingredients data
         end)
        (fun _ => json 500 (PError "Server error updating report"))
  end.

(** *** DELETE /:id *)

Definition delete_report (req : Request) : M Response :=
  try_catch
    (let* id := castObjectId (params_id req) in
     let* found := Report_findById id in
     match found with
     | None => json 404 (PError "Report not found")
     | Some report =>
         if forbidden req report then json 403 (PError "Forbidden")
         else
           Report_deleteOne report ;;
           json 200 (PMessage "Report deleted successfully")
     end)
    (fun _ => json 500 (PError "Server error deleting report")).

(** *** the router: [protect] first, then the validators and the handler

    An error that a validator passes to [next] reaches the error handler
    of the application, which answers 500 with the message of the
    error; of the routes here only the validators of PUT can throw, the
    TypeError of [isNaN]. *)

Definition route (handler : Request -> M Response) (req : Request) (w : World)
  : Response * World :=
  match protect req w with
  | (Ok (inl denied), w') => (denied, w')
  | (Ok (inr u), w') =>
      match handler (with_user u req) w' with
      | (Ok res, w'') => (res, w'')
      | (Throw _, w'') =>
          ({| status_code := 500;
              payload := PError "Cannot convert object to primitive value" |}, w'')
      end
  | (Throw _, w') => ({| status_code := 401; payload := PError "Not authorized, token failed" |}, w')
  end.

End Handlers.
End Routes.
Export Routes.

(** ** Well-formed inputs and the vocabulary of the proofs *)

Module Wf.

(** A binary64 value in canonical form. *)
Definition valid (x : number) : Prop := valid_binary prec emax x = true.

(** What [JSON.parse] can deliver: every number is a binary64 value,
    and an array or an object has fewer than 2^32 entries (the bound of
    [length]). *)
Inductive wf_value : value -> Prop :=
| wf_undefined : wf_value VUndefined
| wf_null : wf_value VNull
| wf_bool b : wf_value (VBool b)
| wf_num x : valid x -> wf_value (VNum x)
| wf_str s : wf_value (VStr s)
| wf_arr l :
    Forall wf_value l -> Z.of_nat (length l) < 2 ^ 32 -> wf_value (VArr l)
| wf_obj o :
    (forall k v, o !! k = Some v -> wf_value v) ->
    Z.of_nat (size o) < 2 ^ 32 -> wf_value (VObj o).

(** What [Math.random()] returns: a Number of positive sign, at least
    [+0] and below 1. *)
Definition unit_interval (r : number) : bool :=
  valid_binary prec emax r
  && match r with
     | S754_zero false => true
     | S754_finite false _ _ => Nlt r (Z2N 1)
     | _ => false
     end.

Definition random_ok (w : World) : Prop :=
  forall n, unit_interval (random_source w n) = true.

(** [x] is the Number of an integer between [lo] and [hi]. *)
Definition is_int_in (lo hi : Z) (x : number) : Prop :=
  exists k, lo <= k <= hi /\ x = Z2N k.

(** [x] is [+0] or positive with a negative exponent, and denotes at
    most [Nb / 2 ^ t]. *)
Definition below (Nb t : Z) (x : number) : Prop :=
  match x with
  | S754_zero false => True
  | S754_finite false m e => e < 0 /\ Zpos m * 2 ^ t <= Nb * 2 ^ (- e)
  | _ => False
  end.

Definition nonneg_or_inf (x : number) : Prop :=
  match x with
  | S754_zero false | S754_finite false _ _ | S754_infinity false => True
  | _ => False
  end.

Definition nonneg_finite (x : number) : Prop :=
  match x with
  | S754_zero false | S754_finite false _ _ => True
  | _ => False
  end.

(** [Math.max(0, Math.min(100, x))] *)
Definition clamp (x : number) : number := Math_max (Z2N 0) (Math_min (Z2N 100) x).

(** [Math.round(b * 0.6 + p * 0.4)] *)
Definition mix (b p : number) : number :=
  Math_round (Nadd (Nmul b lit_0_6) (Nmul p lit_0_4)).

(** Structural equality of two numbers. *)
Definition number_eqb (x y : number) : bool :=
  match x, y with
  | S754_zero s1, S754_zero s2 => Bool.eqb s1 s2
  | S754_infinity s1, S754_infinity s2 => Bool.eqb s1 s2
  | S754_nan, S754_nan => true
  | S754_finite s1 m1 e1, S754_finite s2 m2 e2 =>
      Bool.eqb s1 s2 && Pos.eqb m1 m2 && Z.eqb e1 e2
  | _, _ => false
  end.

(** The integers [lo, lo + 1, ..., lo + n - 1]. *)
Definition Zrange (lo : Z) (n : nat) : list Z :=
  map (fun i => lo + Z.of_nat i) (seq 0 n).

(** The largest Number below 1. *)
Definition pred_one : number := S754_finite false 9007199254740991 (-53).

(** The scorer as the specification words it: steps 6 and 7, the
    penalty being a bare [floor]. *)
Definition spec_computed (base completenessRatio categoryBoost : number) : number :=
  let computed :=
    Math_round (Nadd (Nmul base lit_0_6)
                     (Nmul (Math_round (Nmul completenessRatio (Z2N 100))) lit_0_4)) in
  if Nge completenessRatio lit_0_5
  then Nadd computed categoryBoost
  else Nsub computed (Math_floor (Nmul (Nsub (Z2N 1) completenessRatio) (Z2N 5))).

(** The arithmetic of [combine] on integers: [b] the base, [p] the
    completeness percentage, [c] the category boost, [q] the penalty. *)
Definition combineZ (b p c q : Z) (bonus : bool) : Z :=
  let computed := (6 * b + 4 * p + 5) / 10 in
  Z.max 0 (Z.min 100 (if bonus then computed + c else computed - q)).

(** The reports a list response carries. *)
Definition listed (p : Payload) : list Report :=
  match p with
  | PList _ _ _ _ data => map fst data
  | _ => []
  end.

End Wf.
Export Wf.

(** ** Sample data for the examples *)

Module Samples.

(** An engine for the examples: none of them converts between text and
    numbers, so both conversions are kept trivial; no example asks for
    an unsafe count or sends an unvalidated key. *)
Definition Conversions0 : Engine :=
  {| StringToNumber := fun _ => NaN;
     NumberToString := fun _ => "NaN"%string;
     StringToNumber_valid := fun _ => eq_refl |}.

#[global] Instance Engine0 : Builtins :=
  {| Builtins_engine := Conversions0;
     unsafe_count := fun _ => Throw MongoServerError;
     put_unvalidated := fun _ _ => ret None |}.

Definition obj (l : list (string * value)) : value := VObj (list_to_map l).

Definition alice : User := {| u_id := 1%N; u_role := user; u_isActive := true |}.
Definition bob : User := {| u_id := 2%N; u_role := user; u_isActive := true |}.
Definition carol : User := {| u_id := 3%N; u_role := admin; u_isActive := true |}.

Definition soap : Product :=
  {| p_id := 10%N; p_name := "Soap"; p_category := "Skincare"; p_brand := "Acme";
     p_ingredients := ["water"%string]; p_description := None |}.

(** Three users, one product, no report; the AI service is down and
    [Math.random()] keeps returning 0.5. *)
Definition world0 : World :=
  {| users := list_to_map [(1%N, alice); (2%N, bob); (3%N, carol)];
     products := {[ 10%N := soap ]};
     reports := ∅;
     jwt_verify := fun t =>
       if String.eqb t "alice" then Some 1%N
       else if String.eqb t "bob" then Some 2%N
       else if String.eqb t "carol" then Some 3%N
       else None;
     ai_service := fun _ _ => None;
     random_source := fun _ => decimal 5 1;
     random_used := 0;
     clock := 1000;
     trace := [] |}.

(** The same world, [Math.random()] returning 0.9 instead. *)
Definition world0_hi : World :=
  {| users := users world0; products := products world0; reports := reports world0;
     jwt_verify := jwt_verify world0; ai_service := ai_service world0;
     random_source := fun _ => decimal 9 1;
     random_used := random_used world0; clock := clock world0; trace := trace world0 |}.

Definition skincare : value := obj [("category"%string, VStr "Skincare")].
Definition answers1 : value := obj [("q1"%string, VStr "yes")].
Definition answers2 : value := obj [("q1"%string, VStr "yes"); ("q2"%string, VStr EmptyString)].

(** AI results: a score of 70; a score of 50 with five expected
    questions; a score of 65.5. *)
Definition ai70 : value := obj [("transparencyScore"%string, VNum (Z2N 70))].
Definition ai50 : value :=
  obj [("score"%string, VNum (Z2N 50));
       ("questions"%string, VArr [VNull; VNull; VNull; VNull; VNull])].
Definition ai655 : value := obj [("transparencyScore"%string, VNum (decimal 655 1))].

Definition no_query : Query :=
  {| q_page := None; q_limit := None; q_status := None;
     q_minScore := None; q_maxScore := None |}.

(** A request of [who] on the report named by [id], with body [b] and
    no query. *)
Definition request (who : string) (id : string) (b : value) : Request :=
{| authorization := Some ("Bearer " ++ who)%string; params_id := id;
   query := no_query; body := b; user_ := None |}.

Definition create_body (pid : string) : value :=
obj [("productId"%string, VStr pid); ("answers"%string, answers1)].

(** [world0] after alice has created a report for the soap. *)
Definition world1 : World :=
snd (route post_report (request "alice" EmptyString (create_body "00000000000000000000000a")) world0).

(** A world whose AI service answers with a score of 100, and what it
    becomes when alice creates a report there. *)
Definition world_ai100 : World :=
{| users := users world0; products := products world0; reports := reports world0;
   jwt_verify := jwt_verify world0;
   ai_service := fun _ _ =>
     Some (obj [("summary"%string, VStr "Fully disclosed.");
                ("transparencyScore"%string, VNum (Z2N 100))]);
   random_source := random_source world0;
   random_used := random_used world0; clock := clock world0; trace := trace world0 |}.

Definition world100 : World :=
snd (route post_report (request "alice" EmptyString (create_body "00000000000000000000000a"))
       world_ai100).

End Samples.
Export Samples.

(** ** The virtuals of the Report schema *)

Module ReportVirtuals.

(** [scoreCategory] *)
Definition scoreCategory (r : Report) : string :=
  if Nge (transparencyScore r) (Z2N 80) then "Excellent"
  else if Nge (transparencyScore r) (Z2N 60) then "Good"
  else if Nge (transparencyScore r) (Z2N 40) then "Fair"
  else "Needs Improvement".

(** [Object.values(v)], and with it [Object.keys(v)], of which only the
    length is taken: a TypeError on null and undefined; an object has
    its property values, an array its elements, a string its
    characters, a number or a boolean nothing. *)
Definition Object_values (v : value) : result (list value) :=
  match v with
  | VUndefined | VNull => Throw TypeError
  | VObj o => Ok (map snd (map_to_list o))
  | VArr l => Ok l
  | VStr s => Ok (map (fun c => VStr (String c EmptyString)) (list_ascii_of_string s))
  | VBool _ | VNum _ => Ok []
  end.

(** [value !== null && value !== undefined && value !== ''] *)
Definition filled (v : value) : bool :=
  match v with
  | VNull | VUndefined => false
  | VStr s => negb (String.eqb s EmptyString)
  | _ => true
  end.

(** [completionPercentage] *)
Definition completionPercentage (r : Report) : result number :=
  match Object_values (answers r) with
  | Throw e => Throw e
  | Ok values =>
      let totalFields := Z2N (Z.of_nat (length values)) in
      let completedFields := Z2N (Z.of_nat (length (List.filter filled values))) in
      Ok (if Ngt totalFields (Z2N 0)
          then Math_round (Nmul (Ndiv completedFields totalFields) (Z2N 100))
          else Z2N 0)
  end.

End ReportVirtuals.
Export ReportVirtuals.

(** ** The remaining product routes: GET and DELETE [/api/products/:id] *)

Module ProductRoutes.

Inductive ProductPayload :=
| PPError (error : string)
| PPProduct (data : Product)
| PPMessage (message : string).

Record ProductResponse := {
  pr_status : Z;
  pr_payload : ProductPayload
}.

Definition set_products (f : gmap N Product -> gmap N Product) (w : World) : World :=
  {| users := users w; products := f (products w); reports := reports w;
     jwt_verify := jwt_verify w; ai_service := ai_service w;
     random_source := random_source w; random_used := random_used w;
     clock := clock w; trace := trace w |}.

(** [Product.findByIdAndDelete(id)]: the document that was there. *)
Definition Product_findByIdAndDelete (id : ObjectId) : M (option Product) :=
  fun w => (Ok (products w !! id), set_products (fun m => delete id m) w).

Definition get_product (req : Request) : M ProductResponse :=
  try_catch
    (let* id := castObjectId (params_id req) in
     let* product := Product_findById id in
     match product with
     | None => ret {| pr_status := 404; pr_payload := PPError "Product not found" |}
     | Some p => ret {| pr_status := 200; pr_payload := PPProduct p |}
     end)
    (fun _ => ret {| pr_status := 500; pr_payload := PPError "Server error fetching product" |}).

Definition delete_product (req : Request) : M ProductResponse :=
  try_catch
    (let* id := castObjectId (params_id req) in
     let* product := Product_findByIdAndDelete id in
     match product with
     | None => ret {| pr_status := 404; pr_payload := PPError "Product not found" |}
     | Some _ =>
         ret {| pr_status := 200; pr_payload := PPMessage "Product deleted successfully" |}
     end)
    (fun _ => ret {| pr_status := 500; pr_payload := PPError "Server error deleting product" |}).

End ProductRoutes.
Export ProductRoutes.

(** ** The routes of [/api/ai] *)

Module AiRoutes.

(** What a handler of [/api/ai] reads of its request: the parsed body
    and [validationResult(req)], the errors the validators of the route
    left. *)
Record AiRequest := {
  ai_body : value;
  validation_errors : list value
}.

Record JsonResponse := {
  http_status : Z;
  http_body : value
}.

(** The helpers at the end of the module: their bodies are empty, so
    each returns [undefined]. *)
Definition generateFallbackQuestions (productData : value) : value := VUndefined.
Definition calculateFallbackScore (productData answers_ : value) : value := VUndefined.
Definition generateFallbackAnalysis (product answers_ : value) : value := VUndefined.

Definition isEmpty (errors : list value) : bool :=
  match errors with
  | [] => true
  | _ :: _ => false
  end.

Definition validation_failed_json (errors : list value) : JsonResponse :=
  {| http_status := 400;
     http_body := VObj (list_to_map [("success", VBool false);
                                     ("error", VStr "Validation failed");
                                     ("details", VArr errors)]%string) |}.

Definition server_error (text : string) : JsonResponse :=
  {| http_status := 500;
     http_body := VObj (list_to_map [("success", VBool false); ("error", VStr text)]%string) |}.

Section Remote.
(** [process.env.AI_SERVICE_URL] and the service behind it: what a POST
    to a URL answers, [None] when the call fails. *)
Variable AI_SERVICE_URL : option string.
Variable remote : string -> value -> option value.

(** [axios.post(`${process.env.AI_SERVICE_URL}` + path, data)], then
    [.data] *)
Definition axios_post (path : string) (data : value) : M value :=
  fun w =>
    let url := (match AI_SERVICE_URL with
                | Some u => u
                | None => "undefined"
                end ++ path)%string in
    match remote url data with
    | Some d => (Ok d, w)
    | None => (Throw AxiosError, w)
    end.

(** POST /api/ai/generate-questions *)
Definition generate_questions (req : AiRequest) : M JsonResponse :=
  try_catch
    (if negb (isEmpty (validation_errors req))
     then ret (validation_failed_json (validation_errors req))
     else
       let* productData := member (ai_body req) "productData" in
       let* aiQuestions :=
         try_catch
           (let* data :=
              axios_post "/generate-questions"
                (VObj (list_to_map [("productData"%string, productData)])) in
            member data "questions")
           (fun _ => ret (generateFallbackQuestions productData)) in
       ret {| http_status := 200;
              http_body := VObj (list_to_map [("success", VBool true);
                                              ("questions", aiQuestions)]%string) |})
    (fun _ => ret (server_error "Server error generating questions")).

(** POST /api/ai/transparency-score *)
Definition transparency_score (req : AiRequest) : M JsonResponse :=
  try_catch
    (if negb (isEmpty (validation_errors req))
     then ret (validation_failed_json (validation_errors req))
     else
       let* productData := member (ai_body req) "productData" in
       let* answers_ := member (ai_body req) "answers" in
       let* scoreData :=
         try_catch
           (axios_post "/transparency-score"
              (VObj (list_to_map [("productData", productData); ("answers", answers_)]%string)))
           (fun _ => ret (calculateFallbackScore productData answers_)) in
       ret {| http_status := 200;
              http_body := VObj (list_to_map [("success", VBool true);
                                              ("data", scoreData)]%string) |})
    (fun _ => ret (server_error "Server error calculating score")).

(** POST /api/ai/analyze-product *)
Definition analyze_product (req : AiRequest) : M JsonResponse :=
  try_catch
    (if negb (isEmpty (validation_errors req))
     then ret (validation_failed_json (validation_errors req))
     else
       let* product := member (ai_body req) "product" in
       let* answers_ := member (ai_body req) "answers" in
       let* analysis_ :=
         try_catch
           (axios_post "/api/ai/analyze-product"
              (VObj (list_to_map [("product", product); ("answers", answers_)]%string)))
           (fun _ => ret (generateFallbackAnalysis product answers_)) in
       ret {| http_status := 200;
              http_body := VObj (list_to_map [("success", VBool true);
                                              ("data", analysis_)]%string) |})
    (fun _ => ret (server_error "Server error analyzing product")).

End Remote.
End AiRoutes.
Export AiRoutes.

(** ** [errorHandler], the last middleware of the application *)

Module ErrorHandler.

(** [CustomError]. [keyValue] and [errors] list their entries in the
    order [Object.keys] gives them. *)
Record CustomError := {
  err_name : string;
  err_message : string;
  err_stack : string;
  err_statusCode : option number;
  err_code : option number;
  err_keyValue : option (list (string * value));
  err_errors : option (list (string * value))
}.

(** The object [error] of the handler, of which the response reads the
    message and the status code. *)
Record ErrorObject := {
  eo_message : string;
  eo_statusCode : option number
}.

(** The response: its status, and the [success], [error] and [stack]
    fields of its JSON body. *)
Record ErrorResponse := {
  er_status : number;
  er_success : bool;
  er_error : string;
  er_stack : option string
}.

Section WithEngine.
Context `{Engine}.

(** [vals.map(val => val.message)]: a TypeError on a null or undefined
    entry. *)
Fixpoint messages (vals : list value) : result (list value) :=
  match vals with
  | [] => Ok []
  | val :: vals' =>
      match val with
      | VUndefined | VNull => Throw TypeError
      | _ =>
          match messages vals' with
          | Ok ms => Ok (get val "message" :: ms)
          | Throw e => Throw e
          end
      end
  end.

(** [l.join(sep)]; an element that cannot be printed throws. *)
Definition join (sep : string) (l : list value) : result string :=
  join_with ToString sep l.

Definition errorHandler (NODE_ENV : option string) (err : CustomError)
  : result ErrorResponse :=
  let error := {| eo_message := err_message err; eo_statusCode := err_statusCode err |} in
  let error :=
    if String.eqb (err_name err) "CastError"
    then {| eo_message := "Resource not found"; eo_statusCode := Some (Z2N 404) |}
    else error in
  let error :=
    if match err_code err with Some c => Neq c (Z2N 11000) | None => false end
    then
      let field :=
        match default [] (err_keyValue err) with
        | (k, _) :: _ => k
        | [] => "undefined"
        end in
      {| eo_message := (field ++ " already exists")%string; eo_statusCode := Some (Z2N 400) |}
    else error in
  let validated :=
    if String.eqb (err_name err) "ValidationError"
    then
      match messages (map snd (default [] (err_errors err))) with
      | Ok ms =>
          match join ", " ms with
          | Ok message => Ok {| eo_message := message; eo_statusCode := Some (Z2N 400) |}
          | Throw e => Throw e
          end
      | Throw e => Throw e
      end
    else Ok error in
  match validated with
  | Throw e => Throw e
  | Ok error =>
      let error :=
        if String.eqb (err_name err) "JsonWebTokenError"
        then {| eo_message := "Invalid token"; eo_statusCode := Some (Z2N 401) |}
        else error in
      let error :=
        if String.eqb (err_name err) "TokenExpiredError"
        then {| eo_message := "Token expired"; eo_statusCode := Some (Z2N 401) |}
        else error in
      let error :=
        if negb (String.eqb (err_message err) EmptyString)
           && includes (err_message err) "Too many requests"
        then {| eo_message := err_message err; eo_statusCode := Some (Z2N 429) |}
        else error in
      Ok {| er_status := match eo_statusCode error with
                         | Some c => if truthy (VNum c) then c else Z2N 500
                         | None => Z2N 500
                         end;
            er_success := false;
            er_error := if String.eqb (eo_message error) EmptyString
                        then "Server Error"
                        else eo_message error;
            er_stack := match NODE_ENV with
                        | Some env => if String.eqb env "development"
                                      then Some (err_stack err)
                                      else None
                        | None => None
                        end |}
  end.

End WithEngine.
End ErrorHandler.
Export ErrorHandler.

(** ** More vocabulary for the statements *)

Module Wf2.

(** A finite number at the scale [2 ^ e0]: [x] denotes
    [scaled e0 x * 2 ^ e0] when [e0] is at most its exponent. *)
Definition scaled (e0 : Z) (x : number) : Z := Fmant x * 2 ^ (Fexp x - e0).

(** Every stored report sits under its own id and passes the validators
    of the schema. *)
Definition store_ok (w : World) : Prop :=
  forall id r, reports w !! id = Some r -> r_id r = id /\ schema_valid r = true.

(** The body of a PUT sets nothing but the four paths the route
    validates. *)
Definition validated_keys_only (b : value) : Prop := validated_keys_onlyb b = true.

(** The integer a numeral of the query denotes, [d] when it denotes 0 or
    the parameter is missing. *)
Definition numeral_or (o : option string) (d : Z) : Z :=
  match o with
  | Some s => match parse_int s with
              | Some 0 | None => d
              | Some n => n
              end
  | None => d
  end.

(** The integer limit and page a validated query asks for. *)
Definition limit_of (req : Request) : Z := numeral_or (q_limit (query req)) 10.
Definition page_of (req : Request) : Z := numeral_or (q_page (query req)) 1.

(** The reports of the store that the list route matches for a request,
    and those the statistics route matches. *)
Definition matching (req : Request) (w : World) : list Report :=
  List.filter (list_filter req) (all_reports w).

Definition matched (req : Request) (w : World) : list Report :=
  List.filter (stats_match req) (all_reports w).

(** The stores and the clock are the same in two worlds. *)
Definition same_stores (w w' : World) : Prop :=
  users w' = users w /\ products w' = products w /\ reports w' = reports w
  /\ clock w' = clock w /\ jwt_verify w' = jwt_verify w.

(** A computation that writes to no store. *)
Definition reads_only {A} (m : M A) : Prop :=
  forall w r w', m w = (r, w') -> same_stores w w'.

(** The reports a histogram accounts for. *)
Definition total_count (dist : list (BucketId * Z)) : Z :=
  fold_right Z.add 0 (map snd dist).

(** A string without a blank. *)
Definition no_blank (s : string) : bool :=
  forallb (fun c => negb (Ascii.eqb c " ")) (list_ascii_of_string s).

(** The six routes of [/api/reports]. *)
Inductive report_route `{Builtins} : (Request -> M Response) -> Prop :=
| route_stats : report_route get_stats_overview
| route_list : report_route get_reports
| route_get : report_route get_report
| route_post : report_route post_report
| route_put : report_route put_report
| route_delete : report_route delete_report.

(** The category boost of each category of the Product schema. *)
Definition boost_of_category (c : string) : Z :=
  if String.eqb c "Skincare" then 5
  else if String.eqb c "Food & Beverage" then 4
  else if String.eqb c "Personal Care" then 3
  else if String.eqb c "Cleaning Products" then 3
  else if String.eqb c "Clothing" then 2
  else if String.eqb c "Electronics" then 1
  else 0.

Definition schema_categories : list string :=
  ["Skincare"; "Food & Beverage"; "Personal Care"; "Cleaning Products";
   "Clothing"; "Electronics"; "Other"]%string.

End Wf2.
Export Wf2.

(** ** More sample data *)

Module Samples2.

(** The id of alice's report in [world1], as a route parameter. *)
Definition id0 : string := "000000000000000000000000".

(** A report of alice on the soap, as it sits in a store. *)
Definition report_at (id : N) (score : Z) (st : Status) (at_ : Z) : Report :=
  {| r_id := id; productId := 10%N; userId := Some 1%N;
     summary := "A summary."; transparencyScore := Z2N score;
     analysis := {| strengths := []; improvements := []; recommendations := [] |};
     answers := answers1; pdfUrl := None; status := st;
     createdAt := at_; updatedAt := at_ |}.

(** [world0] with three reports of alice: scores 35, 72 and 100, created
    in that order. *)
Definition world3 : World :=
  set_reports (fun _ => list_to_map [(0%N, report_at 0 35 draft 1);
                                      (1%N, report_at 1 72 completed 2);
                                      (2%N, report_at 2 100 completed 3)]) world0.

(** A world with another AI service. *)
Definition set_ai (f : value -> value -> option value) (w : World) : World :=
  {| users := users w; products := products w; reports := reports w;
     jwt_verify := jwt_verify w; ai_service := f;
     random_source := random_source w; random_used := random_used w;
     clock := clock w; trace := trace w |}.

(** An AI result whose score is an object with a [toString] key of its
    own, as JSON can carry one, and a world whose AI service answers
    with it. *)
Definition ai_unprintable : value :=
  obj [("summary"%string, VStr "All good.");
       ("transparencyScore"%string, obj [("toString"%string, VNum (Z2N 1))])].

Definition world_unprintable : World := set_ai (fun _ _ => Some ai_unprintable) world0.

(** A product whose category is such an object. *)
Definition unprintable_category : value :=
  obj [("category"%string, obj [("toString"%string, VNum (Z2N 1))])].

(** [world3] after alice has deleted her first report. *)
Definition world3_deleted : World :=
  snd (delete_report (with_user alice (request "alice" id0 VUndefined)) world3).

Definition query_of (page limit status_ lo hi : option string) : Query :=
  {| q_page := page; q_limit := limit; q_status := status_;
     q_minScore := lo; q_maxScore := hi |}.

Definition list_request (who : string) (q : Query) : Request :=
  {| authorization := Some ("Bearer " ++ who)%string; params_id := EmptyString;
     query := q; body := VUndefined; user_ := None |}.

(** A validated request to the AI routes. *)
Definition ai_request : AiRequest :=
  {| ai_body := obj [("productData"%string, skincare); ("product"%string, skincare);
                     ("answers"%string, answers1)];
     validation_errors := [] |}.

(** An error as Mongoose raises it for a document that fails two
    validators. *)
Definition validation_error : CustomError :=
  {| err_name := "ValidationError"; err_message := "Report validation failed";
     err_stack := "at save"; err_statusCode := None; err_code := None;
     err_keyValue := None;
     err_errors := Some [("summary"%string, obj [("message"%string, VStr "Report summary is required")]);
                         ("transparencyScore"%string, obj [("message"%string, VStr "Score cannot exceed 100")])] |}.

End Samples2.
Export Samples2.

(** * Facts about binary64 arithmetic

    What rounding to nearest does to a value bounded by a representable
    one, stated on [SpecFloat]'s own definitions. *)

Lemma digits2_pos_size p : digits2_pos p = Pos.size p.
Proof. induction p; simpl; congruence. Qed.

Lemma digits2_lower p : 2 ^ (Zpos (digits2_pos p) - 1) <= Zpos p.
Proof.
  rewrite digits2_pos_size.
  pose proof (Pos.size_le p) as Hs.
  assert (Hz : 2 ^ Zpos (Pos.size p) <= 2 * Zpos p).
  { change (2 * Zpos p) with (Zpos p~0). rewrite <- Pos2Z.inj_pow. apply Pos2Z.pos_le_pos, Hs. }
  replace (Zpos (Pos.size p)) with (Zpos (Pos.size p) - 1 + 1) in Hz by lia.
  rewrite Z.pow_add_r in Hz by lia. lia.
Qed.

Lemma digits2_upper p : Zpos p < 2 ^ Zpos (digits2_pos p).
Proof.
  rewrite digits2_pos_size. rewrite <- Pos2Z.inj_pow. apply Pos2Z.pos_lt_pos, Pos.size_gt.
Qed.

Lemma iter_pos_iter {A} (f : A -> A) p x : SpecFloat.iter_pos f p x = Pos.iter f x p.
Proof. revert x. induction p; intros x; simpl; rewrite ?IHp, ?Pos.iter_swap; reflexivity. Qed.

Lemma shr_1_nonneg m r s :
  0 <= m -> shr_1 {| shr_m := m; shr_r := r; shr_s := s |} =
            {| shr_m := Z.div2 m; shr_r := Z.odd m; shr_s := r || s |}.
Proof.
  intros Hm. destruct m as [|p|p]; [reflexivity| |lia].
  destruct p; reflexivity.
Qed.

(** After [k] right shifts of an exact mantissa. *)
Lemma shr_iter_spec M k :
  0 <= M ->
  let rec := Pos.iter shr_1 {| shr_m := M; shr_r := false; shr_s := false |} k in
  shr_m rec = M / 2 ^ Zpos k /\
  (M mod 2 ^ Zpos k = 0 -> shr_r rec = false /\ shr_s rec = false).
Proof.
  intros HM. induction k using Pos.peano_ind.
  - cbv zeta. cbn [Pos.iter]. rewrite shr_1_nonneg by lia. cbn [shr_m shr_r shr_s].
    rewrite Z.div2_div. split; [reflexivity|].
    intros Hmod. split; [|reflexivity].
    rewrite <- Z.negb_even. change (2 ^ 1) with 2 in Hmod.
    rewrite Zeven_mod. rewrite Hmod. reflexivity.
  - cbv zeta in *. rewrite Pos.iter_succ.
    destruct (Pos.iter shr_1 _ k) as [m r s]. simpl in IHk. destruct IHk as [Hm Hrs].
    assert (0 <= m) by (subst m; apply Z.div_pos; lia).
    rewrite shr_1_nonneg by assumption. simpl.
    rewrite Pos2Z.inj_succ, Z.pow_succ_r by lia.
    split.
    + rewrite Z.div2_div, Hm, Z.div_div by lia. f_equal; lia.
    + intros Hmod.
      assert (Hdiv : M mod 2 ^ Zpos k = 0 /\ (M / 2 ^ Zpos k) mod 2 = 0).
      { assert (0 < 2 ^ Zpos k) by lia.
        rewrite Z.mul_comm in Hmod. rewrite Z.rem_mul_r in Hmod by lia.
        pose proof (Z.mod_pos_bound M (2 ^ Zpos k) ltac:(lia)).
        pose proof (Z.mod_pos_bound (M / 2 ^ Zpos k) 2 ltac:(lia)).
        nia. }
      destruct Hdiv as [H1 H2]. destruct (Hrs H1) as [-> ->].
      split; [|reflexivity].
      rewrite <- Z.negb_even, Zeven_mod, Hm, H2. reflexivity.
Qed.

Lemma fexp_eq e : fexp 53 1024 e = Z.max (e - 53) (-1074).
Proof. reflexivity. Qed.

Lemma Zdigits2_nonneg m : 0 <= Zdigits2 m.
Proof. destruct m; simpl; lia. Qed.

Lemma Zdigits2_lower m : 0 < m -> 2 ^ (Zdigits2 m - 1) <= m.
Proof. destruct m; try lia. intros _. apply digits2_lower. Qed.

(** one [shr_fexp] on an exact mantissa: the exponent reached, the
    mantissa kept, and exactness when nothing is shifted out *)
Lemma shr_fexp_exact m e :
  0 <= m ->
  exists rec e',
    shr_fexp 53 1024 m e loc_Exact = (rec, e') /\
    e' = Z.max e (fexp 53 1024 (Zdigits2 m + e)) /\
    shr_m rec = m / 2 ^ (e' - e) /\
    (m mod 2 ^ (e' - e) = 0 -> shr_r rec = false /\ shr_s rec = false).
Proof.
  intros Hm. unfold shr_fexp, shr_record_of_loc, shr.
  destruct (fexp 53 1024 (Zdigits2 m + e) - e) as [|k|k] eqn:Hk.
  - eexists _, _. split; [reflexivity|]. split; [lia|].
    replace (e - e) with 0 by lia. simpl. rewrite Z.div_1_r. auto.
  - rewrite iter_pos_iter.
    destruct (shr_iter_spec m k Hm) as [H1 H2].
    eexists _, _. split; [reflexivity|].
    assert (He : Z.max e (fexp 53 1024 (Zdigits2 m + e)) = e + Z.pos k) by lia.
    split; [lia|].
    replace (e + Z.pos k - e) with (Z.pos k) by lia. auto.
  - eexists _, _. split; [reflexivity|]. split; [lia|].
    replace (e - e) with 0 by lia. simpl. rewrite Z.div_1_r. auto.
Qed.

Lemma round_nearest_even_bounds rec :
  let m := round_nearest_even (shr_m rec) (loc_of_shr_record rec) in
  shr_m rec <= m <= shr_m rec + 1 /\
  (shr_r rec = false /\ shr_s rec = false -> m = shr_m rec).
Proof.
  destruct rec as [m [|] [|]]; simpl; try (split; [lia|]; intros [? ?]; congruence).
  destruct (Z.even m); split; try lia; intros [? ?]; congruence.
Qed.

Lemma pow2_pos n : 0 < 2 ^ n \/ n < 0.
Proof. destruct (Z.le_gt_cases 0 n); [left; apply Z.pow_pos_nonneg; lia | right; lia]. Qed.

Lemma pow2_lt_inv a b : 0 <= b -> 2 ^ a < 2 ^ b -> a < b.
Proof. intros Hb H. apply (Z.pow_lt_mono_r_iff 2); lia. Qed.

(** the exponent that rounding picks for a value below [2 ^ hi] *)
Lemma digits_exp_bound m a hi :
  0 < m -> 0 <= a -> 0 <= hi + a -> m < 2 ^ (hi + a) -> Zdigits2 m - a <= hi.
Proof.
  intros Hm Ha Hhi Hlt.
  pose proof (Zdigits2_lower m Hm) as Hd.
  pose proof (Zdigits2_nonneg m).
  destruct (Z.eq_dec (hi + a) 0) as [E0|E0].
  { rewrite E0 in Hlt. simpl in Hlt. lia. }
  destruct (Z.le_gt_cases (Zdigits2 m - 1) 0) as [|Hpos]; [lia|].
  assert (Hp : 2 ^ (Zdigits2 m - 1) < 2 ^ (hi + a)) by lia.
  apply pow2_lt_inv in Hp; lia.
Qed.

Lemma pow2_split a b : 0 <= a -> 0 <= b -> 2 ^ (a + b) = 2 ^ a * 2 ^ b.
Proof. intros. apply Z.pow_add_r; lia. Qed.

Lemma pow2_gt0 a : 0 <= a -> 0 < 2 ^ a.
Proof. intros. apply Z.pow_pos_nonneg; lia. Qed.

(** a value below [2 ^ (hi - t)], scaled: its mantissa is below [2 ^ (hi + a)] *)
Lemma scaled_lt_pow m t a Nb hi :
  0 < m -> 0 <= t -> 0 <= a -> 0 < Nb < 2 ^ (hi + t) -> 0 <= hi + t ->
  m * 2 ^ t <= Nb * 2 ^ a ->
  0 <= hi + a /\ m < 2 ^ (hi + a).
Proof.
  intros Hm Ht Ha HNb Hhi Hle.
  pose proof (pow2_gt0 t Ht). pose proof (pow2_gt0 a Ha).
  assert (Hlt : m * 2 ^ t < 2 ^ (hi + t) * 2 ^ a) by nia.
  rewrite <- pow2_split in Hlt by lia.
  destruct (Z.le_gt_cases 0 (hi + a)) as [Hge|Hneg].
  - split; [assumption|].
    replace (hi + t + a) with (hi + a + t) in Hlt by lia.
    rewrite pow2_split in Hlt by lia. nia.
  - exfalso.
    assert (2 ^ (hi + t + a) <= 2 ^ t) by (apply Z.pow_le_mono_r; lia).
    nia.
Qed.

Lemma round_aux_below M E Nb t :
  0 <= t <= 1074 -> E < 0 -> 0 < Nb < 2 ^ 53 -> Nb < 2 ^ (52 + t) ->
  Zpos M * 2 ^ t <= Nb * 2 ^ (- E) ->
  below Nb t (binary_round_aux 53 1024 false (Zpos M) E loc_Exact).
Proof.
  intros Ht HE HNb HNb2 Hle. unfold binary_round_aux.
  destruct (shr_fexp_exact (Zpos M) E ltac:(lia)) as (rec1 & e1 & Heq1 & He1 & Hm1 & Hx1).
  rewrite Heq1.
  destruct (round_nearest_even_bounds rec1) as [Hr1 Hr2].
  set (m2 := round_nearest_even (shr_m rec1) (loc_of_shr_record rec1)) in *.
  rewrite fexp_eq in He1.
  set (d := Zdigits2 (Zpos M)) in *.
  pose proof (pow2_gt0 t ltac:(lia)) as Hpt.
  (* where the first rounding lands *)
  assert (Hd52 : d + E <= 52).
  { destruct (scaled_lt_pow (Zpos M) t (- E) Nb 52) as [? ?]; try lia.
    pose proof (digits_exp_bound (Zpos M) (- E) 52). lia. }
  assert (Hd53 : d + E <= 53 - t).
  { assert (Nb < 2 ^ (53 - t + t)) by (replace (53 - t + t) with 53 by lia; lia).
    destruct (scaled_lt_pow (Zpos M) t (- E) Nb (53 - t)) as [? ?]; try lia.
    pose proof (digits_exp_bound (Zpos M) (- E) (53 - t)). lia. }
  assert (He1neg : e1 < 0) by lia.
  assert (Hm1nn : 0 <= shr_m rec1).
  { rewrite Hm1. apply Z.div_pos; [lia|]. apply pow2_gt0. lia. }
  assert (Hm2 : 0 <= m2 /\ m2 * 2 ^ t <= Nb * 2 ^ (- e1)).
  { split; [lia|].
    destruct (Z.eq_dec e1 E) as [->|Hne].
    - replace (E - E) with 0 in * by lia. simpl in Hm1, Hx1.
      rewrite Z.div_1_r in Hm1. rewrite Z.mod_1_r in Hx1.
      rewrite (Hr2 (Hx1 eq_refl)), Hm1. exact Hle.
    - assert (Hk : 0 < e1 - E) by lia.
      assert (Het : e1 <= - t) by lia.
      set (k := e1 - E) in *.
      set (P := 2 ^ (- t - e1)).
      assert (HP : 0 < P) by (apply pow2_gt0; lia).
      pose proof (pow2_gt0 k ltac:(lia)) as Hpk.
      assert (HE2 : 2 ^ (- E) = 2 ^ k * (P * 2 ^ t)).
      { unfold P, k. rewrite <- !pow2_split by lia. f_equal. lia. }
      assert (He2 : 2 ^ (- e1) = P * 2 ^ t).
      { unfold P. rewrite <- pow2_split by lia. f_equal. lia. }
      rewrite HE2 in Hle. rewrite He2.
      assert (HM : Zpos M <= Nb * P * 2 ^ k) by nia.
      pose proof (Z.div_mod (Zpos M) (2 ^ k) ltac:(lia)) as Hdm.
      pose proof (Z.mod_pos_bound (Zpos M) (2 ^ k) ltac:(lia)) as Hmb.
      rewrite <- Hm1 in Hdm.
      assert (m2 <= Nb * P).
      { destruct (Z.eq_dec (Zpos M mod 2 ^ k) 0) as [H0|H0].
        - rewrite (Hr2 (Hx1 H0)). nia.
        - assert (shr_m rec1 < Nb * P) by nia. lia. }
      nia. }
  destruct Hm2 as [Hm2nn Hm2le].
  destruct (shr_fexp_exact m2 e1 Hm2nn) as (rec2 & e2 & Heq2 & He2 & Hm3 & _).
  rewrite Heq2. rewrite fexp_eq in He2.
  assert (He2neg : e2 < 0).
  { destruct (Z.eq_dec m2 0) as [->|Hnz]; [simpl in He2; lia|].
    destruct (scaled_lt_pow m2 t (- e1) Nb 52) as [? ?]; try lia.
    pose proof (digits_exp_bound m2 (- e1) 52). lia. }
  assert (Hk2 : 0 <= e2 - e1) by lia.
  pose proof (pow2_gt0 (e2 - e1) Hk2) as Hpk2.
  assert (Hm3nn : 0 <= shr_m rec2).
  { rewrite Hm3. apply Z.div_pos; lia. }
  assert (Hm3le : shr_m rec2 * 2 ^ t <= Nb * 2 ^ (- e2)).
  { assert (Hs : 2 ^ (- e1) = 2 ^ (- e2) * 2 ^ (e2 - e1)).
    { rewrite <- pow2_split by lia. f_equal. lia. }
    rewrite Hs in Hm2le.
    pose proof (Z.div_mod m2 (2 ^ (e2 - e1)) ltac:(lia)) as Hdm.
    pose proof (Z.mod_pos_bound m2 (2 ^ (e2 - e1)) ltac:(lia)) as Hmb.
    rewrite <- Hm3 in Hdm.
    pose proof (pow2_gt0 (- e2) ltac:(lia)).
    nia. }
  destruct (shr_m rec2) as [|m3|m3]; [exact I| |lia].
  replace (e2 <=? 1024 - 53) with true by (symmetry; apply Z.leb_le; lia).
  split; assumption.
Qed.

Lemma below_mul A ta B tb Nb t x y :
  0 <= ta -> 0 <= tb -> 0 <= t <= 1074 ->
  0 < Nb < 2 ^ 53 -> Nb < 2 ^ (52 + t) ->
  0 <= A -> 0 <= B ->
  A * B * 2 ^ t <= Nb * 2 ^ (ta + tb) ->
  below A ta x -> below B tb y -> below Nb t (Nmul x y).
Proof.
  intros Hta Htb Ht HNb HNb2 HA HB HAB Hx Hy.
  destruct x as [[|]|[|]| |[|] mx ex]; try contradiction;
  destruct y as [[|]|[|]| |[|] my ey]; try contradiction; try exact I.
  destruct Hx as [Hex Hmx], Hy as [Hey Hmy].
  unfold Nmul, SFmul. cbn [xorb].
  apply round_aux_below; try assumption; try lia.
  rewrite Pos2Z.inj_mul.
  replace (- (ex + ey)) with (- ex + - ey) by lia.
  rewrite pow2_split by lia.
  pose proof (pow2_gt0 ta Hta) as Pta. pose proof (pow2_gt0 tb Htb) as Ptb.
  pose proof (pow2_gt0 t ltac:(lia)) as Pt.
  pose proof (pow2_gt0 (- ex) ltac:(lia)) as Pex.
  pose proof (pow2_gt0 (- ey) ltac:(lia)) as Pey.
  rewrite pow2_split in HAB by lia.
  set (X := 2 ^ (- ex)) in *. set (Y := 2 ^ (- ey)) in *.
  assert (G1 : Z.pos mx * 2 ^ ta * (Z.pos my * 2 ^ tb) <= A * X * (B * Y)).
  { apply Z.mul_le_mono_nonneg; lia. }
  assert (G2 : Z.pos mx * Z.pos my * 2 ^ t * (2 ^ ta * 2 ^ tb)
               <= Nb * (X * Y) * (2 ^ ta * 2 ^ tb)).
  { transitivity (A * B * 2 ^ t * (X * Y)).
    - replace (Z.pos mx * Z.pos my * 2 ^ t * (2 ^ ta * 2 ^ tb))
        with (Z.pos mx * 2 ^ ta * (Z.pos my * 2 ^ tb) * 2 ^ t) by ring.
      replace (A * B * 2 ^ t * (X * Y)) with (A * X * (B * Y) * 2 ^ t) by ring.
      apply Z.mul_le_mono_nonneg_r; lia.
    - replace (Nb * (X * Y) * (2 ^ ta * 2 ^ tb)) with (Nb * (2 ^ ta * 2 ^ tb) * (X * Y)) by ring.
      apply Z.mul_le_mono_nonneg_r; lia. }
  apply Z.mul_le_mono_pos_r in G2; lia.
Qed.

Lemma iter_xO_pow m d : Zpos (Pos.iter xO m d) = Zpos m * 2 ^ Zpos d.
Proof.
  induction d using Pos.peano_ind.
  - cbn [Pos.iter]. rewrite Pos2Z.inj_xO. change (2 ^ 1) with 2. ring.
  - rewrite Pos.iter_succ, Pos2Z.inj_succ, Z.pow_succ_r by lia.
    rewrite Pos2Z.inj_xO, IHd. ring.
Qed.

Lemma shl_align_spec m e e' :
  let '(m', e'') := shl_align m e e' in
  e'' = Z.min e e' /\ Zpos m' = Zpos m * 2 ^ (e - e'').
Proof.
  unfold shl_align. destruct (e' - e) as [|d|d] eqn:Hd.
  - split; [lia|]. replace (e - e) with 0 by lia. simpl. lia.
  - split; [lia|]. replace (e - e) with 0 by lia. simpl. lia.
  - split; [lia|]. rewrite iter_xO_pow. f_equal. f_equal. lia.
Qed.

Lemma normalize_below D E Nb t :
  0 < D -> E <= 0 ->
  0 <= t <= 1074 -> 0 < Nb < 2 ^ 53 -> Nb < 2 ^ (52 + t) ->
  D * 2 ^ t <= Nb * 2 ^ (- E) ->
  below Nb t (binary_normalize 53 1024 D E false).
Proof.
  intros HD HE Ht HNb HNb2 Hle.
  destruct D as [|p|p]; try lia. unfold binary_normalize, binary_round.
  pose proof (shl_align_spec p E (fexp 53 1024 (Z.pos (digits2_pos p) + E))) as Hs.
  destruct (shl_align p E _) as [mz ez]. destruct Hs as [Hez Hmz].
  rewrite fexp_eq in Hez.
  assert (Hd : Z.pos (digits2_pos p) + E <= 52).
  { destruct (scaled_lt_pow (Zpos p) t (- E) Nb 52) as [? ?]; try lia.
    pose proof (digits_exp_bound (Zpos p) (- E) 52). simpl Zdigits2 in *. lia. }
  apply round_aux_below; try assumption; try lia.
  rewrite Hmz.
  assert (Hsp : 2 ^ (- ez) = 2 ^ (- E) * 2 ^ (E - ez)).
  { rewrite <- pow2_split by lia. f_equal. lia. }
  rewrite Hsp.
  pose proof (pow2_gt0 (E - ez) ltac:(lia)).
  replace (Z.pos p * 2 ^ (E - ez) * 2 ^ t) with (Z.pos p * 2 ^ t * 2 ^ (E - ez)) by ring.
  replace (Nb * (2 ^ (- E) * 2 ^ (E - ez))) with (Nb * 2 ^ (- E) * 2 ^ (E - ez)) by ring.
  apply Z.mul_le_mono_nonneg_r; lia.
Qed.

Lemma Z2N_1 : Z2N 1 = S754_finite false 4503599627370496 (-52).
Proof. reflexivity. Qed.

Lemma below_one_minus x : below 1 0 x -> below 1 0 (Nsub (Z2N 1) x).
Proof.
  intros Hx. rewrite Z2N_1.
  destruct x as [[|]|[|]| |[|] m e]; try contradiction.
  - simpl. split; [lia|]. reflexivity.
  - destruct Hx as [He Hm]. unfold Nsub, SFsub. cbn [cond_Zopp].
    pose proof (shl_align_spec 4503599627370496 (-52) (Z.min (-52) e)) as H1.
    pose proof (shl_align_spec m e (Z.min (-52) e)) as H2.
    destruct (shl_align 4503599627370496 _ _) as [a1 e1].
    destruct (shl_align m e _) as [a2 e2].
    destruct H1 as [He1 Ha1], H2 as [He2 Ha2]. cbn [fst].
    set (ez := Z.min (-52) e) in *.
    assert (Hz1 : Z.pos a1 = 2 ^ (- ez)).
    { rewrite Ha1. change 4503599627370496 with (2 ^ 52).
      rewrite <- pow2_split by lia. f_equal. lia. }
    assert (Hz2 : Z.pos a2 <= 2 ^ (- ez)).
    { rewrite Ha2.
      replace (- ez) with (- e + (e - e2)) by lia. rewrite pow2_split by lia.
      apply Z.mul_le_mono_nonneg_r; [|lia].
      pose proof (pow2_gt0 (e - e2) ltac:(lia)). lia. }
    destruct (Z.eq_dec (Z.pos a1 - Z.pos a2) 0) as [->|Hnz]; [exact I|].
    apply normalize_below; try lia.
Qed.

Lemma shr_nonneg rec e n : 0 <= shr_m rec -> 0 <= shr_m (fst (shr rec e n)).
Proof.
  intros H. unfold shr. destruct n; simpl; try assumption.
  rewrite iter_pos_iter. apply Pos.iter_invariant; [|assumption].
  intros [m r s] Hm. simpl in Hm. rewrite shr_1_nonneg by assumption. simpl.
  rewrite Z.div2_div. apply Z.div_pos; lia.
Qed.

Lemma round_aux_sign m e l :
  0 <= m -> nonneg_or_inf (binary_round_aux 53 1024 false m e l).
Proof.
  intros Hm. unfold binary_round_aux, shr_fexp.
  pose proof (shr_nonneg (shr_record_of_loc m l) e
                (fexp 53 1024 (Zdigits2 m + e) - e)) as H1.
  destruct (shr (shr_record_of_loc m l) e _) as [rec1 e1]. cbn [fst] in H1.
  assert (Hm1 : 0 <= shr_m rec1) by (apply H1; destruct l as [|[| |]]; assumption).
  destruct (round_nearest_even_bounds rec1) as [[Hr _] _].
  set (m2 := round_nearest_even (shr_m rec1) (loc_of_shr_record rec1)) in *.
  pose proof (shr_nonneg (shr_record_of_loc m2 loc_Exact) e1
                (fexp 53 1024 (Zdigits2 m2 + e1) - e1)) as H2.
  destruct (shr (shr_record_of_loc m2 loc_Exact) e1 _) as [rec2 e2]. cbn [fst] in H2.
  assert (Hm2 : 0 <= shr_m rec2) by (apply H2; simpl; lia).
  destruct (shr_m rec2); [exact I| |lia].
  destruct (e2 <=? 1024 - 53); exact I.
Qed.

Lemma below_nonneg_finite Nb t x : below Nb t x -> nonneg_finite x.
Proof. destruct x as [[|]|[|]| |[|] m e]; simpl; tauto. Qed.

Lemma Ndiv_sign x y :
  nonneg_finite x -> nonneg_finite y -> y <> S754_zero false ->
  nonneg_or_inf (Ndiv x y).
Proof.
  intros Hx Hy Hy0.
  destruct x as [[|]|[|]| |[|] mx ex]; try contradiction;
  destruct y as [[|]|[|]| |[|] my ey]; try contradiction; try congruence; try exact I.
  unfold Ndiv, SFdiv, SFdiv_core_binary. cbn [xorb].
  set (m' := match _ with Z.pos _ => _ | 0 => _ | Z.neg _ => 0 end).
  assert (Hm' : 0 <= m').
  { unfold m'. destruct (_ - _ - _); try lia. apply Z.shiftl_nonneg. lia. }
  pose proof (Z.div_pos m' (Zpos my) Hm' ltac:(lia)) as Hq.
  unfold Z.div in Hq. destruct (Z.div_eucl m' (Z.pos my)) as [q r]. cbn [fst] in Hq.
  apply round_aux_sign. assumption.
Qed.

Lemma min_one_below y : nonneg_or_inf y -> below 1 0 (Math_min (Z2N 1) y).
Proof.
  intros Hy. rewrite Z2N_1.
  destruct y as [[|]|[|]| |[|] m e]; try contradiction.
  - exact I.
  - simpl. split; [lia|reflexivity].
  - unfold Math_min, Ncompare. cbn [Fexp Fmant cond_Zopp].
    set (e0 := Z.min (-52) e).
    destruct (Z.compare_spec (4503599627370496 * 2 ^ (-52 - e0)) (Z.pos m * 2 ^ (e - e0)))
      as [Hc|Hc|Hc].
    + simpl. split; [lia|reflexivity].
    + simpl. split; [lia|reflexivity].
    + change 4503599627370496 with (2 ^ 52) in Hc.
      rewrite <- pow2_split in Hc by lia.
      replace (52 + (-52 - e0)) with (- e0) in Hc by lia.
      assert (He : e < 0).
      { destruct (Z.le_gt_cases 0 e) as [Hge|]; [|assumption]. exfalso.
        replace (e - e0) with (e + - e0) in Hc by lia.
        rewrite pow2_split in Hc by lia.
        pose proof (pow2_gt0 e Hge) as Pe. pose proof (pow2_gt0 (- e0) ltac:(lia)) as Pe0.
        assert (1 <= Z.pos m * 2 ^ e) by nia.
        rewrite Z.mul_assoc in Hc. nia. }
      simpl. split; [assumption|].
      replace (- e0) with (- e + (e - e0)) in Hc by lia.
      rewrite pow2_split in Hc by lia.
      pose proof (pow2_gt0 (e - e0) ltac:(lia)).
      change (2 ^ 0) with 1. nia.
Qed.

Lemma floor_below Nb t x :
  0 <= t -> 0 <= Nb -> below Nb t x -> is_int_in 0 (Nb / 2 ^ t) (Math_floor x).
Proof.
  intros Ht HNb Hx. pose proof (pow2_gt0 t Ht) as Pt.
  destruct x as [[|]|[|]| |[|] m e]; try contradiction.
  - exists 0. split; [|reflexivity]. split; [lia|]. apply Z.div_pos; lia.
  - destruct Hx as [He Hm]. unfold Math_floor.
    replace (0 <=? e) with false by (symmetry; apply Z.leb_gt; lia).
    cbn [cond_Zopp]. rewrite Z.shiftl_div_pow2 by lia.
    pose proof (pow2_gt0 (- e) ltac:(lia)) as Pe.
    exists (Z.pos m / 2 ^ (- e)). split; [|reflexivity].
    split; [apply Z.div_pos; lia|].
    apply Z.div_le_lower_bound; [lia|].
    pose proof (Z.mul_div_le (Z.pos m) (2 ^ (- e)) Pe). nia.
Qed.

Lemma round_below Nb x :
  0 <= Nb -> below Nb 0 x -> is_int_in 0 Nb (Math_round x).
Proof.
  intros HNb Hx.
  destruct x as [[|]|[|]| |[|] m e]; try contradiction.
  - exists 0. split; [lia|reflexivity].
  - destruct Hx as [He Hm]. unfold Math_round. change (2 ^ 0) with 1 in Hm.
    replace (0 <=? e) with false by (symmetry; apply Z.leb_gt; lia).
    cbn [cond_Zopp]. rewrite Z.shiftl_div_pow2 by lia.
    pose proof (pow2_gt0 (- e) ltac:(lia)) as Pe.
    replace (- (e - 1)) with (1 + - e) by lia. rewrite pow2_split by lia.
    change (2 ^ 1) with 2.
    set (n := (2 * Z.pos m + 2 ^ (- e)) / (2 * 2 ^ (- e))).
    assert (Hn : 0 <= n <= Nb).
    { unfold n. split; [apply Z.div_pos; lia|].
      apply Z.lt_succ_r. apply Z.div_lt_upper_bound; [lia|]. nia. }
    destruct (Z.eqb_spec n 0) as [->|Hnz].
    + exists 0. split; [lia|reflexivity].
    + exists n. split; [lia|reflexivity].
Qed.

(** *** Integers up to 2^53 are exact *)

Lemma digits2_unique m d : 2 ^ (d - 1) <= Zpos m < 2 ^ d -> Zpos (digits2_pos m) = d.
Proof.
  intros [Hlo Hhi].
  pose proof (digits2_lower m) as Dl. pose proof (digits2_upper m) as Du.
  set (d' := Zpos (digits2_pos m)) in *.
  assert (Hd : 0 < d).
  { destruct (Z.le_gt_cases d 0) as [Hle|]; [|lia]. exfalso.
    destruct (Z.eq_dec d 0) as [->|Hne]; [simpl in Hhi; lia|].
    rewrite (Z.pow_neg_r 2 d) in Hhi by lia. lia. }
  assert (d' - 1 < d) by (apply pow2_lt_inv; lia).
  assert (d - 1 < d') by (apply pow2_lt_inv; [unfold d'|]; lia).
  lia.
Qed.

Lemma digits2_le_53 p : Zpos p < 2 ^ 53 -> Zpos (digits2_pos p) <= 53.
Proof.
  intros Hp. pose proof (digits2_lower p) as Dl.
  assert (Hlt : 2 ^ (Zpos (digits2_pos p) - 1) < 2 ^ 53) by lia.
  apply pow2_lt_inv in Hlt; lia.
Qed.

Lemma binary_round_int s p :
  Zpos p < 2 ^ 53 ->
  let d := Zpos (digits2_pos p) in
  exists mz, binary_round 53 1024 s p 0 = S754_finite s mz (d - 53) /\
             Zpos mz = Zpos p * 2 ^ (53 - d).
Proof.
  intros Hp d.
  assert (Hd : 1 <= d <= 53).
  { unfold d. split; [lia|]. apply digits2_le_53, Hp. }
  unfold binary_round.
  pose proof (shl_align_spec p 0 (fexp 53 1024 (Zpos (digits2_pos p) + 0))) as Hs.
  destruct (shl_align p 0 _) as [mz ez]. destruct Hs as [Hez Hmz].
  rewrite fexp_eq in Hez. fold d in Hez.
  assert (Hez' : ez = d - 53) by lia. clear Hez. subst ez.
  replace (0 - (d - 53)) with (53 - d) in Hmz by lia.
  exists mz. split; [|assumption].
  assert (Hdz : Zpos (digits2_pos mz) = 53).
  { apply digits2_unique. rewrite Hmz.
    pose proof (digits2_lower p) as Dl. pose proof (digits2_upper p) as Du. fold d in Dl, Du.
    pose proof (pow2_gt0 (53 - d) ltac:(lia)).
    assert (E1 : 2 ^ (53 - 1) = 2 ^ (d - 1) * 2 ^ (53 - d))
      by (rewrite <- pow2_split by lia; f_equal; lia).
    assert (E2 : 2 ^ 53 = 2 ^ d * 2 ^ (53 - d))
      by (rewrite <- pow2_split by lia; f_equal; lia).
    rewrite E1, E2. nia. }
  unfold binary_round_aux, shr_fexp. cbn [Zdigits2]. rewrite Hdz, fexp_eq.
  replace (Z.max (53 + (d - 53) - 53) (-1074) - (d - 53)) with 0 by lia.
  cbn [shr shr_record_of_loc shr_m loc_of_shr_record round_nearest_even Zdigits2 fst snd].
  rewrite Hdz, fexp_eq.
  replace (Z.max (53 + (d - 53) - 53) (-1074) - (d - 53)) with 0 by lia.
  cbn [shr shr_record_of_loc shr_m].
  replace (d - 53 <=? 1024 - 53) with true by (symmetry; apply Z.leb_le; lia).
  reflexivity.
Qed.

(** [Z2N n] denotes [n], for [|n| < 2^53] *)
Lemma Z2N_val n :
  Z.abs n < 2 ^ 53 ->
  Number_isFinite (Z2N n) = true /\ Fexp (Z2N n) <= 0 /\
  Fmant (Z2N n) = n * 2 ^ (- Fexp (Z2N n)).
Proof.
  intros Hn. destruct n as [|p|p].
  - simpl. repeat split; lia.
  - unfold Z2N, binary_normalize, prec, emax.
    destruct (binary_round_int false p ltac:(lia)) as (mz & -> & Hmz). cbv zeta in *.
    pose proof (digits2_upper p) as Du.
    assert (Zpos (digits2_pos p) <= 53) by (apply digits2_le_53; lia).
    cbn [Number_isFinite Fexp Fmant cond_Zopp]. split; [reflexivity|]. split; [lia|].
    rewrite Hmz. f_equal. f_equal. lia.
  - unfold Z2N, binary_normalize, prec, emax.
    destruct (binary_round_int true p ltac:(lia)) as (mz & -> & Hmz). cbv zeta in *.
    assert (Zpos (digits2_pos p) <= 53) by (apply digits2_le_53; lia).
    cbn [Number_isFinite Fexp Fmant cond_Zopp]. split; [reflexivity|]. split; [lia|].
    rewrite Hmz. replace (- (Z.pos (digits2_pos p) - 53)) with (53 - Z.pos (digits2_pos p)) by lia.
    lia.
Qed.

Lemma Ncompare_finite x y :
  Number_isFinite x = true -> Number_isFinite y = true ->
  Ncompare x y =
  Some (Fmant x * 2 ^ (Fexp x - Z.min (Fexp x) (Fexp y))
          ?= Fmant y * 2 ^ (Fexp y - Z.min (Fexp x) (Fexp y))).
Proof. destruct x, y; simpl; intros; try discriminate; reflexivity. Qed.

Lemma Ncompare_Z2N a b :
  Z.abs a < 2 ^ 53 -> Z.abs b < 2 ^ 53 ->
  Ncompare (Z2N a) (Z2N b) = Some (a ?= b).
Proof.
  intros Ha Hb.
  destruct (Z2N_val a Ha) as (Fa & Ea & Ma), (Z2N_val b Hb) as (Fb & Eb & Mb).
  rewrite Ncompare_finite by assumption. rewrite Ma, Mb.
  set (ea := Fexp (Z2N a)) in *. set (eb := Fexp (Z2N b)) in *.
  set (e0 := Z.min ea eb).
  rewrite <- !Z.mul_assoc, <- !pow2_split by lia.
  replace (- ea + (ea - e0)) with (- e0) by lia.
  replace (- eb + (eb - e0)) with (- e0) by lia.
  rewrite <- Zmult_compare_compat_r by (apply Z.lt_gt, pow2_gt0; lia). reflexivity.
Qed.

Lemma clamp_Z2N n :
  Z.abs n < 2 ^ 53 -> clamp (Z2N n) = Z2N (Z.max 0 (Z.min 100 n)).
Proof.
  intros Hn. unfold clamp.
  assert (Hmin : Math_min (Z2N 100) (Z2N n) = Z2N (Z.min 100 n)).
  { unfold Math_min. rewrite Ncompare_Z2N by (simpl; lia).
    destruct (Z.compare_spec 100 n) as [<-|Hlt|Hgt].
    - reflexivity.
    - rewrite Z.min_l by lia. reflexivity.
    - rewrite Z.min_r by lia. reflexivity. }
  rewrite Hmin. unfold Math_max. rewrite Ncompare_Z2N by (simpl; lia).
  destruct (Z.compare_spec 0 (Z.min 100 n)) as [<-|Hlt|Hgt].
  - reflexivity.
  - rewrite Z.max_r by lia. reflexivity.
  - rewrite Z.max_l by lia. reflexivity.
Qed.

(** a valid number with a non-negative exponent has a full mantissa *)
Lemma valid_integer_mantissa s m e :
  valid (S754_finite s m e) -> 0 <= e -> 2 ^ 52 <= Zpos m.
Proof.
  unfold valid, prec, emax, valid_binary, bounded, canonical_mantissa. intros Hv He.
  apply andb_prop in Hv. destruct Hv as [Hc _]. apply Z.eqb_eq in Hc.
  rewrite fexp_eq in Hc.
  assert (Zpos (digits2_pos m) = 53) by lia.
  pose proof (digits2_lower m) as Dl. rewrite H in Dl. exact Dl.
Qed.

Lemma valid_fraction_mantissa s m e :
  valid (S754_finite s m e) -> e < 0 -> Zpos m < 2 ^ 53.
Proof.
  unfold valid, prec, emax, valid_binary, bounded, canonical_mantissa. intros Hv He.
  apply andb_prop in Hv. destruct Hv as [Hc _]. apply Z.eqb_eq in Hc.
  rewrite fexp_eq in Hc.
  assert (Hd : Zpos (digits2_pos m) <= 53) by lia.
  pose proof (digits2_upper m) as Du.
  assert (2 ^ Zpos (digits2_pos m) <= 2 ^ 53) by (apply Z.pow_le_mono_r; lia).
  lia.
Qed.

Lemma clamp_round x :
  valid x -> Number_isFinite x = true -> is_int_in 0 100 (clamp (Math_round x)).
Proof.
  intros Hv Hf. destruct x as [s| | |s m e]; try discriminate.
  - exists 0. split; [lia|]. destruct s; reflexivity.
  - unfold Math_round. destruct (Z.leb_spec 0 e) as [He|He].
    + pose proof (valid_integer_mantissa s m e Hv He) as Hm.
      pose proof (pow2_gt0 e He) as Pe.
      destruct s.
      * exists 0. split; [lia|]. unfold clamp.
        assert (Hmin : Math_min (Z2N 100) (S754_finite true m e) = S754_finite true m e).
        { unfold Math_min. rewrite Ncompare_finite by reflexivity.
          change (Z2N 100) with (S754_finite false 7036874417766400 (-46)).
          cbn [Fmant Fexp cond_Zopp].
          replace (Z.min (-46) e) with (-46) by lia.
          replace (7036874417766400 * 2 ^ (-46 - -46) ?= - Z.pos m * 2 ^ (e - -46)) with Gt;
            [reflexivity|].
          symmetry. apply Z.compare_gt_iff.
          pose proof (pow2_gt0 (e - -46) ltac:(lia)). nia. }
        rewrite Hmin. unfold Math_max. rewrite Ncompare_finite by reflexivity.
        change (Z2N 0) with (S754_zero false). cbn [Fmant Fexp cond_Zopp].
        replace (0 * 2 ^ (0 - Z.min 0 e) ?= - Z.pos m * 2 ^ (e - Z.min 0 e)) with Gt;
          [reflexivity|].
        symmetry. apply Z.compare_gt_iff.
        pose proof (pow2_gt0 (e - Z.min 0 e) ltac:(lia)). nia.
      * exists 100. split; [lia|]. unfold clamp.
        assert (Hmin : Math_min (Z2N 100) (S754_finite false m e) = Z2N 100).
        { unfold Math_min. rewrite Ncompare_finite by reflexivity.
          change (Z2N 100) with (S754_finite false 7036874417766400 (-46)).
          cbn [Fmant Fexp cond_Zopp].
          replace (Z.min (-46) e) with (-46) by lia.
          replace (7036874417766400 * 2 ^ (-46 - -46) ?= Z.pos m * 2 ^ (e - -46)) with Lt;
            [reflexivity|].
          symmetry. apply Z.compare_lt_iff.
          replace (e - -46) with (e + 46) by lia. rewrite pow2_split by lia.
          change (2 ^ (-46 - -46)) with 1. change (2 ^ 46) with 70368744177664.
          change (2 ^ 52) with 4503599627370496 in Hm. nia. }
        rewrite Hmin. reflexivity.
    + pose proof (valid_fraction_mantissa s m e Hv He) as Hm.
      pose proof (pow2_gt0 (- e) ltac:(lia)) as Pe.
      set (n := Z.shiftl _ _).
      assert (Hn : Z.abs n < 2 ^ 53).
      { unfold n. rewrite Z.shiftl_div_pow2 by lia.
        replace (- (e - 1)) with (1 + - e) by lia. rewrite pow2_split by lia.
        change (2 ^ 1) with 2. change (2 ^ 53) with 9007199254740992 in *.
        assert (1 < 2 ^ (- e)).
        { change 1 with (2 ^ 0). apply Z.pow_lt_mono_r; lia. }
        set (X := 2 ^ (- e)) in *.
        assert (Hs : - 9007199254740992 < cond_Zopp s (Z.pos m) < 9007199254740992)
          by (destruct s; simpl; lia).
        set (sm := cond_Zopp s (Z.pos m)) in *.
        assert (Hup : (2 * sm + X) / (2 * X) < 9007199254740992)
          by (apply Z.div_lt_upper_bound; nia).
        assert (Hlo : - 9007199254740992 + 1 <= (2 * sm + X) / (2 * X))
          by (apply Z.div_le_lower_bound; nia).
        lia. }
      destruct (Z.eqb_spec n 0) as [Hz|Hnz].
      * exists 0. split; [lia|]. destruct s; reflexivity.
      * rewrite clamp_Z2N by assumption.
        exists (Z.max 0 (Z.min 100 n)). split; [lia|reflexivity].
Qed.

(** *** The comparison by value is [SpecFloat]'s on canonical numbers *)

Lemma valid_finite_shape s m e :
  valid (S754_finite s m e) ->
  -1074 <= e /\ Zpos m < 2 ^ 53 /\ (-1074 < e -> 2 ^ 52 <= Zpos m).
Proof.
  unfold valid, prec, emax, valid_binary, bounded, canonical_mantissa. intros Hv.
  apply andb_prop in Hv. destruct Hv as [Hc _]. apply Z.eqb_eq in Hc.
  rewrite fexp_eq in Hc.
  pose proof (digits2_lower m) as Dl. pose proof (digits2_upper m) as Du.
  split; [lia|]. split.
  - assert (2 ^ Zpos (digits2_pos m) <= 2 ^ 53) by (apply Z.pow_le_mono_r; lia). lia.
  - intros He. replace (Zpos (digits2_pos m) - 1) with 52 in Dl by lia. exact Dl.
Qed.

Lemma canonical_exponent_order m1 e1 m2 e2 :
  valid (S754_finite false m1 e1) -> valid (S754_finite false m2 e2) -> e1 < e2 ->
  Zpos m1 < Zpos m2 * 2 ^ (e2 - e1).
Proof.
  intros H1 H2 He.
  destruct (valid_finite_shape _ _ _ H1) as (Hlo1 & Hm1 & _).
  destruct (valid_finite_shape _ _ _ H2) as (_ & _ & Hm2).
  specialize (Hm2 ltac:(lia)).
  assert (2 ^ 1 <= 2 ^ (e2 - e1)) by (apply Z.pow_le_mono_r; lia).
  change (2 ^ 1) with 2 in *. change (2 ^ 53) with 9007199254740992 in *.
  change (2 ^ 52) with 4503599627370496 in *. nia.
Qed.

Lemma valid_sign s s' m e : valid (S754_finite s m e) -> valid (S754_finite s' m e).
Proof. exact (fun H => H). Qed.

Lemma Ncompare_SFcompare x y : valid x -> valid y -> Ncompare x y = SFcompare x y.
Proof.
  intros Hx Hy.
  destruct x as [sx|sx| |sx mx ex], y as [sy|sy| |sy my ey]; try reflexivity.
  - (* zero, finite *)
    unfold Ncompare, SFcompare. cbn [Fmant Fexp]. f_equal.
    pose proof (pow2_gt0 (ey - Z.min 0 ey) ltac:(lia)) as P.
    destruct sy; cbn [cond_Zopp];
      [apply Z.compare_gt_iff|apply Z.compare_lt_iff]; nia.
  - (* finite, zero *)
    unfold Ncompare, SFcompare. cbn [Fmant Fexp]. f_equal.
    pose proof (pow2_gt0 (ex - Z.min ex 0) ltac:(lia)) as P.
    destruct sx; cbn [cond_Zopp];
      [apply Z.compare_lt_iff|apply Z.compare_gt_iff]; nia.
  - (* finite, finite *)
    unfold Ncompare, SFcompare. cbn [Fmant Fexp]. f_equal.
    pose proof (pow2_gt0 (ex - Z.min ex ey) ltac:(lia)) as Px.
    pose proof (pow2_gt0 (ey - Z.min ex ey) ltac:(lia)) as Py.
    assert (Hnat : forall (a b : positive) ea eb,
               valid (S754_finite false a ea) -> valid (S754_finite false b eb) ->
               (Zpos a * 2 ^ (ea - Z.min ea eb) ?= Zpos b * 2 ^ (eb - Z.min ea eb))
               = match ea ?= eb with
                 | Eq => Pos.compare_cont Eq a b
                 | Lt => Lt
                 | Gt => Gt
                 end).
    { intros a b ea eb Ha Hb.
      destruct (Z.compare_spec ea eb) as [->|Hlt|Hgt].
      - rewrite Z.min_id, Z.sub_diag. change (2 ^ 0) with 1. rewrite !Z.mul_1_r.
        reflexivity.
      - rewrite Z.min_l by lia. rewrite Z.sub_diag. change (2 ^ 0) with 1.
        rewrite Z.mul_1_r. apply Z.compare_lt_iff.
        apply canonical_exponent_order; assumption.
      - rewrite Z.min_r by lia. rewrite Z.sub_diag. change (2 ^ 0) with 1.
        rewrite Z.mul_1_r. apply Z.compare_gt_iff.
        apply canonical_exponent_order; assumption. }
    destruct sx, sy; cbn [cond_Zopp].
    + (* both negative *)
      rewrite !Z.mul_opp_l, Z.compare_opp.
      replace (Z.pos my * 2 ^ (ey - Z.min ex ey) ?= Z.pos mx * 2 ^ (ex - Z.min ex ey))
        with (CompOpp (Z.pos mx * 2 ^ (ex - Z.min ex ey)
                       ?= Z.pos my * 2 ^ (ey - Z.min ex ey)))
        by (symmetry; apply Z.compare_antisym).
      rewrite (Hnat mx my ex ey (valid_sign _ false _ _ Hx) (valid_sign _ false _ _ Hy)).
      destruct (ex ?= ey); reflexivity.
    + apply Z.compare_lt_iff. nia.
    + apply Z.compare_gt_iff. nia.
    + apply Hnat; assumption.
Qed.

(** *** Sanity checks of the number model *)

Example literal_0_6 : lit_0_6 = S754_finite false 5404319552844595 (-53).
Proof. vm_compute. reflexivity. Qed.

Example round_half_up : Math_round (decimal 655 1) = Z2N 66.
Proof. vm_compute. reflexivity. Qed.

Example round_negative_half : Math_round (SFopp (decimal 25 1)) = Z2N (-2).
Proof. vm_compute. reflexivity. Qed.

Example round_keeps_negative_zero : Math_round (SFopp (decimal 2 1)) = S754_zero true.
Proof. vm_compute. reflexivity. Qed.

Example floor_negative : Math_floor (SFopp (decimal 2 1)) = Z2N (-1).
Proof. vm_compute. reflexivity. Qed.

Example one_minus_0_2 : Nsub (Z2N 1) (decimal 2 1) = decimal 8 1.
Proof. vm_compute. reflexivity. Qed.

(** Rounding is visible in the percentage: 29 answers out of 200 expected
    questions make 14 percent, since [0.145 * 100] is just below 14.5. *)
Example percent_of_29_in_200 :
  Math_round (Nmul (Ndiv (Z2N 29) (Z2N 200)) (Z2N 100)) = Z2N 14.
Proof. vm_compute. reflexivity. Qed.

(** * The scorer stays within 0..100 *)

Lemma number_eqb_eq x y : number_eqb x y = true -> x = y.
Proof.
  destruct x as [s1|s1| |s1 m1 e1], y as [s2|s2| |s2 m2 e2]; simpl; try discriminate.
  - intros E. apply Bool.eqb_prop in E. congruence.
  - intros E. apply Bool.eqb_prop in E. congruence.
  - reflexivity.
  - intros E. apply andb_prop in E. destruct E as [E E3].
    apply andb_prop in E. destruct E as [E1 E2].
    apply Bool.eqb_prop in E1. apply Pos.eqb_eq in E2. apply Z.eqb_eq in E3. congruence.
Qed.

Lemma in_Zrange lo n k : lo <= k < lo + Z.of_nat n -> In k (Zrange lo n).
Proof.
  intros Hk. unfold Zrange. apply in_map_iff. exists (Z.to_nat (k - lo)).
  split; [lia|]. apply in_seq. lia.
Qed.

Lemma forallb_Zrange (P : Z -> bool) lo n :
  forallb P (Zrange lo n) = true -> forall k, lo <= k < lo + Z.of_nat n -> P k = true.
Proof.
  intros Hall k Hk. rewrite forallb_forall in Hall. apply Hall, in_Zrange, Hk.
Qed.

Lemma mix_exact b p :
  0 <= b <= 100 -> 0 <= p <= 100 ->
  mix (Z2N b) (Z2N p) = Z2N ((6 * b + 4 * p + 5) / 10).
Proof.
  intros Hb Hp. apply number_eqb_eq.
  assert (Hall : forallb (fun b => forallb (fun p =>
            number_eqb (mix (Z2N b) (Z2N p)) (Z2N ((6 * b + 4 * p + 5) / 10)))
            (Zrange 0 101)) (Zrange 0 101) = true) by (vm_compute; reflexivity).
  pose proof (forallb_Zrange _ _ _ Hall b ltac:(lia)) as Hb'. cbv beta in Hb'.
  exact (forallb_Zrange _ _ _ Hb' p ltac:(lia)).
Qed.

Lemma add_small_exact c q :
  0 <= c <= 100 -> 0 <= q <= 40 ->
  Nadd (Z2N c) (Z2N q) = Z2N (c + q) /\ Nsub (Z2N c) (Z2N q) = Z2N (c - q).
Proof.
  intros Hc Hq.
  assert (Hall : forallb (fun c => forallb (fun q =>
            number_eqb (Nadd (Z2N c) (Z2N q)) (Z2N (c + q))
            && number_eqb (Nsub (Z2N c) (Z2N q)) (Z2N (c - q)))
            (Zrange 0 41)) (Zrange 0 101) = true) by (vm_compute; reflexivity).
  pose proof (forallb_Zrange _ _ _ Hall c ltac:(lia)) as Hc'. cbv beta in Hc'.
  pose proof (forallb_Zrange _ _ _ Hc' q ltac:(lia)) as Hq'. cbv beta in Hq'.
  apply andb_prop in Hq'. destruct Hq' as [H1 H2].
  split; apply number_eqb_eq; assumption.
Qed.

Lemma max_zero_Z2N q : 0 <= q < 2 ^ 53 -> Math_max (Z2N 0) (Z2N q) = Z2N q.
Proof.
  intros Hq. unfold Math_max. rewrite Ncompare_Z2N by (simpl; lia).
  destruct (Z.compare_spec 0 q) as [<-|Hlt|Hgt]; try reflexivity. lia.
Qed.

Lemma below_Z2N n : 0 <= n < 2 ^ 52 -> below n 0 (Z2N n).
Proof.
  intros Hn. destruct (Z.eq_dec n 0) as [->|Hnz]; [exact I|].
  unfold Z2N, prec, emax. apply normalize_below; lia.
Qed.

Lemma nonneg_finite_Z2N n : 0 <= n < 2 ^ 52 -> nonneg_finite (Z2N n).
Proof. intros Hn. eapply below_nonneg_finite, below_Z2N, Hn. Qed.

Lemma unit_interval_lt m e :
  unit_interval (S754_finite false m e) = true -> e < 0 /\ Zpos m < 2 ^ (- e).
Proof.
  unfold unit_interval. intros Hr. apply andb_prop in Hr. destruct Hr as [_ Hr].
  unfold Nlt in Hr. rewrite Z2N_1 in Hr. rewrite Ncompare_finite in Hr by reflexivity.
  cbn [Fmant Fexp cond_Zopp] in Hr.
  set (e0 := Z.min e (-52)) in *.
  destruct (Z.compare_spec (Z.pos m * 2 ^ (e - e0)) (4503599627370496 * 2 ^ (-52 - e0)))
    as [Hc|Hc|Hc]; try discriminate.
  change 4503599627370496 with (2 ^ 52) in Hc.
  rewrite <- pow2_split in Hc by lia.
  replace (52 + (-52 - e0)) with (- e0) in Hc by lia.
  assert (He : e < 0).
  { destruct (Z.le_gt_cases 0 e) as [Hge|]; [|assumption]. exfalso.
    replace (e - e0) with (e + - e0) in Hc by lia.
    rewrite pow2_split in Hc by lia.
    pose proof (pow2_gt0 e Hge) as Pe. pose proof (pow2_gt0 (- e0) ltac:(lia)) as Pe0.
    assert (1 <= Z.pos m * 2 ^ e) by nia.
    rewrite Z.mul_assoc in Hc. nia. }
  split; [assumption|].
  replace (- e0) with (- e + (e - e0)) in Hc by lia.
  rewrite pow2_split in Hc by lia.
  pose proof (pow2_gt0 (e - e0) ltac:(lia)).
  nia.
Qed.

Lemma unit_interval_below r : unit_interval r = true -> below 1 0 r.
Proof.
  intros Hr. destruct r as [[|]|[|]| |[|] m e];
    try (unfold unit_interval in Hr; apply andb_prop in Hr; destruct Hr; discriminate).
  - exact I.
  - destruct (unit_interval_lt m e Hr) as [He Hm]. simpl. lia.
Qed.

Lemma unit_interval_valid r : unit_interval r = true -> valid r.
Proof. unfold unit_interval. intros Hr. apply andb_prop in Hr. apply Hr. Qed.

(** below 1, a valid number is the predecessor of 1 or at most [1 - 2^-52] *)
Lemma unit_interval_strict r :
  unit_interval r = true -> r = pred_one \/ below (2 ^ 52 - 1) 52 r.
Proof.
  intros Hr. pose proof (unit_interval_below r Hr) as Hb.
  pose proof (unit_interval_valid r Hr) as Hv.
  destruct r as [[|]|[|]| |[|] m e]; try contradiction; [right; exact I|].
  clear Hb. destruct (unit_interval_lt m e Hr) as [He Hm].
  pose proof (valid_fraction_mantissa _ _ _ Hv He) as Hm53.
  pose proof (pow2_gt0 (- e) ltac:(lia)) as Pe.
  change (2 ^ 53) with 9007199254740992 in Hm53.
  destruct (Z.lt_trichotomy (- e) 53) as [Hlt|[Heq|Hgt]].
  - right. split; [assumption|].
    assert (2 ^ (- e) <= 2 ^ 52) by (apply Z.pow_le_mono_r; lia).
    nia.
  - assert (e = -53) by lia. subst e.
    destruct (Z.eq_dec (Zpos m) 9007199254740991) as [Hmax|Hne].
    + left. unfold pred_one. f_equal. congruence.
    + right. split; [lia|]. change (2 ^ (- -53)) with 9007199254740992.
      change (2 ^ 52) with 4503599627370496. lia.
  - right. split; [assumption|].
    assert (2 ^ 54 <= 2 ^ (- e)) by (apply Z.pow_le_mono_r; lia).
    change (2 ^ 54) with 18014398509481984 in *.
    change (2 ^ 52) with 4503599627370496. nia.
Qed.

(** [Math.floor(r * 40) + 40] for a draw [r] *)
Lemma fallback_baseline r :
  unit_interval r = true ->
  is_int_in 40 79 (Nadd (Math_floor (Nmul r (Z2N 40))) (Z2N 40)).
Proof.
  intros Hr.
  assert (Hfl : is_int_in 0 39 (Math_floor (Nmul r (Z2N 40)))).
  { destruct (unit_interval_strict r Hr) as [->|Hb].
    - exists 39. split; [lia|]. vm_compute. reflexivity.
    - assert (Hm : below (5 * 2 ^ 50 - 1) 47 (Nmul r (Z2N 40))).
      { apply (below_mul (2 ^ 52 - 1) 52 40 0);
          [lia..|exact Hb|apply below_Z2N; lia]. }
      apply floor_below in Hm; try lia.
      replace ((5 * 2 ^ 50 - 1) / 2 ^ 47) with 39 in Hm by reflexivity. exact Hm. }
  destruct Hfl as (k & Hk & ->).
  exists (k + 40). split; [lia|].
  apply (add_small_exact k 40); lia.
Qed.

Section ScorerFacts.
Context `{Engine}.

(** The scorer is its parts put together. *)
Lemma deriveTransparencyScore_by_parts aiResult productObj answersObj w :
  deriveTransparencyScore aiResult productObj answersObj w
  = score_from_parts aiResult productObj answersObj w.
Proof.
  unfold deriveTransparencyScore, score_from_parts, base, baseFromAI, categoryBoost,
    category, boost_of, combine, bind, of_result, ret.
  destruct (ToNumber _) as [n|e]; [|reflexivity].
  destruct (Number_isFinite n).
  - destruct (ToString _); reflexivity.
  - unfold Math_random. destruct (ToString _); reflexivity.
Qed.

Lemma wf_get v k : wf_value v -> wf_value (get v k).
Proof.
  intros Hv. destruct v; try constructor. simpl.
  inversion Hv as [| | | | | |o' Ho Hs]; subst.
  destruct (o !! k) as [x|] eqn:E; simpl; [eapply Ho, E|constructor].
Qed.

Lemma ToNumber_valid v n : wf_value v -> ToNumber v = Ok n -> valid n.
Proof.
  intros Hv. destruct v as [| |[|]|x|s|l|o]; simpl; intros E;
    try (inversion E; subst; reflexivity).
  - inversion E; subst. inversion Hv; assumption.
  - inversion E; subst. apply StringToNumber_valid.
  - destruct (join_with ToString "," l) as [t|e];
      inversion E; subst. apply StringToNumber_valid.
  - destruct (has_own o "toString"); inversion E; subst. reflexivity.
Qed.

Lemma baseFromAI_valid aiResult n :
  wf_value aiResult -> baseFromAI aiResult = Ok n -> valid n.
Proof.
  intros Hv. unfold baseFromAI. apply ToNumber_valid.
  pose proof (wf_get aiResult "transparencyScore" Hv) as H1.
  pose proof (wf_get aiResult "score" Hv) as H2.
  destruct (get aiResult "transparencyScore"); simpl; assumption.
Qed.

(** Conversions of the values that are no array and no object never
    throw. *)
Lemma ToNumber_primitive v :
  Array_isArray v = false -> isObject v = false -> exists n, ToNumber v = Ok n.
Proof. destruct v as [| |[|]|x|s|l|o]; simpl; intros; try discriminate; eauto. Qed.

Lemma ToString_primitive v :
  Array_isArray v = false -> isObject v = false -> exists s, ToString v = Ok s.
Proof. destruct v as [| |[|]|x|s|l|o]; simpl; intros; try discriminate; eauto. Qed.

(** [base] is an integer of 0..100, and of 40..79 when it is drawn *)
Lemma base_range aiResult n w :
  wf_value aiResult -> random_ok w -> baseFromAI aiResult = Ok n ->
  exists b w', base aiResult w = (Ok (Z2N b), w') /\ 0 <= b <= 100 /\
               (Number_isFinite n = true -> w' = w) /\
               (Number_isFinite n = false ->
                40 <= b <= 79 /\ w' = set_random_used (S (random_used w)) w).
Proof.
  intros Hv Hr Hn. unfold base, bind, of_result. rewrite Hn.
  destruct (Number_isFinite n) eqn:Hf.
  - destruct (clamp_round _ (baseFromAI_valid _ _ Hv Hn) Hf) as (b & Hb & Heq).
    unfold clamp in Heq. exists b, w. unfold ret. rewrite Heq.
    repeat split; try lia; discriminate.
  - destruct (fallback_baseline _ (Hr (random_used w))) as (b & Hb & Heq).
    exists b, (set_random_used (S (random_used w)) w).
    unfold Math_random, ret. rewrite Heq.
    repeat split; try lia; discriminate.
Qed.

Lemma base_throws aiResult e w :
  baseFromAI aiResult = Throw e -> base aiResult w = (Throw e, w).
Proof. intros Hn. unfold base, bind, of_result. rewrite Hn. reflexivity. Qed.

Lemma Array_length_nonneg v :
  wf_value v -> Array_isArray v = true -> nonneg_finite (Array_length v).
Proof.
  intros Hv Ha. destruct v; try discriminate. simpl.
  inversion Hv; subst. apply nonneg_finite_Z2N.
  assert (2 ^ 32 < 2 ^ 52) by (apply Z.pow_lt_mono_r; lia). lia.
Qed.

Lemma providedAnswersCount_nonneg answersObj :
  wf_value answersObj -> nonneg_finite (providedAnswersCount answersObj).
Proof.
  intros Hv. unfold providedAnswersCount.
  assert (2 ^ 32 < 2 ^ 52) by (apply Z.pow_lt_mono_r; lia).
  destruct (truthy answersObj && typeof_object answersObj); [|exact I].
  destruct answersObj; try exact I; simpl; inversion Hv; subst;
    apply nonneg_finite_Z2N; lia.
Qed.

Lemma Math_max_one_nonneg x : nonneg_finite x -> nonneg_finite (Math_max (Z2N 1) x).
Proof.
  intros Hx. unfold Math_max. rewrite Z2N_1.
  destruct x as [[|]|[|]| |[|] m e]; try contradiction.
  - simpl. exact I.
  - rewrite Ncompare_finite by reflexivity.
    destruct (_ ?= _); exact I.
Qed.

Lemma questionCount_nonneg aiResult answersObj :
  wf_value aiResult -> wf_value answersObj ->
  nonneg_finite (questionCount aiResult answersObj).
Proof.
  intros Ha Hb. unfold questionCount, aiQuestionsCount.
  destruct (Array_isArray (get aiResult "questions")) eqn:E1.
  - apply Array_length_nonneg; [apply wf_get|]; assumption.
  - destruct (Array_isArray (get aiResult "expectedQuestions")) eqn:E2.
    + apply Array_length_nonneg; [apply wf_get|]; assumption.
    + apply Math_max_one_nonneg, providedAnswersCount_nonneg, Hb.
Qed.

Lemma completenessRatio_below aiResult answersObj :
  wf_value aiResult -> wf_value answersObj ->
  below 1 0 (completenessRatio aiResult answersObj).
Proof.
  intros Ha Hb. unfold completenessRatio.
  pose proof (questionCount_nonneg _ _ Ha Hb) as Hq.
  pose proof (providedAnswersCount_nonneg _ Hb) as Hp.
  destruct (Ngt (questionCount aiResult answersObj) (Z2N 0)) eqn:Hg; [|exact I].
  apply min_one_below, Ndiv_sign; try assumption.
  intros E. rewrite E in Hg. discriminate.
Qed.

Lemma boost_of_range text : is_int_in 0 5 (boost_of text).
Proof.
  unfold boost_of.
  repeat match goal with
         | |- context [if ?c then _ else _] => destruct c
         end;
    eexists; (split; [|reflexivity]); lia.
Qed.

Lemma categoryBoost_range productObj c :
  categoryBoost productObj = Ok c -> is_int_in 0 5 c.
Proof.
  unfold categoryBoost. destruct (category productObj); intros E; inversion E; subst.
  apply boost_of_range.
Qed.
End ScorerFacts.

Lemma percent_range ratio :
  below 1 0 ratio -> is_int_in 0 100 (Math_round (Nmul ratio (Z2N 100))).
Proof.
  intros Hr. apply round_below; [lia|].
  apply (below_mul 1 0 100 0); [lia..|exact Hr|apply below_Z2N; lia].
Qed.

Lemma penalty_range ratio :
  below 1 0 ratio ->
  is_int_in 0 5 (Math_floor (Nmul (Nsub (Z2N 1) ratio) (Z2N 5))).
Proof.
  intros Hr.
  assert (Hm : below 5 0 (Nmul (Nsub (Z2N 1) ratio) (Z2N 5))).
  { apply (below_mul 1 0 5 0);
      [lia..|apply below_one_minus, Hr|apply below_Z2N; lia]. }
  apply floor_below in Hm; try lia.
  replace (5 / 2 ^ 0) with 5 in Hm by reflexivity. exact Hm.
Qed.

Lemma combine_exact b ratio c :
  0 <= b <= 100 -> below 1 0 ratio -> 0 <= c <= 5 ->
  exists p q,
    0 <= p <= 100 /\ 0 <= q <= 5 /\
    Math_round (Nmul ratio (Z2N 100)) = Z2N p /\
    Math_floor (Nmul (Nsub (Z2N 1) ratio) (Z2N 5)) = Z2N q /\
    combine (Z2N b) ratio (Z2N c) = Z2N (combineZ b p c q (Nge ratio lit_0_5)) /\
    combine (Z2N b) ratio (Z2N c) = clamp (spec_computed (Z2N b) ratio (Z2N c)).
Proof.
  intros Hb Hr Hc.
  destruct (percent_range ratio Hr) as (p & Hp & Ep).
  destruct (penalty_range ratio Hr) as (q & Hq & Eq).
  exists p, q. repeat (split; [assumption|]).
  assert (Hmix : 0 <= (6 * b + 4 * p + 5) / 10 <= 100).
  { split; [apply Z.div_pos; lia|].
    apply Z.lt_succ_r, Z.div_lt_upper_bound; lia. }
  unfold combine, spec_computed, combineZ, clamp. rewrite Ep, Eq.
  fold (mix (Z2N b) (Z2N p)). rewrite mix_exact by assumption.
  rewrite max_zero_Z2N by (change (2 ^ 53) with 9007199254740992; lia).
  set (m := (6 * b + 4 * p + 5) / 10) in *.
  destruct (add_small_exact m c Hmix ltac:(lia)) as [Ea _].
  destruct (add_small_exact m q Hmix ltac:(lia)) as [_ Es].
  destruct (Nge ratio lit_0_5).
  - rewrite Ea. fold (clamp (Z2N (m + c))).
    rewrite clamp_Z2N by (change (2 ^ 53) with 9007199254740992; lia). split; reflexivity.
  - rewrite Es. fold (clamp (Z2N (m - q))).
    rewrite clamp_Z2N by (change (2 ^ 53) with 9007199254740992; lia). split; reflexivity.
Qed.

(** * The scorer: range, formula, randomness and rounding *)

Lemma wf_obj_list (l : list (string * value)) :
  Forall (fun kv => wf_value (snd kv)) l -> Z.of_nat (length l) < 2 ^ 32 ->
  wf_value (obj l).
Proof.
  intros Hall Hlen. unfold obj. constructor.
  - intros k v Hk. apply elem_of_list_to_map_2 in Hk.
    rewrite Forall_forall in Hall. apply (Hall (k, v)), Hk.
  - assert (Hs : (size (list_to_map l : gmap string value) <= length l)%nat).
    { clear. induction l as [|[k v] l IH]; [reflexivity|].
      rewrite list_to_map_cons, map_size_insert. cbn [length].
      destruct (list_to_map l !! k); unfold id; lia. }
    lia.
Qed.

Lemma random_ok_world0 : random_ok world0.
Proof. intros n. reflexivity. Qed.

Lemma random_ok_world0_hi : random_ok world0_hi.
Proof. intros n. reflexivity. Qed.

Lemma wf_answers2 : wf_value answers2.
Proof.
  apply wf_obj_list; [|simpl; lia]. repeat constructor.
Qed.

Lemma wf_ai70 : wf_value ai70.
Proof.
  apply wf_obj_list; [|simpl; lia]. repeat constructor.
Qed.

Lemma wf_ai50 : wf_value ai50.
Proof.
  apply wf_obj_list; [|simpl; lia].
  repeat first [constructor | reflexivity | simpl; lia].
Qed.

Lemma wf_answers1 : wf_value answers1.
Proof. apply wf_obj_list; [|simpl; lia]. repeat constructor. Qed.

Lemma wf_ai_unprintable : wf_value ai_unprintable.
Proof.
  apply wf_obj_list; [|simpl; lia].
  constructor; [constructor|]. constructor; [|constructor].
  apply (wf_obj_list [("toString"%string, VNum (Z2N 1))]); [|simpl; lia].
  constructor; [|constructor]. constructor. reflexivity.
Qed.

(** C1, on the code: the scorer does not return a score for every AI
    result. [Number(...)] throws a TypeError on a score that is an
    object with a [toString] key of its own, before the test for a
    finite score that would have sent the scorer to its fallback
    baseline: for the JSON [{ summary, transparencyScore: { toString: 1 } }]
    the scorer throws, whatever the product, the answers and the random
    source, and a POST whose AI service answers with it ends in the
    catch of the route, with 500 and no report. *)
Theorem scorer_throws_on_unprintable_score `{Builtins}
    (productObj answersObj : value) (w : World) :
  wf_value ai_unprintable
  /\ baseFromAI ai_unprintable = Throw TypeError
  /\ deriveTransparencyScore ai_unprintable productObj answersObj w = (Throw TypeError, w)
  /\ fst (route post_report
            (request "alice" EmptyString (create_body "00000000000000000000000a"))
            world_unprintable)
     = {| status_code := 500; payload := PError "Server error creating report" |}
  /\ reports (snd (route post_report
                     (request "alice" EmptyString (create_body "00000000000000000000000a"))
                     world_unprintable)) = reports world_unprintable.
Proof.
  split; [exact wf_ai_unprintable|].
  assert (Hb : baseFromAI ai_unprintable = Throw TypeError) by (vm_compute; reflexivity).
  split; [exact Hb|]. split.
  - rewrite deriveTransparencyScore_by_parts.
    unfold score_from_parts, bind, base, of_result. rewrite Hb. reflexivity.
  - split; vm_compute; reflexivity.
Qed.

(** C2: the scorer computes
    [round(base * 0.6 + round(completenessRatio * 100) * 0.4)], adds the
    category boost when the ratio is at least 0.5 and subtracts
    [floor((1 - completenessRatio) * 5)] otherwise, then clamps; what is
    subtracted is never negative. With base 70, ratio 1 and boost 5 this
    is 87; with base 50 and ratio 0.2 it is 34. (The two conversions of
    the scorer, of the AI score to a number and of the category to a
    string, are taken to return.) *)
Theorem deriveTransparencyScore_formula `{Builtins}
    (aiResult productObj answersObj : value) (w : World) (n c : number) :
  wf_value aiResult -> wf_value answersObj -> random_ok w ->
  baseFromAI aiResult = Ok n -> categoryBoost productObj = Ok c ->
  exists b w' q,
    base aiResult w = (Ok b, w') /\
    deriveTransparencyScore aiResult productObj answersObj w =
      (Ok (Math_max (Z2N 0) (Math_min (Z2N 100)
             (spec_computed b (completenessRatio aiResult answersObj) c))), w') /\
    Math_floor (Nmul (Nsub (Z2N 1) (completenessRatio aiResult answersObj)) (Z2N 5)) = Z2N q /\
    0 <= q /\
    combine (Z2N 70) (Z2N 1) (Z2N 5) = Z2N 87 /\
    combine (Z2N 50) (decimal 2 1) c = Z2N 34.
Proof.
  intros Ha Hb Hr Hn Hcat. rewrite deriveTransparencyScore_by_parts.
  unfold score_from_parts, bind.
  destruct (base_range aiResult n w Ha Hr Hn) as (b & w' & Hbase & Hb100 & _).
  rewrite Hbase. unfold of_result. rewrite Hcat.
  destruct (categoryBoost_range productObj c Hcat) as (cz & Hc & ->).
  destruct (combine_exact b (completenessRatio aiResult answersObj) cz Hb100
              (completenessRatio_below _ _ Ha Hb) Hc)
    as (p & q & Hp & Hq & _ & Hpen & _ & Hspec).
  exists (Z2N b), w', q. split; [reflexivity|].
  split; [unfold ret; rewrite Hspec; reflexivity|].
  split; [exact Hpen|]. split; [lia|].
  split; [vm_compute; reflexivity|].
  assert (Hall : forallb (fun c => number_eqb (combine (Z2N 50) (decimal 2 1) (Z2N c)) (Z2N 34))
                   (Zrange 0 6) = true) by (vm_compute; reflexivity).
  apply number_eqb_eq. exact (forallb_Zrange _ _ _ Hall cz ltac:(lia)).
Qed.

Lemma deriveTransparencyScore_formula_witness :
  exists b w' q,
    base ai50 world0 = (Ok b, w') /\
    deriveTransparencyScore ai50 skincare answers1 world0 =
      (Ok (Math_max (Z2N 0) (Math_min (Z2N 100)
             (spec_computed b (completenessRatio ai50 answers1) (Z2N 5)))), w') /\
    Math_floor (Nmul (Nsub (Z2N 1) (completenessRatio ai50 answers1)) (Z2N 5)) = Z2N q /\
    0 <= q /\
    combine (Z2N 70) (Z2N 1) (Z2N 5) = Z2N 87 /\
    combine (Z2N 50) (decimal 2 1) (Z2N 5) = Z2N 34.
Proof.
  apply (deriveTransparencyScore_formula ai50 skincare answers1 world0 (Z2N 50) (Z2N 5));
    [exact wf_ai50|exact wf_answers1|exact random_ok_world0|reflexivity|reflexivity].
Defined.

(** The two worked cases of the specification, end to end. *)
Example score_70_complete_skincare :
  fst (deriveTransparencyScore ai70 skincare answers2 world0) = Ok (Z2N 87).
Proof. vm_compute. reflexivity. Qed.

Example score_50_one_of_five :
  completenessRatio ai50 answers1 = decimal 2 1 /\
  fst (deriveTransparencyScore ai50 skincare answers1 world0) = Ok (Z2N 34).
Proof. split; vm_compute; reflexivity. Qed.






(** The draw matters: the same AI result, product and answers give 81
    when [Math.random()] returns 0.5 and 91 when it returns 0.9. *)
Example score_follows_the_draw :
  fst (deriveTransparencyScore VUndefined skincare answers2 world0) = Ok (Z2N 81)
  /\ fst (deriveTransparencyScore VUndefined skincare answers2 world0_hi) = Ok (Z2N 91).
Proof. split; vm_compute; reflexivity. Qed.

(** C10: a finite numeric [transparencyScore] (or, when that field is
    missing or null, a finite numeric [score]) [s] makes the base
    [round(s)] clamped to 0..100, without touching the random source,
    and that base is what the scorer weights: its result is the
    combination of the rounded base with the completeness ratio and the
    category boost. An AI score of 65.5 gives base 66 and, for a
    skincare product with every question answered, the score 85;
    weighting 65.5 itself would have given 84. *)
Theorem base_is_rounded_ai_score `{Builtins}
    (aiResult productObj answersObj : value) (s c : number) (w : World) :
  (get aiResult "transparencyScore" = VNum s
   \/ ((get aiResult "transparencyScore" = VUndefined
        \/ get aiResult "transparencyScore" = VNull)
       /\ get aiResult "score" = VNum s)) ->
  Number_isFinite s = true ->
  categoryBoost productObj = Ok c ->
  base aiResult w = (Ok (Math_max (Z2N 0) (Math_min (Z2N 100) (Math_round s))), w)
  /\ deriveTransparencyScore aiResult productObj answersObj w
     = (Ok (combine (Math_max (Z2N 0) (Math_min (Z2N 100) (Math_round s)))
                    (completenessRatio aiResult answersObj) c), w)
  /\ Math_round (decimal 655 1) = Z2N 66
  /\ deriveTransparencyScore ai655 skincare answers1 w = (Ok (Z2N 85), w)
  /\ combine (decimal 655 1) (Z2N 1) (Z2N 5) = Z2N 84.
Proof.
  intros Hs Hf Hcat.
  assert (Hb : baseFromAI aiResult = Ok s).
  { unfold baseFromAI. destruct Hs as [->|[[->| ->] ->]]; reflexivity. }
  assert (Hbase : base aiResult w
                  = (Ok (Math_max (Z2N 0) (Math_min (Z2N 100) (Math_round s))), w)).
  { unfold base, bind, of_result. rewrite Hb, Hf. reflexivity. }
  split; [exact Hbase|]. split; [|split; [|split]].
  - rewrite deriveTransparencyScore_by_parts. unfold score_from_parts, bind.
    rewrite Hbase. unfold of_result. rewrite Hcat. reflexivity.
  - vm_compute. reflexivity.
  - vm_compute. reflexivity.
  - vm_compute. reflexivity.
Qed.

Lemma base_is_rounded_ai_score_witness :
  base ai655 world0 = (Ok (Z2N 66), world0)
  /\ deriveTransparencyScore ai655 skincare answers1 world0 = (Ok (Z2N 85), world0).
Proof.
  assert (Hg : get ai655 "transparencyScore" = VNum (decimal 655 1))
    by (vm_compute; reflexivity).
  destruct (base_is_rounded_ai_score ai655 skincare answers1 (decimal 655 1) (Z2N 5) world0
              (or_introl Hg) eq_refl eq_refl) as (Hb & _ & Hr & Hd & _).
  split; [|exact Hd].
  rewrite Hb. vm_compute. reflexivity.
Defined.
(** * The report routes *)

Lemma protect_keeps_world req w r w' : protect req w = (r, w') -> w' = w.
Proof.
  unfold protect.
  destruct (match authorization req with Some _ => _ | None => _ end) as [[|c t]|];
    unfold ret; try (intros E; inversion E; reflexivity).
  destruct (jwt_verify w (String c t)) as [id|]; [|intros E; inversion E; reflexivity].
  destruct (users w !! id) as [u|]; [|intros E; inversion E; reflexivity].
  destruct (negb (u_isActive u)); intros E; inversion E; reflexivity.
Qed.

Lemma mongo_id_string v :
  isMongoId v = true -> exists s pid, v = VStr s /\ hex24 s = Some pid.
Proof.
  destruct v; try discriminate. simpl.
  destruct (hex24 s) as [pid|] eqn:E; [|discriminate]. intros _. eauto.
Qed.

(** C5: creating a report for a productId that names no product
    answers 404 and leaves the world as it was: no report is written, the
    AI service is not called and the scorer is not run (the trace and the
    random source are untouched). The request is one that passed
    [protect] and the validators. *)
Theorem post_report_unknown_product `{Builtins} (req : Request) (w : World) :
  create_body_valid (body req) = true ->
  (forall s pid, get (body req) "productId" = VStr s -> hex24 s = Some pid ->
                 products w !! pid = None) ->
  post_report req w
  = (Ok {| status_code := 404; payload := PError "Product not found" |}, w)
  /\ reports (snd (post_report req w)) = reports w
  /\ trace (snd (post_report req w)) = trace w
  /\ random_used (snd (post_report req w)) = random_used w.
Proof.
  intros Hvalid Hmissing.
  assert (Hrun : post_report req w
                 = (Ok {| status_code := 404; payload := PError "Product not found" |}, w)).
  { unfold post_report. rewrite Hvalid. cbn [negb].
    unfold create_body_valid in Hvalid. apply andb_prop in Hvalid.
    destruct Hvalid as [Hid _].
    destruct (mongo_id_string _ Hid) as (s & pid & Hs & Hhex).
    rewrite Hs. cbn [castObjectId_of].
    unfold try_catch, bind, castObjectId. rewrite Hhex. unfold ret.
    unfold Product_findById. rewrite (Hmissing s pid Hs Hhex). reflexivity. }
  rewrite Hrun. repeat split; reflexivity.
Qed.

Lemma post_report_unknown_product_witness :
  create_body_valid (body (with_user alice
      (request "alice" EmptyString (create_body "00000000000000000000000b")))) = true
  /\ (forall s pid,
        get (body (with_user alice
          (request "alice" EmptyString (create_body "00000000000000000000000b")))) "productId"
        = VStr s ->
        hex24 s = Some pid -> products world0 !! pid = None)
  /\ (post_report (with_user alice
        (request "alice" EmptyString (create_body "00000000000000000000000b"))) world0
      = (Ok {| status_code := 404; payload := PError "Product not found" |}, world0)
      /\ reports (snd (post_report (with_user alice
            (request "alice" EmptyString (create_body "00000000000000000000000b"))) world0))
         = reports world0
      /\ trace (snd (post_report (with_user alice
            (request "alice" EmptyString (create_body "00000000000000000000000b"))) world0))
         = trace world0
      /\ random_used (snd (post_report (with_user alice
            (request "alice" EmptyString (create_body "00000000000000000000000b"))) world0))
         = random_used world0).
Proof.
  assert (Hv : create_body_valid (body (with_user alice
      (request "alice" EmptyString (create_body "00000000000000000000000b")))) = true)
    by (vm_compute; reflexivity).
  assert (Hm : forall s pid,
        get (body (with_user alice
          (request "alice" EmptyString (create_body "00000000000000000000000b")))) "productId"
        = VStr s ->
        hex24 s = Some pid -> products world0 !! pid = None).
  { intros s pid Hs Hh.
    replace (get _ "productId") with (VStr "00000000000000000000000b") in Hs
      by (vm_compute; reflexivity).
    inversion Hs; subst s. vm_compute in Hh. inversion Hh; subst pid.
    vm_compute. reflexivity. }
  split; [exact Hv|]. split; [exact Hm|].
  apply (post_report_unknown_product _ world0 Hv Hm).
Defined.

Lemma update_body_valid_check `{Builtins} b :
  update_body_valid b = true -> update_body_check b = Ok true.
Proof.
  unfold update_body_valid. destruct (update_body_check b) as [[|]|e]; congruence.
Qed.

Lemma json_without_ingredients_status data w res w' :
  json_without_ingredients data w = (Ok res, w') -> status_code res = 200.
Proof.
  unfold json_without_ingredients, json, ret, throw.
  destruct (snd data); intros E; inversion E; reflexivity.
Qed.

Lemma forbidden_stranger req report owner u :
  user_ req = Some u -> userId report = Some owner ->
  owner <> u_id u -> u_role u <> admin -> forbidden req report = true.
Proof.
  intros Hu Ho Hne Hrole. unfold forbidden. rewrite Hu, Ho.
  apply N.eqb_neq in Hne. rewrite Hne. destruct (u_role u); [congruence|reflexivity].
Qed.

Lemma forbidden_owner_or_admin req report owner u :
  user_ req = Some u -> userId report = Some owner ->
  owner = u_id u \/ u_role u = admin -> forbidden req report = false.
Proof.
  intros Hu Ho [->|Hadm]; unfold forbidden; rewrite Hu, Ho.
  - rewrite N.eqb_refl. reflexivity.
  - rewrite Hadm. apply andb_false_r.
Qed.

(** C6: on an existing report that has an owner, a requester who is
    neither that owner nor an admin gets 403 from GET, PUT and DELETE, and
    nothing changes; the owner and any admin are let through: GET sends
    the report, DELETE removes it, PUT never answers 403. (PUT runs its
    body validators before it looks at the report, so it is taken on a
    body that passes them.) *)
Theorem single_report_ownership `{Builtins}
    (req : Request) (w : World) (id : ObjectId) (report : Report)
    (owner : ObjectId) (u : User) :
  hex24 (params_id req) = Some id ->
  reports w !! id = Some report ->
  userId report = Some owner ->
  user_ req = Some u ->
  (owner <> u_id u -> u_role u <> admin ->
   get_report req w = (Ok {| status_code := 403; payload := PError "Forbidden" |}, w)
   /\ (update_body_valid (body req) = true ->
       put_report req w = (Ok {| status_code := 403; payload := PError "Forbidden" |}, w))
   /\ delete_report req w = (Ok {| status_code := 403; payload := PError "Forbidden" |}, w))
  /\
  (owner = u_id u \/ u_role u = admin ->
   get_report req w
   = (Ok {| status_code := 200; payload := PReport report (products w !! productId report) |}, w)
   /\ (forall res w', put_report req w = (Ok res, w') -> status_code res <> 403)
   /\ (exists w',
         delete_report req w
         = (Ok {| status_code := 200; payload := PMessage "Report deleted successfully" |}, w')
         /\ reports w' = delete (r_id report) (reports w))).
Proof.
  intros Hid Hfound Howner Huser. split.
  - intros Hne Hrole.
    pose proof (forbidden_stranger req report owner u Huser Howner Hne Hrole) as Hf.
    repeat split.
    + unfold get_report, try_catch, bind, castObjectId. rewrite Hid. unfold ret.
      unfold Report_findById. rewrite Hfound, Hf. reflexivity.
    + intros Hvalid. unfold put_report. rewrite (update_body_valid_check _ Hvalid).
      unfold try_catch, bind, castObjectId. rewrite Hid. unfold ret.
      unfold Report_findById. rewrite Hfound, Hf. reflexivity.
    + unfold delete_report, try_catch, bind, castObjectId. rewrite Hid. unfold ret.
      unfold Report_findById. rewrite Hfound, Hf. reflexivity.
  - intros Hallowed.
    pose proof (forbidden_owner_or_admin req report owner u Huser Howner Hallowed) as Hf.
    repeat split.
    + unfold get_report, try_catch, bind, castObjectId. rewrite Hid. unfold ret.
      unfold Report_findById. rewrite Hfound, Hf. reflexivity.
    + intros res w'. unfold put_report.
      destruct (update_body_check (body req)) as [[|]|e0].
      * unfold try_catch, bind at 1, castObjectId. rewrite Hid. unfold ret at 1.
        unfold bind at 1, Report_findById. rewrite Hfound, Hf.
        destruct (negb (validated_keys_onlyb (body req))).
        -- unfold bind.
           destruct (put_unvalidated report (body req) w) as [[[p|]|e1] w1];
             unfold json, ret; intros E2; inversion E2; subst; simpl; lia.
        -- destruct (bind (assign_body report (body req)) _ w) as [[r|e] w''] eqn:E.
           ++ unfold bind in E.
              destruct (assign_body report (body req) w) as [[a|e1] w1]; [|discriminate].
              destruct (Report_save a _ w1) as [[sv|e2] w2]; [|discriminate].
              unfold populate in E.
              apply json_without_ingredients_status in E.
              intros E2. inversion E2; subst. lia.
           ++ unfold json, ret. intros E2. inversion E2; subst. simpl. lia.
      * unfold validation_failed, json, ret. intros E2. inversion E2; subst. simpl. lia.
      * unfold throw. discriminate.
    + eexists. split.
      * unfold delete_report, try_catch, bind, castObjectId. rewrite Hid. unfold ret.
        unfold Report_findById. rewrite Hfound, Hf. unfold Report_deleteOne, json, ret.
        reflexivity.
      * reflexivity.
Qed.

Lemma single_report_ownership_witness :
  exists report,
    hex24 "000000000000000000000000" = Some 0%N
    /\ reports world1 !! 0%N = Some report
    /\ userId report = Some 1%N
    /\ user_ (with_user bob (request "bob" "000000000000000000000000" (obj []))) = Some bob
    /\ get_report (with_user bob (request "bob" "000000000000000000000000" (obj []))) world1
       = (Ok {| status_code := 403; payload := PError "Forbidden" |}, world1).
Proof.
  assert (E : exists r, reports world1 !! 0%N = Some r /\ userId r = Some 1%N)
    by (vm_compute; eexists; split; reflexivity).
  destruct E as (r & Hr & Ho). exists r.
  assert (Hid : hex24 "000000000000000000000000" = Some 0%N) by (vm_compute; reflexivity).
  split; [exact Hid|]. split; [exact Hr|]. split; [exact Ho|]. split; [reflexivity|].
  apply (single_report_ownership
           (with_user bob (request "bob" "000000000000000000000000" (obj [])))
           world1 0%N r 1%N bob Hid Hr Ho eq_refl);
    [intros E; discriminate E|intros E; discriminate E].
Defined.

(** What the list route does: it answers and writes nothing, and the
    reports it sends are a part, in the same order, of the matching
    reports sorted; it sends none unless the query has passed the
    validators. *)
Lemma get_reports_run `{Builtins} req w :
  exists res,
    get_reports req w = (Ok res, w)
    /\ sublist (listed (payload res))
               (merge_sort newer_first (List.filter (list_filter req) (all_reports w)))
    /\ (listed (payload res) <> [] -> list_query_valid (query req) = true).
Proof.
  unfold get_reports.
  destruct (list_query_valid (query req)); cbn [negb].
  2:{ eexists. split; [reflexivity|]. split; [apply sublist_nil_l|].
      intros Hne. exfalso. apply Hne. reflexivity. }
  unfold try_catch, bind, Report_find, of_result, Report_countDocuments, json, ret.
  destruct (Query_count (Nmul _ _)) as [n|e1];
    [|eexists; split; [reflexivity|split; [apply sublist_nil_l|reflexivity]]].
  destruct (Query_count (parseInt_or (q_limit (query req)) (Z2N 10))) as [k|e2];
    [|eexists; split; [reflexivity|split; [apply sublist_nil_l|reflexivity]]].
  eexists. split; [reflexivity|]. split; [|reflexivity].
  cbn [payload listed]. rewrite map_map. cbn [fst]. rewrite map_id.
  destruct k.
  - apply sublist_drop.
  - etransitivity; [apply sublist_take|apply sublist_drop].
Qed.

Lemma protect_cases0 req w :
  (exists u, protect req w = (Ok (inr u), w))
  \/ (exists denied, protect req w = (Ok (inl denied), w)).
Proof.
  unfold protect.
  destruct (match authorization req with Some _ => _ | None => _ end) as [[|c t]|];
    unfold ret; eauto.
  destruct (jwt_verify w (String c t)) as [id|]; eauto.
  destruct (users w !! id) as [u|]; eauto.
  destruct (negb (u_isActive u)); eauto.
Qed.

Lemma protect_denied_payload req w denied :
  protect req w = (Ok (inl denied), w) -> listed (payload denied) = [].
Proof.
  unfold protect.
  destruct (match authorization req with Some _ => _ | None => _ end) as [[|c t]|];
    unfold ret; try (intros E; inversion E; reflexivity).
  destruct (jwt_verify w (String c t)) as [id|]; [|intros E; inversion E; reflexivity].
  destruct (users w !! id) as [u|]; [|intros E; inversion E; reflexivity].
  destruct (negb (u_isActive u)); intros E; inversion E; reflexivity.
Qed.

(** C7: every report that GET /api/reports sends belongs to the caller:
    whatever the stored reports, the credentials and the
    page/limit/status/minScore/maxScore parameters, a report in the
    response is owned by the user [protect] resolved. *)
Theorem get_reports_scoped_to_caller `{Builtins} (req : Request) (w : World) (r : Report) :
  In r (listed (payload (fst (route get_reports req w)))) ->
  exists u, protect req w = (Ok (inr u), w) /\ userId r = Some (u_id u).
Proof.
  unfold route. intros Hin.
  destruct (protect_cases0 req w) as [(u & Hp)|(denied & Hp)]; rewrite Hp in Hin.
  - exists u. split; [exact Hp|].
    destruct (get_reports_run (with_user u req) w) as (res & Hrun & Hsub & _).
    rewrite Hrun in Hin. cbn [fst] in Hin.
    apply list_elem_of_In in Hin.
    assert (Hin2 : r ∈ merge_sort newer_first
                     (List.filter (list_filter (with_user u req)) (all_reports w)))
      by (eapply elem_of_sublist; [exact Hin|exact Hsub]).
    rewrite merge_sort_Permutation in Hin2.
    apply list_elem_of_In, filter_In in Hin2. destruct Hin2 as [_ Hf].
    unfold list_filter in Hf. cbn [user_ with_user] in Hf.
    repeat (apply andb_prop in Hf; destruct Hf as [Hf _]).
    destruct (userId r) as [owner|]; [|discriminate].
    apply N.eqb_eq in Hf. congruence.
  - cbn [fst] in Hin. rewrite (protect_denied_payload _ _ _ Hp) in Hin. contradiction.
Qed.

Lemma get_reports_scoped_to_caller_witness :
  exists r,
    In r (listed (payload (fst (route get_reports (request "alice" EmptyString VUndefined) world1))))
    /\ exists u, protect (request "alice" EmptyString VUndefined) world1 = (Ok (inr u), world1)
                 /\ userId r = Some (u_id u).
Proof.
  assert (E : exists r,
    In r (listed (payload (fst (route get_reports (request "alice" EmptyString VUndefined) world1)))))
    by (vm_compute; eexists; left; reflexivity).
  destruct E as (r & Hr). exists r. split; [exact Hr|].
  apply (get_reports_scoped_to_caller (request "alice" EmptyString VUndefined) world1 r Hr).
Defined.

(** C8: when no report matches the caller, the statistics route
    answers 200 with every field of the overview at zero and an empty
    score distribution, and changes nothing. *)
Theorem stats_overview_of_no_report `{Builtins} (req : Request) (w : World) :
  List.filter (stats_match req) (all_reports w) = [] ->
  get_stats_overview req w
  = (Ok {| status_code := 200;
           payload := PStats {| totalReports := 0;
                                averageScore := Z2N 0;
                                maxScore := Z2N 0;
                                minScore := Z2N 0;
                                completedReports := 0;
                                pendingReports := 0;
                                draftReports := 0 |} [] |}, w).
Proof.
  intros Hempty. unfold get_stats_overview, try_catch, json, ret.
  rewrite Hempty. reflexivity.
Qed.

Lemma stats_overview_of_no_report_witness :
  List.filter (stats_match (with_user bob (request "bob" EmptyString VUndefined))) (all_reports world1)
  = []
  /\ get_stats_overview (with_user bob (request "bob" EmptyString VUndefined)) world1
     = (Ok {| status_code := 200;
              payload := PStats {| totalReports := 0;
                                   averageScore := Z2N 0;
                                   maxScore := Z2N 0;
                                   minScore := Z2N 0;
                                   completedReports := 0;
                                   pendingReports := 0;
                                   draftReports := 0 |} [] |}, world1).
Proof.
  assert (He : List.filter (stats_match (with_user bob (request "bob" EmptyString VUndefined)))
                 (all_reports world1) = []) by (vm_compute; reflexivity).
  split; [exact He|].
  apply (stats_overview_of_no_report (with_user bob (request "bob" EmptyString VUndefined)) world1 He).
Defined.

(** C9, on the code: the histogram has the buckets [0,20), [20,40),
    [40,60), [60,80) and [80,100): an integer score of 0..99 is counted
    under the lower boundary of its range, but a score of 100 is in no
    bucket and is counted under the default one. Where alice's only
    report scores 100 (the AI said 100 and every question was answered),
    her score distribution is one document, the default bucket. *)
Theorem score_100_counted_in_default_bucket :
  forallb (fun k => BucketId_eqb (bucket_of [0; 20; 40; 60; 80; 100] (Z2N k))
                                 (BLower (20 * (k / 20))))
          (Zrange 0 100) = true
  /\ bucket_of [0; 20; 40; 60; 80; 100] (Z2N 100) = BOther
  /\ map transparencyScore (all_reports world100) = [Z2N 100]
  /\ exists overview,
       payload (fst (route get_stats_overview (request "alice" EmptyString VUndefined) world100))
       = PStats overview [(BOther, 1)].
Proof.
  split; [vm_compute; reflexivity|]. split; [vm_compute; reflexivity|].
  split; [vm_compute; reflexivity|]. vm_compute. eexists. reflexivity.
Qed.

(** * Report creation when the AI service fails *)

Lemma bind_ok {A B} (m : M A) (k : A -> M B) w a w' :
  m w = (Ok a, w') -> bind m k w = k a w'.
Proof. intros E. unfold bind. rewrite E. reflexivity. Qed.

Lemma try_catch_ok {A} (m : M A) h w a w' :
  m w = (Ok a, w') -> try_catch m h w = (Ok a, w').
Proof. intros E. unfold try_catch. rewrite E. reflexivity. Qed.

Lemma try_catch_throw {A} (m : M A) h w e w' :
  m w = (Throw e, w') -> try_catch m h w = h e w'.
Proof. intros E. unfold try_catch. rewrite E. reflexivity. Qed.

Lemma string_app_cons c (s t : string) : (String c s ++ t)%string = String c (s ++ t).
Proof. reflexivity. Qed.

Lemma list_ascii_app s t :
  list_ascii_of_string (s ++ t) = (list_ascii_of_string s ++ list_ascii_of_string t)%list.
Proof.
  induction s as [|c s IH]; [reflexivity|].
  rewrite string_app_cons. cbn [list_ascii_of_string]. rewrite IH. reflexivity.
Qed.

Lemma string_length_app s t :
  String.length (s ++ t) = (String.length s + String.length t)%nat.
Proof.
  induction s as [|c s IH]; [reflexivity|].
  rewrite string_app_cons. cbn [String.length]. rewrite IH. reflexivity.
Qed.

Lemma string_rev_involutive s : string_rev (string_rev s) = s.
Proof.
  unfold string_rev. rewrite list_ascii_of_string_of_list_ascii, rev_involutive.
  apply string_of_list_ascii_of_string.
Qed.

(** a string that starts and ends with something else than white space
    is its own trimming *)
Lemma trim_noop c s d :
  is_space c = false -> is_space d = false ->
  trim (String c (s ++ String d EmptyString)) = String c (s ++ String d EmptyString).
Proof.
  intros Hc Hd. unfold trim. cbn [trim_start]. rewrite Hc.
  assert (Hrev : string_rev (String c (s ++ String d EmptyString))
                 = String d (string_of_list_ascii
                               (rev (list_ascii_of_string (String c s))))).
  { unfold string_rev.
    change (String c (s ++ String d EmptyString)) with (String c s ++ String d EmptyString)%string.
    rewrite list_ascii_app. cbn [list_ascii_of_string]. rewrite rev_app_distr.
    reflexivity. }
  rewrite Hrev. cbn [trim_start]. rewrite Hd. rewrite <- Hrev.
  apply string_rev_involutive.
Qed.

Lemma string_app_assoc (a b c : string) : ((a ++ b) ++ c)%string = (a ++ (b ++ c))%string.
Proof. induction a as [|x a IH]; [reflexivity|]. rewrite !string_app_cons, IH. reflexivity. Qed.

Lemma trim_fallback_summary name : trim (fallback_summary name) = fallback_summary name.
Proof.
  unfold fallback_summary.
  change ("Analysis for " ++ name
          ++ ": This product shows basic transparency with room for improvement.")%string
    with (String "A" ("nalysis for " ++ (name
          ++ (": This product shows basic transparency with room for improvement"
              ++ String "." EmptyString))))%string.
  rewrite <- (string_app_assoc name), <- (string_app_assoc "nalysis for ").
  apply trim_noop; reflexivity.
Qed.

Lemma fallback_summary_length name :
  (String.length name <= 200)%nat -> (String.length (fallback_summary name) <= 2000)%nat.
Proof.
  intros Hn. unfold fallback_summary. rewrite !string_length_app. simpl. lia.
Qed.

Lemma fallback_summary_nonempty name : String.eqb (fallback_summary name) EmptyString = false.
Proof. reflexivity. Qed.

Lemma small_int_facts k :
  0 <= k <= 100 ->
  valid (Z2N k) /\ Number_isFinite (Z2N k) = true /\ Math_round (Z2N k) = Z2N k.
Proof.
  intros Hk.
  assert (Hall : forallb (fun k => valid_binary prec emax (Z2N k)
                                   && Number_isFinite (Z2N k)
                                   && number_eqb (Math_round (Z2N k)) (Z2N k))
                   (Zrange 0 101) = true) by (vm_compute; reflexivity).
  pose proof (forallb_Zrange _ _ _ Hall k ltac:(lia)) as Hk'. cbv beta in Hk'.
  apply andb_prop in Hk'. destruct Hk' as [Hk' H3].
  apply andb_prop in Hk'. destruct Hk' as [H1 H2].
  repeat split; [exact H1|exact H2|apply number_eqb_eq, H3].
Qed.

Lemma Nge_Z2N a b :
  Z.abs a < 2 ^ 53 -> Z.abs b < 2 ^ 53 -> Nge (Z2N a) (Z2N b) = (b <=? a).
Proof.
  intros Ha Hb. unfold Nge. rewrite Ncompare_Z2N by assumption.
  destruct (Z.compare_spec a b); symmetry; [apply Z.leb_le|apply Z.leb_gt|apply Z.leb_le]; lia.
Qed.

Lemma Nlt_Z2N a b :
  Z.abs a < 2 ^ 53 -> Z.abs b < 2 ^ 53 -> Nlt (Z2N a) (Z2N b) = (a <? b).
Proof.
  intros Ha Hb. unfold Nlt. rewrite Ncompare_Z2N by assumption.
  destruct (Z.compare_spec a b); symmetry; [apply Z.ltb_ge|apply Z.ltb_lt|apply Z.ltb_ge]; lia.
Qed.

Section Fallback.
Context `{Builtins}.

Lemma get_fallback_score p x : get (fallback_value p x) "transparencyScore" = VNum x.
Proof. reflexivity. Qed.

Lemma get_fallback_summary p x :
  get (fallback_value p x) "summary" = VStr (fallback_summary (p_name p)).
Proof. reflexivity. Qed.

Lemma cast_fallback_analysis p x :
  cast_Analysis (get (fallback_value p x) "analysis")
  = Ok {| strengths := ["Product information provided"; "Basic ingredient list available"];
          improvements := ["Add sustainability data"; "Include certification details"];
          recommendations := ["Provide sourcing details"; "Add eco-impact information"] |}%string.
Proof. vm_compute. reflexivity. Qed.

Lemma categoryBoost_of_product p :
  exists c, categoryBoost (Product_toObject p) = Ok (Z2N c) /\ 0 <= c <= 5.
Proof.
  unfold categoryBoost, category.
  replace (get (Product_toObject p) "category") with (VStr (p_category p)) by reflexivity.
  cbn [truthy]. destruct (negb (String.eqb (p_category p) EmptyString)); cbn [ToString];
    match goal with
    | |- context [boost_of ?t] => destruct (boost_of_range t) as (c & Hc & ->)
    end; eauto.
Qed.

Lemma wf_fallback_value p x : valid x -> wf_value (fallback_value p x).
Proof.
  intros Hx. unfold fallback_value. apply wf_obj_list; [|simpl; lia].
  repeat first [exact Hx | apply wf_obj_list | constructor | simpl; lia].
Qed.
End Fallback.

(** C4, as the code has it: when the AI call fails, the report is
    still created (201): its summary is the template around the product
    name, its analysis lists are the fixed ones, its score is an integer
    of 0..100 and it is stored as completed. The object built in place of
    the AI result does carry a [transparencyScore], an integer of 40..79
    computed from one draw of [Math.random()]; the scorer takes it as its
    base and draws nothing itself. *)
Theorem post_report_when_ai_fails `{Builtins}
    (req : Request) (w : World) (u : User) (product : Product)
    (s : string) (pid : ObjectId) :
  user_ req = Some u ->
  get (body req) "productId" = VStr s -> hex24 s = Some pid ->
  isObject (get (body req) "answers") = true ->
  wf_value (get (body req) "answers") ->
  products w !! pid = Some product ->
  (String.length (p_name product) <= 200)%nat ->
  (forall p a, ai_service w p a = None) ->
  random_ok w ->
  exists report w' k b0,
    post_report req w
    = (Ok {| status_code := 201; payload := PReport report (Some product) |}, w')
    /\ summary report = fallback_summary (p_name product)
    /\ analysis report
       = {| strengths := ["Product information provided"; "Basic ingredient list available"];
            improvements := ["Add sustainability data"; "Include certification details"];
            recommendations := ["Provide sourcing details"; "Add eco-impact information"]
         |}%string
    /\ status report = completed
    /\ userId report = Some (u_id u)
    /\ transparencyScore report = Z2N k /\ 0 <= k <= 100
    /\ fst (fallback_analysis product w) = Ok (fallback_value product (Z2N b0))
    /\ 40 <= b0 <= 79
    /\ fst (base (fallback_value product (Z2N b0)) w) = Ok (Z2N b0)
    /\ random_used w' = S (random_used w)
    /\ reports w' = <[r_id report := report]> (reports w)
    /\ trace w' = trace w ++ [EvAiRequest (p_id product); EvScorer; EvReportCreate (r_id report)].
Proof.
  intros Hu Hs Hhex Hobj Hwf Hprod Hname Hai Hr.
  set (answers_ := get (body req) "answers") in *.
  destruct (fallback_baseline _ (Hr (random_used w))) as (b0 & Hb0 & Hdraw).
  destruct (small_int_facts b0 ltac:(lia)) as (Hb0v & Hb0f & Hb0r).
  set (v := fallback_value product (Z2N b0)).
  set (w1 := set_trace (trace w ++ [EvAiRequest (p_id product)]) w).
  set (w2 := set_random_used (S (random_used w)) w1).
  set (w3 := set_trace (trace w2 ++ [EvScorer]) w2).
  assert (Hfbw : forall w0, random_source w0 (random_used w0) = random_source w (random_used w) ->
                 fallback_analysis product w0
                 = (Ok v, set_random_used (S (random_used w0)) w0)).
  { intros w0 E. unfold fallback_analysis, bind, Math_random, ret. rewrite E, Hdraw. reflexivity. }
  assert (Hfb : try_catch (axios_post_analyze product answers_)
                  (fun _ => fallback_analysis product) w = (Ok v, w2)).
  { unfold try_catch, axios_post_analyze. rewrite Hai. fold w1.
    rewrite (Hfbw w1) by reflexivity. reflexivity. }
  assert (Hbasew : forall w0, base v w0 = (Ok (Z2N b0), w0)).
  { intros w0. unfold base, bind, of_result, baseFromAI, v. rewrite get_fallback_score.
    cbn [nullish ToNumber]. rewrite Hb0f, Hb0r. unfold ret.
    fold (clamp (Z2N b0)). rewrite clamp_Z2N by (change (2 ^ 53) with 9007199254740992; lia).
    do 2 f_equal. f_equal. lia. }
  assert (Hscore : exists k,
             deriveTransparencyScore v (Product_toObject product) answers_ w3
             = (Ok (Z2N k), w3) /\ 0 <= k <= 100).
  { rewrite deriveTransparencyScore_by_parts. unfold score_from_parts.
    rewrite (bind_ok _ _ _ _ _ (Hbasew w3)).
    destruct (categoryBoost_of_product product) as (c & -> & Hc).
    unfold bind, of_result, ret.
    destruct (combine_exact b0 (completenessRatio v answers_) c ltac:(lia)
                (completenessRatio_below _ _ (wf_fallback_value product _ Hb0v) Hwf) Hc)
      as (p & q & Hp & Hq & _ & _ & -> & _).
    eexists. split; [reflexivity|]. unfold combineZ. lia. }
  destruct Hscore as (k & Hscore & Hk).
  set (report := {| r_id := fresh (dom (reports w)); productId := pid;
                    userId := Some (u_id u);
                    summary := fallback_summary (p_name product);
                    transparencyScore := Z2N k;
                    analysis := {| strengths := ["Product information provided";
                                                 "Basic ingredient list available"];
                                   improvements := ["Add sustainability data";
                                                    "Include certification details"];
                                   recommendations := ["Provide sourcing details";
                                                       "Add eco-impact information"] |}%string;
                    answers := answers_; pdfUrl := None; status := completed;
                    createdAt := clock w; updatedAt := clock w |}).
  set (w4 := set_trace (trace w3 ++ [EvReportCreate (r_id report)])
               (set_reports (fun m => <[r_id report := report]> m) w3)).
  exists report, w4, k, b0.
  split.
  - unfold post_report, create_body_valid. fold answers_. rewrite Hs, Hobj.
    cbn [isMongoId castObjectId_of]. rewrite Hhex. cbn [andb negb].
    apply try_catch_ok.
    rewrite (bind_ok _ _ w pid w) by (unfold castObjectId; rewrite Hhex; reflexivity).
    rewrite (bind_ok _ _ w (Some product) w) by (unfold Product_findById; rewrite Hprod; reflexivity).
    rewrite (bind_ok _ _ _ _ _ Hfb).
    rewrite (bind_ok _ _ w2 tt w3) by reflexivity.
    rewrite (bind_ok _ _ _ _ _ Hscore).
    rewrite (bind_ok _ _ w3 (VStr (fallback_summary (p_name product))) w3) by reflexivity.
    rewrite (bind_ok _ _ w3 (get v "analysis") w3) by reflexivity.
    rewrite (bind_ok _ _ w3 (fallback_summary (p_name product)) w3)
      by (cbn [cast_String castString lift]; rewrite trim_fallback_summary; reflexivity).
    unfold v at 1. rewrite cast_fallback_analysis. cbn [lift].
    rewrite (bind_ok _ _ w3 _ w3) by reflexivity.
    rewrite Hu. cbn [option_map].
    assert (Hcreate : forall doc, doc = {| r_id := 0%N; productId := pid;
                    userId := Some (u_id u);
                    summary := fallback_summary (p_name product);
                    transparencyScore := Z2N k;
                    analysis := analysis report;
                    answers := answers_; pdfUrl := None; status := completed;
                    createdAt := 0; updatedAt := 0 |} ->
                    Report_create doc w3 = (Ok report, w4)).
    { intros doc ->.
      change (Report_create _ w3)
        with (if schema_valid report && pre_save_ok report
              then (Ok report, w4) else (Throw ValidationError, w3)).
      assert (Hvalid : schema_valid report && pre_save_ok report = true).
      { unfold schema_valid, pre_save_ok, report.
        cbn [userId summary transparencyScore status].
        rewrite fallback_summary_nonempty.
        replace (String.length (fallback_summary (p_name product)) <=? 2000)%nat with true
          by (symmetry; apply Nat.leb_le, fallback_summary_length, Hname).
        rewrite !Nge_Z2N, Nlt_Z2N by (change (2 ^ 53) with 9007199254740992; simpl; lia).
        replace (0 <=? k) with true by (symmetry; apply Z.leb_le; lia).
        replace (k <=? 100) with true by (symmetry; apply Z.leb_le; lia).
        replace (k <? 0) with false by (symmetry; apply Z.ltb_ge; lia).
        reflexivity. }
      rewrite Hvalid. reflexivity. }
    rewrite (bind_ok _ _ _ _ _ (Hcreate _ eq_refl)).
    rewrite (bind_ok _ _ w4 (report, Some product) w4).
    + reflexivity.
    + unfold populate. change (products w4) with (products w).
      change (productId report) with pid. rewrite Hprod. reflexivity.
  - repeat split; try reflexivity; try lia.
    + rewrite (Hfbw w eq_refl). reflexivity.
    + rewrite Hbasew. reflexivity.
    + unfold w4, w3, w2, w1. cbn [trace set_trace set_reports set_random_used].
      rewrite <- !app_assoc. reflexivity.
Qed.

Lemma post_report_when_ai_fails_witness :
  user_ (with_user alice (request "alice" EmptyString (create_body "00000000000000000000000a")))
  = Some alice
  /\ get (create_body "00000000000000000000000a") "productId"
     = VStr "00000000000000000000000a"
  /\ hex24 "00000000000000000000000a" = Some 10%N
  /\ isObject (get (create_body "00000000000000000000000a") "answers") = true
  /\ wf_value (get (create_body "00000000000000000000000a") "answers")
  /\ products world0 !! 10%N = Some soap
  /\ (String.length (p_name soap) <= 200)%nat
  /\ (forall p a, ai_service world0 p a = None)
  /\ random_ok world0
  /\ exists report w' k,
       post_report (with_user alice
         (request "alice" EmptyString (create_body "00000000000000000000000a"))) world0
       = (Ok {| status_code := 201; payload := PReport report (Some soap) |}, w')
       /\ summary report = fallback_summary "Soap"
       /\ transparencyScore report = Z2N k /\ 0 <= k <= 100
       /\ random_used w' = 1%nat.
Proof.
  assert (H1 : get (create_body "00000000000000000000000a") "productId"
               = VStr "00000000000000000000000a") by (vm_compute; reflexivity).
  assert (H2 : hex24 "00000000000000000000000a" = Some 10%N) by (vm_compute; reflexivity).
  assert (H3 : isObject (get (create_body "00000000000000000000000a") "answers") = true)
    by (vm_compute; reflexivity).
  assert (H4 : wf_value (get (create_body "00000000000000000000000a") "answers")).
  { replace (get (create_body "00000000000000000000000a") "answers") with answers1
      by (vm_compute; reflexivity).
    apply wf_obj_list; [|simpl; lia]. repeat constructor. }
  assert (H5 : products world0 !! 10%N = Some soap) by (vm_compute; reflexivity).
  assert (H6 : (String.length (p_name soap) <= 200)%nat) by (simpl; lia).
  assert (H7 : forall p a, ai_service world0 p a = None) by (intros; reflexivity).
  repeat (split; [first [reflexivity | assumption | exact random_ok_world0]|]).
  destruct (post_report_when_ai_fails
              (with_user alice (request "alice" EmptyString (create_body "00000000000000000000000a")))
              world0 alice soap "00000000000000000000000a" 10%N
              eq_refl H1 H2 H3 H4 H5 H6 H7 random_ok_world0)
    as (report & w' & k & b0 & Hrun & Hsum & _ & _ & _ & Hscore & Hk & _ & _ & _ & Hdraws & _).
  exists report, w', k. repeat split; try assumption; lia.
Defined.

(** C4, as stated: the object that stands in for the AI result does
    not omit [transparencyScore]: for the soap, with [Math.random()]
    returning 0.5, it carries 60, which the scorer takes as its base.
    After the whole request one draw has been made, the one of the
    handler: the scorer's own fallback baseline was not used. *)
Lemma fallback_analysis_carries_a_score :
  fst (fallback_analysis soap world0) = Ok (fallback_value soap (Z2N 60))
  /\ get (fallback_value soap (Z2N 60)) "transparencyScore" = VNum (Z2N 60)
  /\ get (fallback_value soap (Z2N 60)) "transparencyScore" <> VUndefined
  /\ base (fallback_value soap (Z2N 60)) world0 = (Ok (Z2N 60), world0)
  /\ random_used world1 = 1%nat.
Proof.
  split; [vm_compute; reflexivity|]. split; [reflexivity|].
  split; [discriminate|]. split; vm_compute; reflexivity.
Qed.

(** * More facts about binary64 arithmetic: quotients, order, integers *)

(** After [k] right shifts, whatever was shifted out before. *)
Lemma shr_iter_m M r s k :
  0 <= M ->
  shr_m (Pos.iter shr_1 {| shr_m := M; shr_r := r; shr_s := s |} k) = M / 2 ^ Zpos k.
Proof.
  intros HM. induction k using Pos.peano_ind.
  - cbn [Pos.iter]. rewrite shr_1_nonneg by lia. cbn [shr_m].
    rewrite Z.div2_div. reflexivity.
  - rewrite Pos.iter_succ.
    destruct (Pos.iter shr_1 _ k) as [m r' s']. cbn [shr_m] in IHk.
    assert (0 <= m) by (subst m; apply Z.div_pos; lia).
    rewrite shr_1_nonneg by assumption. cbn [shr_m].
    rewrite Pos2Z.inj_succ, Z.pow_succ_r by lia.
    rewrite Z.div2_div, IHk, Z.div_div by lia. f_equal; lia.
Qed.

Lemma shr_fexp_m m e l :
  0 <= m ->
  exists rec e',
    shr_fexp 53 1024 m e l = (rec, e') /\
    e' = Z.max e (fexp 53 1024 (Zdigits2 m + e)) /\
    shr_m rec = m / 2 ^ (e' - e).
Proof.
  intros Hm. unfold shr_fexp, shr.
  assert (Hrec : exists r s, shr_record_of_loc m l = {| shr_m := m; shr_r := r; shr_s := s |}).
  { destruct l as [|[| |]]; simpl; eauto. }
  destruct Hrec as (r & s & ->).
  destruct (fexp 53 1024 (Zdigits2 m + e) - e) as [|k|k] eqn:Hk.
  - eexists _, _. split; [reflexivity|]. split; [lia|].
    replace (e - e) with 0 by lia. simpl. rewrite Z.div_1_r. reflexivity.
  - rewrite iter_pos_iter.
    eexists _, _. split; [reflexivity|].
    assert (He : Z.max e (fexp 53 1024 (Zdigits2 m + e)) = e + Z.pos k) by lia.
    split; [lia|].
    replace (e + Z.pos k - e) with (Z.pos k) by lia. apply shr_iter_m, Hm.
  - eexists _, _. split; [reflexivity|]. split; [lia|].
    replace (e - e) with 0 by lia. simpl. rewrite Z.div_1_r. reflexivity.
Qed.

(** Rounding a value strictly between [M * 2^E] and [(M + 1) * 2^E],
    the latter at most [Nb / 2^t]. *)
Lemma round_aux_below_strict M E Nb t l :
  0 <= t <= 1074 -> E < 0 -> 0 < Nb < 2 ^ 53 -> Nb < 2 ^ (52 + t) ->
  (Zpos M + 1) * 2 ^ t <= Nb * 2 ^ (- E) ->
  below Nb t (binary_round_aux 53 1024 false (Zpos M) E l).
Proof.
  intros Ht HE HNb HNb2 Hle1. unfold binary_round_aux.
  pose proof (pow2_gt0 t ltac:(lia)) as Hpt.
  assert (Hle : Zpos M * 2 ^ t <= Nb * 2 ^ (- E)) by nia.
  destruct (shr_fexp_m (Zpos M) E l ltac:(lia)) as (rec1 & e1 & Heq1 & He1 & Hm1).
  rewrite Heq1.
  destruct (round_nearest_even_bounds rec1) as [Hr1 _].
  set (m2 := round_nearest_even (shr_m rec1) (loc_of_shr_record rec1)) in *.
  rewrite fexp_eq in He1.
  set (d := Zdigits2 (Zpos M)) in *.
  assert (Hd52 : d + E <= 52).
  { destruct (scaled_lt_pow (Zpos M) t (- E) Nb 52) as [? ?]; try lia.
    pose proof (digits_exp_bound (Zpos M) (- E) 52). lia. }
  assert (Hd53 : d + E <= 53 - t).
  { assert (Nb < 2 ^ (53 - t + t)) by (replace (53 - t + t) with 53 by lia; lia).
    destruct (scaled_lt_pow (Zpos M) t (- E) Nb (53 - t)) as [? ?]; try lia.
    pose proof (digits_exp_bound (Zpos M) (- E) (53 - t)). lia. }
  assert (He1neg : e1 < 0) by lia.
  assert (Hm1nn : 0 <= shr_m rec1).
  { rewrite Hm1. apply Z.div_pos; [lia|]. apply pow2_gt0. lia. }
  assert (Hm2 : 0 <= m2 /\ m2 * 2 ^ t <= Nb * 2 ^ (- e1)).
  { split; [lia|].
    destruct (Z.eq_dec e1 E) as [->|Hne].
    - replace (E - E) with 0 in * by lia. simpl in Hm1.
      rewrite Z.div_1_r in Hm1. nia.
    - assert (Hk : 0 < e1 - E) by lia.
      assert (Het : e1 <= - t) by lia.
      set (k := e1 - E) in *.
      set (P := 2 ^ (- t - e1)).
      assert (HP : 0 < P) by (apply pow2_gt0; lia).
      pose proof (pow2_gt0 k ltac:(lia)) as Hpk.
      assert (HE2 : 2 ^ (- E) = 2 ^ k * (P * 2 ^ t)).
      { unfold P, k. rewrite <- !pow2_split by lia. f_equal. lia. }
      assert (He2 : 2 ^ (- e1) = P * 2 ^ t).
      { unfold P. rewrite <- pow2_split by lia. f_equal. lia. }
      rewrite HE2 in Hle1. rewrite He2.
      assert (HM : Zpos M + 1 <= Nb * P * 2 ^ k) by nia.
      pose proof (Z.div_mod (Zpos M) (2 ^ k) ltac:(lia)) as Hdm.
      pose proof (Z.mod_pos_bound (Zpos M) (2 ^ k) ltac:(lia)) as Hmb.
      rewrite <- Hm1 in Hdm.
      assert (shr_m rec1 < Nb * P) by nia.
      nia. }
  destruct Hm2 as [Hm2nn Hm2le].
  destruct (shr_fexp_exact m2 e1 Hm2nn) as (rec2 & e2 & Heq2 & He2 & Hm3 & _).
  rewrite Heq2. rewrite fexp_eq in He2.
  assert (He2neg : e2 < 0).
  { destruct (Z.eq_dec m2 0) as [->|Hnz]; [simpl in He2; lia|].
    destruct (scaled_lt_pow m2 t (- e1) Nb 52) as [? ?]; try lia.
    pose proof (digits_exp_bound m2 (- e1) 52). lia. }
  assert (Hk2 : 0 <= e2 - e1) by lia.
  pose proof (pow2_gt0 (e2 - e1) Hk2) as Hpk2.
  assert (Hm3nn : 0 <= shr_m rec2).
  { rewrite Hm3. apply Z.div_pos; lia. }
  assert (Hm3le : shr_m rec2 * 2 ^ t <= Nb * 2 ^ (- e2)).
  { assert (Hs : 2 ^ (- e1) = 2 ^ (- e2) * 2 ^ (e2 - e1)).
    { rewrite <- pow2_split by lia. f_equal. lia. }
    rewrite Hs in Hm2le.
    pose proof (Z.div_mod m2 (2 ^ (e2 - e1)) ltac:(lia)) as Hdm.
    pose proof (Z.mod_pos_bound m2 (2 ^ (e2 - e1)) ltac:(lia)) as Hmb.
    rewrite <- Hm3 in Hdm.
    pose proof (pow2_gt0 (- e2) ltac:(lia)).
    nia. }
  destruct (shr_m rec2) as [|m3|m3]; [exact I| |lia].
  replace (e2 <=? 1024 - 53) with true by (symmetry; apply Z.leb_le; lia).
  split; assumption.
Qed.

(** The shape of the Number of a positive integer: a full mantissa. *)
Lemma Z2N_pos_shape n :
  0 < n < 2 ^ 53 ->
  exists m e, Z2N n = S754_finite false m e /\ -52 <= e <= 0 /\
              2 ^ 52 <= Zpos m < 2 ^ 53 /\ Zpos m = n * 2 ^ (- e) /\
              Zdigits2 (Zpos m) = 53 /\ Zdigits2 n = e + 53.
Proof.
  intros Hn. destruct n as [|p|p]; try lia.
  unfold Z2N, binary_normalize, prec, emax.
  destruct (binary_round_int false p ltac:(lia)) as (mz & -> & Hmz). cbv zeta in *.
  pose proof (digits2_upper p) as Du. pose proof (digits2_lower p) as Dl.
  assert (Hd : Zpos (digits2_pos p) <= 53) by (apply digits2_le_53; lia).
  set (d := Zpos (digits2_pos p)) in *.
  assert (Hd1 : 1 <= d) by (unfold d; lia).
  exists mz, (d - 53). split; [reflexivity|]. split; [lia|].
  pose proof (pow2_gt0 (53 - d) ltac:(lia)) as Pd.
  assert (E1 : 2 ^ 52 = 2 ^ (d - 1) * 2 ^ (53 - d))
    by (rewrite <- pow2_split by lia; f_equal; lia).
  assert (E2 : 2 ^ 53 = 2 ^ d * 2 ^ (53 - d))
    by (rewrite <- pow2_split by lia; f_equal; lia).
  assert (Hrange : 2 ^ 52 <= Zpos mz < 2 ^ 53) by (rewrite Hmz, E1, E2; nia).
  split; [exact Hrange|]. split.
  - rewrite Hmz. f_equal. f_equal. lia.
  - split; [|simpl; fold d; lia].
    simpl. apply digits2_unique. exact Hrange.
Qed.

Lemma div_eucl_div_mod a b : Z.div_eucl a b = (a / b, a mod b).
Proof. unfold Z.div, Z.modulo. destruct (Z.div_eucl a b). reflexivity. Qed.

(** [n / n] is 1 *)
Lemma Ndiv_same n : 0 < n < 2 ^ 53 -> Ndiv (Z2N n) (Z2N n) = Z2N 1.
Proof.
  intros Hn. destruct (Z2N_pos_shape n Hn) as (m & e & -> & He & Hm & _ & Hd & _).
  unfold Ndiv, SFdiv, SFdiv_core_binary, prec, emax. cbn [xorb].
  rewrite Hd.
  replace (53 + e - (53 + e)) with 0 by lia.
  replace (e - e) with 0 by lia.
  change (Z.min (fexp 53 1024 0) 0) with (-53).
  change (0 - -53) with 53.
  cbv iota.
  rewrite Z.shiftl_mul_pow2 by lia.
  rewrite div_eucl_div_mod.
  rewrite Z.mul_comm, Z.div_mul, Z.mod_mul by lia.
  replace (new_location (Z.pos m) 0) with loc_Exact
    by (unfold new_location; destruct (Z.even (Z.pos m)); reflexivity).
  vm_compute. reflexivity.
Qed.

Lemma Zdigits2_mono a b : 0 < a <= b -> Zdigits2 a <= Zdigits2 b.
Proof.
  intros [Ha Hab].
  pose proof (Zdigits2_lower a Ha) as La.
  destruct b as [|pb|pb]; try lia. destruct a as [|pa|pa]; try lia.
  pose proof (digits2_upper pb) as Ub. simpl in *.
  assert (Hlt : 2 ^ (Zpos (digits2_pos pa) - 1) < 2 ^ Zpos (digits2_pos pb)) by lia.
  apply pow2_lt_inv in Hlt; lia.
Qed.

(** [c / t] for [0 <= c <= t] is at most 1 *)
Lemma Ndiv_le_one c t :
  0 <= c <= t -> 0 < t < 2 ^ 53 -> below 1 0 (Ndiv (Z2N c) (Z2N t)).
Proof.
  intros Hc Ht.
  destruct (Z.eq_dec c 0) as [->|Hc0].
  { destruct (Z2N_pos_shape t Ht) as (mt & et & -> & _). exact I. }
  destruct (Z.eq_dec c t) as [->|Hct].
  { rewrite Ndiv_same by lia. rewrite Z2N_1. simpl. split; [lia|reflexivity]. }
  destruct (Z2N_pos_shape c ltac:(lia)) as (mc & ec & -> & Hec & Hmc & Hvc & Hdc & Hdc').
  destruct (Z2N_pos_shape t Ht) as (mt & et & -> & Het & Hmt & Hvt & Hdt & Hdt').
  pose proof (Zdigits2_mono c t ltac:(lia)) as Hmono.
  unfold Ndiv, SFdiv, SFdiv_core_binary, prec, emax. cbn [xorb].
  rewrite Hdc, Hdt, fexp_eq.
  replace (Z.min (Z.max (53 + ec - (53 + et) - 53) (-1074)) (ec - et)) with (ec - et - 53) by lia.
  replace (ec - et - (ec - et - 53)) with 53 by lia.
  cbv iota.
  rewrite Z.shiftl_mul_pow2 by lia.
  rewrite div_eucl_div_mod.
  set (q := Z.pos mc * 2 ^ 53 / Z.pos mt).
  pose proof (pow2_gt0 (- ec) ltac:(lia)) as Pc.
  pose proof (pow2_gt0 (- et) ltac:(lia)) as Pt.
  assert (Hq : 0 < q).
  { unfold q. apply Z.div_str_pos. change (2 ^ 53) with 9007199254740992 in *.
    change (2 ^ 52) with 4503599627370496 in *. lia. }
  assert (Hlt : q < 2 ^ (- (ec - et - 53))).
  { unfold q. apply Z.div_lt_upper_bound; [lia|].
    replace (- (ec - et - 53)) with (53 + (et - ec)) by lia.
    rewrite pow2_split by lia.
    assert (Hcross : Z.pos mc < Z.pos mt * 2 ^ (et - ec)).
    { rewrite Hvc, Hvt.
      assert (Hs : 2 ^ (- ec) = 2 ^ (- et) * 2 ^ (et - ec)).
      { rewrite <- pow2_split by lia. f_equal. lia. }
      rewrite Hs. pose proof (pow2_gt0 (et - ec) ltac:(lia)). nia. }
    pose proof (pow2_gt0 53 ltac:(lia)). nia. }
  destruct q as [|pq|pq]; try lia.
  apply round_aux_below_strict; try lia.
Qed.

(** *** Order *)

(** Two finite numbers compare as their mantissas at any common scale. *)
Lemma Ncompare_scaled x y e0 :
  Number_isFinite x = true -> Number_isFinite y = true ->
  e0 <= Fexp x -> e0 <= Fexp y ->
  Ncompare x y = Some (scaled e0 x ?= scaled e0 y).
Proof.
  intros Hx Hy Hex Hey. rewrite Ncompare_finite by assumption. unfold scaled.
  set (e := Z.min (Fexp x) (Fexp y)).
  assert (E1 : 2 ^ (Fexp x - e0) = 2 ^ (Fexp x - e) * 2 ^ (e - e0))
    by (rewrite <- pow2_split by lia; f_equal; lia).
  assert (E2 : 2 ^ (Fexp y - e0) = 2 ^ (Fexp y - e) * 2 ^ (e - e0))
    by (rewrite <- pow2_split by lia; f_equal; lia).
  rewrite E1, E2, !Z.mul_assoc.
  rewrite <- Zmult_compare_compat_r by (apply Z.lt_gt, pow2_gt0; lia). reflexivity.
Qed.

Lemma Z2N_exp_lower n : Z.abs n < 2 ^ 53 -> -52 <= Fexp (Z2N n).
Proof.
  intros Hn. destruct n as [|p|p].
  - simpl. lia.
  - unfold Z2N, binary_normalize, prec, emax.
    destruct (binary_round_int false p ltac:(lia)) as (mz & -> & _). simpl. lia.
  - unfold Z2N, binary_normalize, prec, emax.
    destruct (binary_round_int true p ltac:(lia)) as (mz & -> & _). simpl. lia.
Qed.

Lemma scaled_Z2N e0 n :
  Z.abs n < 2 ^ 53 -> e0 <= -52 -> scaled e0 (Z2N n) = n * 2 ^ (- e0).
Proof.
  intros Hn He0. destruct (Z2N_val n Hn) as (_ & He & Hm).
  pose proof (Z2N_exp_lower n Hn) as Hlo.
  unfold scaled. rewrite Hm, <- Z.mul_assoc, <- pow2_split by lia.
  f_equal. f_equal. lia.
Qed.

(** A finite number against an integer. *)
Lemma Ncompare_int x k e0 :
  Number_isFinite x = true -> Z.abs k < 2 ^ 53 -> e0 <= Fexp x -> e0 <= -52 ->
  Ncompare x (Z2N k) = Some (scaled e0 x ?= k * 2 ^ (- e0)).
Proof.
  intros Hx Hk He He0.
  rewrite (Ncompare_scaled x (Z2N k) e0); try assumption.
  - rewrite scaled_Z2N by assumption. reflexivity.
  - apply Z2N_val, Hk.
  - pose proof (Z2N_exp_lower k Hk). lia.
Qed.

Lemma Nge_trans x y z :
  Number_isFinite x = true -> Number_isFinite y = true -> Number_isFinite z = true ->
  Nge x y = true -> Nge y z = true -> Nge x z = true.
Proof.
  intros Hx Hy Hz. unfold Nge.
  set (e0 := Z.min (Fexp x) (Z.min (Fexp y) (Fexp z))).
  rewrite (Ncompare_scaled x y e0), (Ncompare_scaled y z e0), (Ncompare_scaled x z e0)
    by (assumption || lia).
  destruct (Z.compare_spec (scaled e0 x) (scaled e0 y)); try discriminate;
  destruct (Z.compare_spec (scaled e0 y) (scaled e0 z)); try discriminate;
  destruct (Z.compare_spec (scaled e0 x) (scaled e0 z)); try reflexivity; lia.
Qed.

Lemma Nge_refl x : Number_isFinite x = true -> Nge x x = true.
Proof.
  intros Hx. unfold Nge. rewrite (Ncompare_scaled x x (Fexp x)) by (assumption || lia).
  rewrite Z.compare_refl. reflexivity.
Qed.

(** Among finite numbers, [y > x] fails exactly when [x >= y]. *)
Lemma Ngt_Nge x y :
  Number_isFinite x = true -> Number_isFinite y = true -> Ngt y x = negb (Nge x y).
Proof.
  intros Hx Hy. unfold Ngt, Nge.
  set (e0 := Z.min (Fexp x) (Fexp y)).
  rewrite (Ncompare_scaled y x e0), (Ncompare_scaled x y e0) by (assumption || lia).
  rewrite (Z.compare_antisym (scaled e0 y) (scaled e0 x)).
  destruct (scaled e0 y ?= scaled e0 x); reflexivity.
Qed.

Lemma Nlt_Nge x y :
  Number_isFinite x = true -> Number_isFinite y = true -> Nlt y x = negb (Nge y x).
Proof.
  intros Hx Hy. unfold Nlt, Nge.
  rewrite (Ncompare_scaled y x (Z.min (Fexp x) (Fexp y))) by (assumption || lia).
  destruct (_ ?= _); reflexivity.
Qed.

(** *** Integers *)

Lemma Z2N_inj a b : Z.abs a < 2 ^ 53 -> Z.abs b < 2 ^ 53 -> Z2N a = Z2N b -> a = b.
Proof.
  intros Ha Hb E. pose proof (Ncompare_Z2N a b Ha Hb) as Hc.
  rewrite E, Ncompare_Z2N in Hc by assumption.
  inversion Hc as [Hc']. rewrite Z.compare_refl in Hc'.
  apply Z.compare_eq. symmetry. exact Hc'.
Qed.

(** Rounding an integer leaves it as it is. *)
Lemma Math_round_Z2N n : Z.abs n < 2 ^ 53 -> Math_round (Z2N n) = Z2N n.
Proof.
  intros Hn. destruct (Z2N_val n Hn) as (Hf & He & Hm).
  destruct (Z2N n) as [s|s| |s m e] eqn:E; try discriminate; [reflexivity|].
  cbn [Fexp Fmant] in He, Hm. unfold Math_round.
  destruct (Z.leb_spec 0 e) as [Hge|Hlt]; [reflexivity|].
  rewrite Hm, Z.shiftl_div_pow2 by lia.
  replace (- (e - 1)) with (1 + - e) by lia. rewrite pow2_split by lia.
  change (2 ^ 1) with 2.
  pose proof (pow2_gt0 (- e) ltac:(lia)) as Pe.
  replace (2 * (n * 2 ^ (- e)) + 2 ^ (- e)) with ((2 * n + 1) * 2 ^ (- e)) by ring.
  rewrite Z.div_mul_cancel_r by lia.
  replace ((2 * n + 1) / 2) with n
    by (apply Z.div_unique with (r := 1); lia).
  assert (Hnz : n <> 0).
  { intros ->. simpl in Hm. destruct s; simpl in Hm; lia. }
  replace (n =? 0) with false by (symmetry; apply Z.eqb_neq; exact Hnz).
  rewrite <- E. reflexivity.
Qed.

(** * Integer arithmetic on Numbers is exact below 2^53 *)

Lemma Zdigits2_scaled n k :
  0 < n -> 0 <= k -> Zdigits2 (n * 2 ^ k) = Zdigits2 n + k.
Proof.
  intros Hn Hk. pose proof (pow2_gt0 k Hk) as Pk.
  destruct n as [|p|p]; try lia.
  assert (Hpos : 0 < Zpos p * 2 ^ k) by lia.
  destruct (Zpos p * 2 ^ k) as [|q|q] eqn:Eq; try lia.
  cbn [Zdigits2]. apply digits2_unique. rewrite <- Eq.
  pose proof (digits2_lower p) as Dl. pose proof (digits2_upper p) as Du.
  set (d := Zpos (digits2_pos p)) in *.
  replace (d + k - 1) with ((d - 1) + k) by lia.
  rewrite !pow2_split by lia. split; nia.
Qed.

(** Rounding a mantissa that denotes an integer below 2^53 and is at
    least as long as its Number. *)
Lemma round_aux_exact M E n :
  0 < n < 2 ^ 53 -> E <= Zdigits2 n - 53 -> Zpos M = n * 2 ^ (- E) ->
  binary_round_aux 53 1024 false (Zpos M) E loc_Exact = Z2N n.
Proof.
  intros Hn HE HM.
  destruct (Z2N_pos_shape n Hn) as (m & e & -> & He & Hm & Hmn & Hdm & Hdn).
  assert (HE0 : E <= 0) by lia.
  unfold binary_round_aux.
  destruct (shr_fexp_exact (Zpos M) E ltac:(lia)) as (rec1 & e1 & Heq1 & He1 & Hm1 & Hx1).
  rewrite Heq1.
  destruct (round_nearest_even_bounds rec1) as [_ Hr2].
  set (m2 := round_nearest_even (shr_m rec1) (loc_of_shr_record rec1)) in *.
  rewrite fexp_eq in He1. rewrite HM, Zdigits2_scaled in He1 by lia.
  assert (Ee1 : e1 = e) by lia. clear He1. subst e1.
  pose proof (pow2_gt0 (- e) ltac:(lia)) as Pe.
  pose proof (pow2_gt0 (e - E) ltac:(lia)) as PeE.
  assert (Hsplit : Zpos M = Zpos m * 2 ^ (e - E)).
  { rewrite HM, Hmn, <- Z.mul_assoc, <- pow2_split by lia. f_equal. f_equal. lia. }
  assert (Hshr : shr_m rec1 = Zpos m).
  { rewrite Hm1, Hsplit. apply Z.div_mul. lia. }
  assert (Hmod : Zpos M mod 2 ^ (e - E) = 0).
  { rewrite Hsplit. apply Z.mod_mul. lia. }
  assert (Hm2 : m2 = Zpos m) by (rewrite (Hr2 (Hx1 Hmod)); exact Hshr).
  rewrite Hm2.
  destruct (shr_fexp_exact (Zpos m) e ltac:(lia)) as (rec2 & e2 & Heq2 & He2 & Hm3 & _).
  rewrite Heq2. rewrite fexp_eq, Hdm in He2.
  assert (Ee2 : e2 = e) by lia. clear He2. subst e2.
  replace (e - e) with 0 in Hm3 by lia. change (2 ^ 0) with 1 in Hm3.
  rewrite Z.div_1_r in Hm3. rewrite Hm3.
  replace (e <=? 1024 - 53) with true by (symmetry; apply Z.leb_le; lia).
  reflexivity.
Qed.

Lemma binary_round_exact D E n :
  0 < n < 2 ^ 53 -> E <= 0 -> Zpos D = n * 2 ^ (- E) ->
  binary_round 53 1024 false D E = Z2N n.
Proof.
  intros Hn HE HD. unfold binary_round.
  pose proof (shl_align_spec D E (fexp 53 1024 (Zpos (digits2_pos D) + E))) as Hs.
  destruct (shl_align D E _) as [mz ez]. destruct Hs as [Hez Hmz].
  assert (Hdig : Zpos (digits2_pos D) = Zdigits2 n - E).
  { change (Zpos (digits2_pos D)) with (Zdigits2 (Zpos D)).
    rewrite HD, Zdigits2_scaled by lia. lia. }
  rewrite Hdig, fexp_eq in Hez.
  assert (Hdn : 1 <= Zdigits2 n <= 53).
  { destruct (Z2N_pos_shape n Hn) as (m & e & _ & He & _ & _ & _ & Hd). lia. }
  apply round_aux_exact; [assumption|lia|].
  rewrite Hmz, HD, <- Z.mul_assoc, <- pow2_split by lia. f_equal. f_equal. lia.
Qed.

Lemma Nsub_int a b :
  0 < b <= a -> a < 2 ^ 53 -> Nsub (Z2N a) (Z2N b) = Z2N (a - b).
Proof.
  intros Hb Ha.
  destruct (Z2N_pos_shape a ltac:(lia)) as (ma & ea & -> & Hea & _ & Hma & _ & _).
  destruct (Z2N_pos_shape b ltac:(lia)) as (mb & eb & -> & Heb & _ & Hmb & _ & _).
  unfold Nsub, SFsub. cbn [cond_Zopp].
  pose proof (shl_align_spec ma ea (Z.min ea eb)) as Hsa.
  pose proof (shl_align_spec mb eb (Z.min ea eb)) as Hsb.
  destruct (shl_align ma ea (Z.min ea eb)) as [ma' ea'].
  destruct (shl_align mb eb (Z.min ea eb)) as [mb' eb'].
  destruct Hsa as [Hea' Hma']. destruct Hsb as [Heb' Hmb']. cbn [fst].
  set (ez := Z.min ea eb) in *.
  assert (Ea : ea' = ez) by lia. assert (Eb : eb' = ez) by lia. subst ea' eb'.
  assert (Va : Zpos ma' = a * 2 ^ (- ez)).
  { rewrite Hma', Hma, <- Z.mul_assoc, <- pow2_split by lia. f_equal. f_equal. lia. }
  assert (Vb : Zpos mb' = b * 2 ^ (- ez)).
  { rewrite Hmb', Hmb, <- Z.mul_assoc, <- pow2_split by lia. f_equal. f_equal. lia. }
  pose proof (pow2_gt0 (- ez) ltac:(lia)) as Pz.
  assert (Vd : Zpos ma' - Zpos mb' = (a - b) * 2 ^ (- ez)) by (rewrite Va, Vb; ring).
  destruct (Z.eq_dec a b) as [->|Hne].
  - replace (Zpos ma' - Zpos mb') with 0 by lia. replace (b - b) with 0 by lia. reflexivity.
  - destruct (Zpos ma' - Zpos mb') as [|D|D] eqn:ED; try nia.
    unfold binary_normalize. apply binary_round_exact; [lia|lia|exact Vd].
Qed.

Lemma Nmul_int a b :
  0 < a -> 0 < b -> a * b < 2 ^ 53 -> Nmul (Z2N a) (Z2N b) = Z2N (a * b).
Proof.
  intros Ha Hb Hab.
  assert (Ha53 : a < 2 ^ 53) by nia. assert (Hb53 : b < 2 ^ 53) by nia.
  destruct (Z2N_pos_shape a ltac:(lia)) as (ma & ea & -> & Hea & _ & Hma & _ & Hda).
  destruct (Z2N_pos_shape b ltac:(lia)) as (mb & eb & -> & Heb & _ & Hmb & _ & Hdb).
  unfold Nmul, SFmul. cbn [xorb].
  apply round_aux_exact; [nia| |].
  - pose proof (Zdigits2_lower a Ha) as La. pose proof (Zdigits2_lower b Hb) as Lb.
    assert (Hup : a * b < 2 ^ Zdigits2 (a * b)).
    { destruct (a * b) as [|q|q] eqn:Eq; try nia. apply digits2_upper. }
    pose proof (Zdigits2_nonneg (a * b)) as Nab.
    assert (Hlow : 2 ^ ((Zdigits2 a - 1) + (Zdigits2 b - 1)) <= a * b).
    { rewrite pow2_split by lia.
      pose proof (pow2_gt0 (Zdigits2 a - 1) ltac:(lia)).
      pose proof (pow2_gt0 (Zdigits2 b - 1) ltac:(lia)). nia. }
    assert (Hlt : 2 ^ ((Zdigits2 a - 1) + (Zdigits2 b - 1)) < 2 ^ Zdigits2 (a * b)) by lia.
    apply pow2_lt_inv in Hlt; lia.
  - rewrite Pos2Z.inj_mul, Hma, Hmb.
    replace (- (ea + eb)) with (- ea + - eb) by lia. rewrite pow2_split by lia. ring.
Qed.

(** [(page - 1) * limit] for a page and a limit that are whole
    numbers. *)
Lemma skip_exact p l :
  1 <= p -> 1 <= l -> (p - 1) * l < 2 ^ 53 -> p < 2 ^ 53 -> l < 2 ^ 53 ->
  Nmul (Nsub (Z2N p) (Z2N 1)) (Z2N l) = Z2N ((p - 1) * l).
Proof.
  intros Hp Hl Hpl Hp53 Hl53.
  rewrite Nsub_int by lia.
  destruct (Z.eq_dec p 1) as [->|Hne].
  - destruct (Z2N_pos_shape l ltac:(lia)) as (m & e & -> & _). reflexivity.
  - apply Nmul_int; lia.
Qed.

Lemma Number_toZ_Z2N n : 0 <= n < 2 ^ 53 -> Number_toZ (Z2N n) = Some n.
Proof.
  intros Hn. destruct (Z.eq_dec n 0) as [->|Hne]; [reflexivity|].
  destruct (Z2N_pos_shape n ltac:(lia)) as (m & e & -> & He & _ & Hm & _ & _).
  unfold Number_toZ. pose proof (pow2_gt0 (- e) ltac:(lia)) as Pe.
  destruct (Z.leb_spec 0 e) as [Hge|Hlt].
  - assert (e = 0) by lia. subst e. change (2 ^ (- 0)) with 1 in Hm.
    cbn [cond_Zopp]. change (2 ^ 0) with 1. f_equal. lia.
  - rewrite Hm, Z.mod_mul by lia. cbn [Z.eqb cond_Zopp].
    rewrite Z.div_mul by lia. reflexivity.
Qed.

Lemma safe_count_Z2N n : 0 <= n < 2 ^ 53 -> safe_count (Z2N n) = Some (Z.to_nat n).
Proof.
  intros Hn. unfold safe_count. rewrite Number_toZ_Z2N by assumption.
  replace (0 <=? n) with true by (symmetry; apply Z.leb_le; lia).
  replace (n <? 2 ^ 53) with true by (symmetry; apply Z.ltb_lt; lia).
  reflexivity.
Qed.
(** * The scorer: monotonicity and the edges of completeness *)

(** The base of an AI result that carries a whole number as its score. *)
Lemma base_of_integer_score `{Builtins} aiResult s w :
  Z.abs s < 2 ^ 53 ->
  get aiResult "transparencyScore" = VNum (Z2N s) ->
  base aiResult w = (Ok (Z2N (Z.max 0 (Z.min 100 s))), w).
Proof.
  intros Hs Hg. unfold base, bind, of_result, baseFromAI. rewrite Hg. cbn [nullish ToNumber].
  destruct (Z2N_val s Hs) as (Hf & _). rewrite Hf, Math_round_Z2N by assumption.
  fold (clamp (Z2N s)). rewrite clamp_Z2N by assumption. reflexivity.
Qed.

Lemma completenessRatio_same_questions ai1 ai2 answersObj :
  get ai1 "questions" = get ai2 "questions" ->
  get ai1 "expectedQuestions" = get ai2 "expectedQuestions" ->
  completenessRatio ai1 answersObj = completenessRatio ai2 answersObj.
Proof.
  intros E1 E2. unfold completenessRatio, questionCount, aiQuestionsCount.
  rewrite E1, E2. reflexivity.
Qed.

Lemma combineZ_mono b1 b2 p c q bonus :
  b1 <= b2 -> combineZ b1 p c q bonus <= combineZ b2 p c q bonus.
Proof.
  intros Hb. unfold combineZ.
  assert (Hd : (6 * b1 + 4 * p + 5) / 10 <= (6 * b2 + 4 * p + 5) / 10)
    by (apply Z.div_le_mono; lia).
  destruct bonus; lia.
Qed.

(** X1: a higher AI score never gives a lower transparency score. For
    two AI results that carry whole numbers [s1 <= s2] as their
    [transparencyScore] and list the same questions, the scorer returns
    integers [k1 <= k2] of 0..100 on the same product and answers, and
    draws nothing. (The category of the product is one that
    [.toString()] prints.) *)
Theorem score_monotone_in_ai_score `{Builtins}
    (ai1 ai2 productObj answersObj : value) (s1 s2 : Z) (boost : number) (w : World) :
  Z.abs s1 < 2 ^ 53 -> Z.abs s2 < 2 ^ 53 ->
  get ai1 "transparencyScore" = VNum (Z2N s1) ->
  get ai2 "transparencyScore" = VNum (Z2N s2) ->
  get ai1 "questions" = get ai2 "questions" ->
  get ai1 "expectedQuestions" = get ai2 "expectedQuestions" ->
  wf_value ai1 -> wf_value answersObj ->
  categoryBoost productObj = Ok boost ->
  s1 <= s2 ->
  exists k1 k2,
    deriveTransparencyScore ai1 productObj answersObj w = (Ok (Z2N k1), w) /\
    deriveTransparencyScore ai2 productObj answersObj w = (Ok (Z2N k2), w) /\
    0 <= k1 <= k2 /\ k2 <= 100.
Proof.
  intros Hs1 Hs2 Hg1 Hg2 Eq1 Eq2 Hwf Hans Hcat Hle.
  rewrite (deriveTransparencyScore_by_parts ai1), (deriveTransparencyScore_by_parts ai2).
  unfold score_from_parts.
  rewrite (bind_ok _ _ _ _ _ (base_of_integer_score ai1 s1 w Hs1 Hg1)).
  rewrite (bind_ok _ _ _ _ _ (base_of_integer_score ai2 s2 w Hs2 Hg2)).
  rewrite <- (completenessRatio_same_questions ai1 ai2 answersObj Eq1 Eq2).
  pose proof (completenessRatio_below ai1 answersObj Hwf Hans) as Hr.
  set (ratio := completenessRatio ai1 answersObj) in *.
  unfold bind, of_result, ret. rewrite Hcat.
  destruct (categoryBoost_range productObj boost Hcat) as (c & Hc & ->).
  set (b1 := Z.max 0 (Z.min 100 s1)). set (b2 := Z.max 0 (Z.min 100 s2)).
  destruct (combine_exact b1 ratio c ltac:(lia) Hr Hc)
    as (p & q & Hp & Hq & Ep & Eq & -> & _).
  destruct (combine_exact b2 ratio c ltac:(lia) Hr Hc)
    as (p' & q' & Hp' & Hq' & Ep' & Eq' & -> & _).
  assert (p' = p)
    by (apply Z2N_inj; try (change (2 ^ 53) with 9007199254740992; lia); congruence).
  assert (q' = q)
    by (apply Z2N_inj; try (change (2 ^ 53) with 9007199254740992; lia); congruence).
  subst p' q'.
  exists (combineZ b1 p c q (Nge ratio lit_0_5)), (combineZ b2 p c q (Nge ratio lit_0_5)).
  split; [reflexivity|]. split; [reflexivity|].
  pose proof (combineZ_mono b1 b2 p c q (Nge ratio lit_0_5) ltac:(lia)) as Hm.
  unfold combineZ in *. destruct (Nge ratio lit_0_5); lia.
Qed.

Lemma score_monotone_in_ai_score_witness :
  exists k1 k2,
    deriveTransparencyScore (obj [("transparencyScore"%string, VNum (Z2N 50))]) skincare answers2 world0
    = (Ok (Z2N k1), world0) /\
    deriveTransparencyScore ai70 skincare answers2 world0 = (Ok (Z2N k2), world0) /\
    0 <= k1 <= k2 /\ k2 <= 100.
Proof.
  apply (score_monotone_in_ai_score
           (obj [("transparencyScore"%string, VNum (Z2N 50))]) ai70 skincare answers2 50 70
           (Z2N 5) world0).
  - simpl; lia.
  - simpl; lia.
  - reflexivity.
  - reflexivity.
  - reflexivity.
  - reflexivity.
  - apply wf_obj_list; [|simpl; lia]. repeat constructor.
  - exact wf_answers2.
  - reflexivity.
  - lia.
Defined.

(** The ratio when the AI result lists no questions and the answers are
    a non-empty object: the answers are counted against themselves. *)
Lemma completenessRatio_without_question_list aiResult (o : gmap string value) :
  Array_isArray (get aiResult "questions") = false ->
  Array_isArray (get aiResult "expectedQuestions") = false ->
  wf_value (VObj o) -> o <> ∅ ->
  completenessRatio aiResult (VObj o) = Z2N 1.
Proof.
  intros E1 E2 Hwf Hne.
  unfold completenessRatio, questionCount, aiQuestionsCount, providedAnswersCount.
  rewrite E1, E2. cbn [truthy typeof_object andb Object_keys_length].
  inversion Hwf as [| | | | | |o' _ Hsz]; subst.
  assert (Hn : 1 <= Z.of_nat (size o)).
  { destruct (size o) eqn:Es; [|lia]. apply map_size_empty_iff in Es. contradiction. }
  set (n := Z.of_nat (size o)) in *.
  assert (Hn53 : Z.abs n < 2 ^ 53).
  { assert (2 ^ 32 < 2 ^ 53) by (apply Z.pow_lt_mono_r; lia). lia. }
  assert (Hmax : Math_max (Z2N 1) (Z2N n) = Z2N n).
  { unfold Math_max. rewrite Ncompare_Z2N by (simpl; lia || assumption).
    destruct (Z.compare_spec 1 n) as [<-|Hlt|Hgt]; try reflexivity. lia. }
  rewrite Hmax.
  assert (Hgt : Ngt (Z2N n) (Z2N 0) = true).
  { unfold Ngt. rewrite Ncompare_Z2N by (simpl; lia || assumption).
    replace (n ?= 0) with Gt by (symmetry; apply Z.compare_gt_iff; lia). reflexivity. }
  rewrite Hgt, Ndiv_same by lia. reflexivity.
Qed.

Lemma combine_complete b c :
  0 <= b <= 100 -> 0 <= c <= 5 ->
  combine (Z2N b) (Z2N 1) (Z2N c) = Z2N (Z.min 100 ((6 * b + 405) / 10 + c)).
Proof.
  intros Hb Hc. apply number_eqb_eq.
  assert (Hall : forallb (fun b => forallb (fun c =>
            number_eqb (combine (Z2N b) (Z2N 1) (Z2N c))
                       (Z2N (Z.min 100 ((6 * b + 405) / 10 + c))))
            (Zrange 0 6)) (Zrange 0 101) = true) by (vm_compute; reflexivity).
  pose proof (forallb_Zrange _ _ _ Hall b ltac:(lia)) as Hb'. cbv beta in Hb'.
  exact (forallb_Zrange _ _ _ Hb' c ltac:(lia)).
Qed.

(** X2: when the AI result lists no questions (neither [questions] nor
    [expectedQuestions] is an array), any non-empty answers object counts
    as complete: the ratio is 1, and the score is
    [min(100, round(base * 0.6 + 40) + boost)], that is
    [min 100 ((6 * b + 405) / 10 + c)] for the base [b] and the category
    boost [c]. (The AI score is one that [Number] converts and the
    category one that [.toString()] prints.) *)
Theorem score_without_question_list `{Builtins}
    (aiResult productObj : value) (o : gmap string value) (w : World) (n boost : number) :
  wf_value aiResult -> wf_value (VObj o) -> random_ok w ->
  baseFromAI aiResult = Ok n -> categoryBoost productObj = Ok boost ->
  Array_isArray (get aiResult "questions") = false ->
  Array_isArray (get aiResult "expectedQuestions") = false ->
  o <> ∅ ->
  completenessRatio aiResult (VObj o) = Z2N 1 /\
  exists b c w',
    base aiResult w = (Ok (Z2N b), w') /\ 0 <= b <= 100 /\
    boost = Z2N c /\ 0 <= c <= 5 /\
    deriveTransparencyScore aiResult productObj (VObj o) w
    = (Ok (Z2N (Z.min 100 ((6 * b + 405) / 10 + c))), w').
Proof.
  intros Ha Hwf Hr Hn Hcat E1 E2 Hne.
  pose proof (completenessRatio_without_question_list aiResult o E1 E2 Hwf Hne) as Hratio.
  split; [exact Hratio|].
  destruct (base_range aiResult n w Ha Hr Hn) as (b & w' & Hbase & Hb & _).
  destruct (categoryBoost_range productObj boost Hcat) as (c & Hc & Hboost).
  exists b, c, w'. repeat (split; [assumption || lia|]).
  rewrite deriveTransparencyScore_by_parts. unfold score_from_parts.
  rewrite (bind_ok _ _ _ _ _ Hbase). unfold bind, of_result, ret.
  rewrite Hcat, Hratio, Hboost, combine_complete by assumption.
  reflexivity.
Qed.

Lemma score_without_question_list_witness :
  completenessRatio ai70 answers2 = Z2N 1 /\
  exists b c w',
    base ai70 world0 = (Ok (Z2N b), w') /\ 0 <= b <= 100 /\
    Z2N 5 = Z2N c /\ 0 <= c <= 5 /\
    deriveTransparencyScore ai70 skincare answers2 world0
    = (Ok (Z2N (Z.min 100 ((6 * b + 405) / 10 + c))), w').
Proof.
  apply (score_without_question_list ai70 skincare
           (list_to_map [("q1"%string, VStr "yes"); ("q2"%string, VStr EmptyString)]) world0
           (Z2N 70) (Z2N 5)).
  - exact wf_ai70.
  - exact wf_answers2.
  - exact random_ok_world0.
  - reflexivity.
  - reflexivity.
  - reflexivity.
  - reflexivity.
  - intros E. apply (f_equal (fun m : gmap string value => m !! "q1"%string)) in E.
    vm_compute in E. discriminate E.
Defined.

Lemma combine_no_answers b boost :
  0 <= b <= 100 ->
  combine (Z2N b) (Z2N 0) boost = Z2N (Z.max 0 ((6 * b + 5) / 10 - 5)).
Proof.
  intros Hb.
  assert (E : combine (Z2N b) (Z2N 0) boost = combine (Z2N b) (Z2N 0) (Z2N 0)).
  { unfold combine.
    replace (Nge (Z2N 0) lit_0_5) with false by (vm_compute; reflexivity). reflexivity. }
  rewrite E. apply number_eqb_eq.
  assert (Hall : forallb (fun b =>
            number_eqb (combine (Z2N b) (Z2N 0) (Z2N 0)) (Z2N (Z.max 0 ((6 * b + 5) / 10 - 5))))
            (Zrange 0 101) = true) by (vm_compute; reflexivity).
  exact (forallb_Zrange _ _ _ Hall b ltac:(lia)).
Qed.

(** X3: without answers (an empty object, or anything that is no object
    at all) the completeness ratio is 0, whatever questions the AI result
    lists; the score is then [max(0, round(base * 0.6) - 5)]: the
    full penalty is taken off, and the boost of the category plays no
    part. (The AI score is one that [Number] converts and the category
    one that [.toString()] prints.) *)
Theorem score_without_answers `{Builtins}
    (aiResult productObj answersObj : value) (w : World) (n boost : number) :
  wf_value aiResult -> random_ok w ->
  baseFromAI aiResult = Ok n -> categoryBoost productObj = Ok boost ->
  providedAnswersCount answersObj = Z2N 0 ->
  completenessRatio aiResult answersObj = Z2N 0 /\
  exists b w',
    base aiResult w = (Ok (Z2N b), w') /\ 0 <= b <= 100 /\
    deriveTransparencyScore aiResult productObj answersObj w
    = (Ok (Z2N (Z.max 0 ((6 * b + 5) / 10 - 5))), w').
Proof.
  intros Ha Hr Hn Hcat Hnone.
  assert (Hratio : completenessRatio aiResult answersObj = Z2N 0).
  { unfold completenessRatio. rewrite Hnone.
    assert (Hq : nonneg_finite (questionCount aiResult answersObj)).
    { unfold questionCount, aiQuestionsCount. rewrite Hnone.
      destruct (Array_isArray (get aiResult "questions")) eqn:E1.
      - apply Array_length_nonneg; [apply wf_get|]; assumption.
      - destruct (Array_isArray (get aiResult "expectedQuestions")) eqn:E2.
        + apply Array_length_nonneg; [apply wf_get|]; assumption.
        + exact I. }
    destruct (questionCount aiResult answersObj) as [[|]|[|]| |[|] m e];
      try contradiction; [reflexivity|].
    destruct (Ngt _ _); reflexivity. }
  split; [exact Hratio|].
  destruct (base_range aiResult n w Ha Hr Hn) as (b & w' & Hbase & Hb & _).
  exists b, w'. repeat (split; [assumption || lia|]).
  rewrite deriveTransparencyScore_by_parts. unfold score_from_parts.
  rewrite (bind_ok _ _ _ _ _ Hbase). unfold bind, of_result, ret.
  rewrite Hcat, Hratio, combine_no_answers by assumption.
  reflexivity.
Qed.

Lemma score_without_answers_witness :
  completenessRatio ai50 (obj []) = Z2N 0 /\
  exists b w',
    base ai50 world0 = (Ok (Z2N b), w') /\ 0 <= b <= 100 /\
    deriveTransparencyScore ai50 skincare (obj []) world0
    = (Ok (Z2N (Z.max 0 ((6 * b + 5) / 10 - 5))), w').
Proof.
  apply (score_without_answers ai50 skincare (obj []) world0 (Z2N 50) (Z2N 5)).
  - exact wf_ai50.
  - exact random_ok_world0.
  - reflexivity.
  - reflexivity.
  - reflexivity.
Defined.

(** X4: the category boost of every product the Product schema admits:
    5 for Skincare, 4 for Food & Beverage, 3 for Personal Care and for
    Cleaning Products, 2 for Clothing, 1 for Electronics, and nothing for
    Other. *)
Theorem categoryBoost_of_schema_category `{Builtins} (p : Product) :
  In (p_category p) schema_categories ->
  categoryBoost (Product_toObject p) = Ok (Z2N (boost_of_category (p_category p))).
Proof.
  intros Hin.
  assert (Hcat : get (Product_toObject p) "category" = VStr (p_category p)) by reflexivity.
  unfold categoryBoost, category. rewrite Hcat.
  unfold schema_categories in Hin. cbn [In] in Hin.
  repeat (destruct Hin as [<-|Hin]; [vm_compute; reflexivity|]).
  contradiction.
Qed.

Lemma categoryBoost_of_schema_category_witness :
  categoryBoost (Product_toObject soap) = Ok (Z2N (boost_of_category (p_category soap))).
Proof.
  apply (categoryBoost_of_schema_category soap). left. reflexivity.
Defined.

(** An induction principle for values: an array as soon as its
    elements. *)
Lemma value_ind_elements (P : value -> Prop) :
  P VUndefined -> P VNull -> (forall b, P (VBool b)) -> (forall x, P (VNum x)) ->
  (forall s, P (VStr s)) -> (forall l, Forall P l -> P (VArr l)) ->
  (forall o, P (VObj o)) -> forall v, P v.
Proof.
  intros Hu Hn Hb Hx Hs Ha Ho. fix IH 1.
  intros [| |b|x|s|l|o];
    [exact Hu|exact Hn|apply Hb|apply Hx|apply Hs| |apply Ho].
  apply Ha.
  exact ((fix go (l : list value) : Forall P l :=
            match l with
            | [] => @List.Forall_nil value P
            | v :: l' => @List.Forall_cons value P v l' (IH v) (go l')
            end) l).
Qed.

Lemma join_with_cons print sep e l :
  join_with print sep (e :: l)
  = match match e with
          | VUndefined | VNull => Ok EmptyString
          | _ => print e
          end with
    | Throw x => Throw x
    | Ok se =>
        match l with
        | [] => Ok se
        | _ => match join_with print sep l with
               | Ok rest => Ok (se ++ sep ++ rest)%string
               | Throw x => Throw x
               end
        end
    end.
Proof. reflexivity. Qed.

Lemma join_with_throws print sep l e :
  Forall (fun v => forall e, print v = Throw e -> e = TypeError) l ->
  join_with print sep l = Throw e -> e = TypeError.
Proof.
  intros Hall. induction Hall as [|v l Hv _ IHl]; [discriminate|].
  rewrite join_with_cons.
  assert (Helt : forall x, match v with
                           | VUndefined | VNull => Ok EmptyString
                           | _ => print v
                           end = Throw x -> x = TypeError)
    by (intros x; destruct v; try discriminate; apply Hv).
  destruct (match v with VUndefined | VNull => _ | _ => _ end) as [se|x];
    [|intros E; inversion E; subst; apply Helt; reflexivity].
  destruct l as [|v' l']; [discriminate|].
  destruct (join_with print sep (v' :: l')) as [rest|x]; [discriminate|].
  intros E. inversion E; subst. apply IHl. reflexivity.
Qed.

(** The conversions throw nothing but a TypeError. *)
Lemma ToString_throws `{Builtins} v e : ToString v = Throw e -> e = TypeError.
Proof.
  revert e. induction v as [| |b|x|s|l IH|o] using value_ind_elements; intros e;
    try (destruct b); simpl; try discriminate.
  - apply join_with_throws. exact IH.
  - destruct (has_own o "toString"); [intros E; inversion E; reflexivity|discriminate].
Qed.

Lemma ToNumber_throws `{Builtins} v e : ToNumber v = Throw e -> e = TypeError.
Proof.
  destruct v as [| |[|]|x|s|l|o]; simpl; try discriminate.
  - destruct (join_with ToString "," l) as [t|e'] eqn:E; [discriminate|].
    intros E'. inversion E'; subst. apply (ToString_throws (VArr l)). exact E.
  - destruct (has_own o "toString"); [intros E; inversion E; reflexivity|discriminate].
Qed.

(** X28: on well-formed JSON the scorer either returns the Number of an
    integer between 0 and 100, or throws a TypeError; it throws exactly
    when one of its two conversions does, [Number(...)] of the AI score
    or [.toString()] of the category, that is when the value to convert
    is, or as an array holds, an object with a [toString] key of its
    own. *)
Theorem scorer_returns_in_range_or_throws `{Builtins}
    (aiResult productObj answersObj : value) (w : World) :
  wf_value aiResult -> wf_value answersObj -> random_ok w ->
  (exists k w' n c,
     deriveTransparencyScore aiResult productObj answersObj w = (Ok (Z2N k), w')
     /\ 0 <= k <= 100
     /\ baseFromAI aiResult = Ok n /\ categoryBoost productObj = Ok c)
  \/
  (exists w',
     deriveTransparencyScore aiResult productObj answersObj w = (Throw TypeError, w')
     /\ (baseFromAI aiResult = Throw TypeError \/ categoryBoost productObj = Throw TypeError)).
Proof.
  intros Ha Hb Hr. rewrite deriveTransparencyScore_by_parts.
  unfold score_from_parts, bind, of_result.
  destruct (baseFromAI aiResult) as [n|e] eqn:Hn.
  - destruct (base_range aiResult n w Ha Hr Hn) as (b & w' & -> & Hb100 & _).
    destruct (categoryBoost productObj) as [c|e] eqn:Hcat.
    + left. destruct (categoryBoost_range productObj c Hcat) as (cz & Hc & ->).
      destruct (combine_exact b (completenessRatio aiResult answersObj) cz Hb100
                  (completenessRatio_below _ _ Ha Hb) Hc)
        as (p & q & Hp & Hq & _ & _ & Hcomb & _).
      exists (combineZ b p cz q (Nge (completenessRatio aiResult answersObj) lit_0_5)), w',
        n, (Z2N cz).
      unfold ret. rewrite Hcomb. split; [reflexivity|].
      split; [unfold combineZ; lia|]. split; reflexivity.
    + right. exists w'.
      assert (e = TypeError).
      { unfold categoryBoost, category in Hcat.
        destruct (ToString _) as [t|e'] eqn:Et; [discriminate|].
        inversion Hcat; subst. apply (ToString_throws _ _ Et). }
      subst e. split; [reflexivity|right; reflexivity].
  - right. exists w. rewrite (base_throws _ _ _ Hn).
    assert (e = TypeError) by (apply (ToNumber_throws _ _ Hn)).
    subst e. split; [reflexivity|left; reflexivity].
Qed.

Lemma scorer_returns_in_range_or_throws_witness :
  (exists k w' n c,
     deriveTransparencyScore ai_unprintable skincare answers1 world0 = (Ok (Z2N k), w')
     /\ 0 <= k <= 100
     /\ baseFromAI ai_unprintable = Ok n /\ categoryBoost skincare = Ok c)
  \/
  (exists w',
     deriveTransparencyScore ai_unprintable skincare answers1 world0 = (Throw TypeError, w')
     /\ (baseFromAI ai_unprintable = Throw TypeError
         \/ categoryBoost skincare = Throw TypeError)).
Proof.
  apply (scorer_returns_in_range_or_throws ai_unprintable skincare answers1 world0).
  - exact wf_ai_unprintable.
  - exact wf_answers1.
  - exact random_ok_world0.
Defined.
(** * The Report model: virtuals and the pre-save hook *)

Lemma Nge_int x k e0 :
  Number_isFinite x = true -> Z.abs k < 2 ^ 53 -> e0 <= Fexp x -> e0 <= -52 ->
  Nge x (Z2N k) = (k * 2 ^ (- e0) <=? scaled e0 x).
Proof.
  intros Hx Hk He He0. unfold Nge. rewrite (Ncompare_int x k e0) by assumption.
  destruct (Z.compare_spec (scaled e0 x) (k * 2 ^ (- e0)));
    symmetry; [apply Z.leb_le|apply Z.leb_gt|apply Z.leb_le]; lia.
Qed.

Lemma Nlt_int x k e0 :
  Number_isFinite x = true -> Z.abs k < 2 ^ 53 -> e0 <= Fexp x -> e0 <= -52 ->
  Nlt x (Z2N k) = (scaled e0 x <? k * 2 ^ (- e0)).
Proof.
  intros Hx Hk He He0. unfold Nlt. rewrite (Ncompare_int x k e0) by assumption.
  destruct (Z.compare_spec (scaled e0 x) (k * 2 ^ (- e0)));
    symmetry; [apply Z.ltb_ge|apply Z.ltb_lt|apply Z.ltb_ge]; lia.
Qed.

(** X5: the bands of [scoreCategory] and the buckets of the score
    histogram agree on every number: the bucket [60,80) holds the Good
    reports and no others, [40,60) the Fair ones, [80,100) only Excellent
    ones, [0,20) and [20,40) only those that need improvement. The
    default bucket mixes both ends: an Excellent score of 100 or more,
    and what is below 0 or no number. *)
Theorem scoreCategory_matches_histogram (r : Report) :
  scoreCategory r =
  match bucket_of [0; 20; 40; 60; 80; 100] (transparencyScore r) with
  | BLower 80 => "Excellent"
  | BLower 60 => "Good"
  | BLower 40 => "Fair"
  | BLower _ => "Needs Improvement"
  | BOther => if Nge (transparencyScore r) (Z2N 100)
              then "Excellent"
              else "Needs Improvement"
  end%string.
Proof.
  unfold scoreCategory. set (x := transparencyScore r). clearbody x. clear r.
  destruct x as [s|s| |s m e]; try (destruct s; vm_compute; reflexivity);
    [vm_compute; reflexivity|].
  set (x := S754_finite s m e).
  set (e0 := Z.min e (-52)).
  assert (Hf : Number_isFinite x = true) by reflexivity.
  assert (He : e0 <= Fexp x) by (simpl; lia).
  assert (He0 : e0 <= -52) by lia.
  pose proof (pow2_gt0 (- e0) ltac:(lia)) as HP.
  cbn [bucket_of].
  rewrite !(Nge_int x _ e0), !(Nlt_int x _ e0) by (assumption || (simpl; lia)).
  set (X := scaled e0 x). set (P := 2 ^ (- e0)) in *.
  repeat match goal with
         | |- context [?a <=? ?b] => destruct (Z.leb_spec a b)
         | |- context [?a <? ?b] => destruct (Z.ltb_spec a b)
         end; cbn [andb]; try reflexivity; exfalso; lia.
Qed.

Lemma filter_all {A} (f : A -> bool) l :
  Forall (fun v => f v = true) l -> List.filter f l = l.
Proof.
  induction 1 as [|v l Hv _ IH]; [reflexivity|]. simpl. rewrite Hv, IH. reflexivity.
Qed.

Lemma filter_none {A} (f : A -> bool) l :
  Forall (fun v => f v = false) l -> List.filter f l = [].
Proof.
  induction 1 as [|v l Hv _ IH]; [reflexivity|]. simpl. rewrite Hv, IH. reflexivity.
Qed.

Lemma filter_length_le {A} (f : A -> bool) l : (length (List.filter f l) <= length l)%nat.
Proof. induction l as [|v l IH]; simpl; [lia|]. destruct (f v); simpl; lia. Qed.

(** X6: [completionPercentage] is a whole number of 0..100 whenever the
    answers have properties to count (they are not null or undefined):
    0 when there is no field or no field is filled, 100 when every field
    is filled. *)
Theorem completionPercentage_range (r : Report) (values : list value) :
  Object_values (answers r) = Ok values ->
  Z.of_nat (length values) < 2 ^ 32 ->
  exists k,
    completionPercentage r = Ok (Z2N k) /\ 0 <= k <= 100 /\
    (Forall (fun v => filled v = false) values -> k = 0) /\
    (Forall (fun v => filled v = true) values -> values <> [] -> k = 100).
Proof.
  intros Hvals Hlen. unfold completionPercentage. rewrite Hvals.
  pose proof (filter_length_le filled values) as Hle.
  set (t := Z.of_nat (length values)) in *.
  remember (Z.of_nat (length (List.filter filled values))) as c eqn:Ec.
  assert (Hc : 0 <= c <= t) by (subst c; unfold t; lia).
  assert (H32 : 2 ^ 32 < 2 ^ 53) by (apply Z.pow_lt_mono_r; lia).
  destruct (Z.eq_dec t 0) as [Ht0|Ht0].
  { exists 0. rewrite Ht0. split; [reflexivity|]. split; [lia|]. split; [reflexivity|].
    intros _ Hne. destruct values; [contradiction|]. unfold t in Ht0. simpl in Ht0. lia. }
  assert (Hgt : Ngt (Z2N t) (Z2N 0) = true).
  { unfold Ngt. rewrite Ncompare_Z2N by (simpl; lia).
    replace (t ?= 0) with Gt by (symmetry; apply Z.compare_gt_iff; lia). reflexivity. }
  rewrite Hgt.
  destruct (Z.eq_dec c t) as [Hct|Hct].
  { exists 100. rewrite Hct, Ndiv_same by lia.
    split; [vm_compute; reflexivity|]. split; [lia|]. split; [|reflexivity].
    intros Hnone. rewrite (filter_none _ _ Hnone) in Ec. simpl in Ec. lia. }
  destruct (Z.eq_dec c 0) as [Hc0|Hc0].
  { exists 0. rewrite Hc0.
    destruct (Z2N_pos_shape t ltac:(lia)) as (mt & et & -> & _).
    split; [reflexivity|]. split; [lia|]. split; [reflexivity|].
    intros Hall _. rewrite (filter_all _ _ Hall) in Ec. unfold t in *. lia. }
  destruct (percent_range (Ndiv (Z2N c) (Z2N t)) (Ndiv_le_one c t Hc ltac:(lia)))
    as (k & Hk & Ek).
  exists k. rewrite Ek. split; [reflexivity|]. split; [lia|]. split.
  - intros Hnone. rewrite (filter_none _ _ Hnone) in Ec. simpl in Ec. lia.
  - intros Hall _. rewrite (filter_all _ _ Hall) in Ec. unfold t in *. lia.
Qed.

Lemma completionPercentage_range_witness :
  exists k,
    completionPercentage (report_at 0 35 draft 1) = Ok (Z2N k) /\ 0 <= k <= 100 /\
    (Forall (fun v => filled v = false) [VStr "yes"] -> k = 0) /\
    (Forall (fun v => filled v = true) [VStr "yes"] -> [VStr "yes"] <> [] -> k = 100).
Proof.
  apply (completionPercentage_range (report_at 0 35 draft 1) [VStr "yes"]).
  - vm_compute. reflexivity.
  - simpl. lia.
Defined.

(** X7: the pre-save hook of the Report schema can never reject a
    document: what it refuses, a completed report with a negative score,
    has already failed the [min] validator of [transparencyScore]. *)
Theorem pre_save_hook_is_redundant (r : Report) :
  schema_valid r = true -> pre_save_ok r = true.
Proof.
  unfold schema_valid, pre_save_ok. intros Hv.
  apply andb_prop in Hv. destruct Hv as [Hv _].
  apply andb_prop in Hv. destruct Hv as [_ Hmin].
  unfold Nge in Hmin. unfold Nlt.
  destruct (Ncompare (transparencyScore r) (Z2N 0)) as [[| |]|]; try discriminate;
    rewrite andb_false_r; reflexivity.
Qed.

Lemma pre_save_hook_is_redundant_witness :
  pre_save_ok (report_at 0 35 draft 1) = true.
Proof.
  apply (pre_save_hook_is_redundant (report_at 0 35 draft 1)). vm_compute. reflexivity.
Defined.
(** * What the steps of a handler leave untouched *)

Lemma bind_inv {A B} (m : M A) (k : A -> M B) w r w' :
  bind m k w = (r, w') ->
  (exists a w1, m w = (Ok a, w1) /\ k a w1 = (r, w'))
  \/ (exists e, m w = (Throw e, w') /\ r = Throw e).
Proof.
  unfold bind. destruct (m w) as [[a|e] w1]; intros E.
  - left. eauto.
  - right. inversion E; subst. eauto.
Qed.

Lemma try_catch_inv {A} (m : M A) h w r w' :
  try_catch m h w = (r, w') ->
  (exists a, m w = (Ok a, w') /\ r = Ok a)
  \/ (exists e w1, m w = (Throw e, w1) /\ h e w1 = (r, w')).
Proof.
  unfold try_catch. destruct (m w) as [[a|e] w1]; intros E.
  - left. inversion E; subst. eauto.
  - right. eauto.
Qed.

Lemma same_stores_refl w : same_stores w w.
Proof. repeat split. Qed.

Lemma same_stores_trans w1 w2 w3 :
  same_stores w1 w2 -> same_stores w2 w3 -> same_stores w1 w3.
Proof.
  intros (A1 & A2 & A3 & A4 & A5) (B1 & B2 & B3 & B4 & B5).
  repeat split; congruence.
Qed.

Lemma reads_only_ret {A} (a : A) : reads_only (ret a).
Proof. intros w r w' E. inversion E; subst. apply same_stores_refl. Qed.

Lemma reads_only_throw {A} e : reads_only (@throw A e).
Proof. intros w r w' E. inversion E; subst. apply same_stores_refl. Qed.

Lemma reads_only_bind {A B} (m : M A) (k : A -> M B) :
  reads_only m -> (forall a, reads_only (k a)) -> reads_only (bind m k).
Proof.
  intros Hm Hk w r w' E. apply bind_inv in E.
  destruct E as [(a & w1 & E1 & E2)|(e & E1 & _)].
  - eapply same_stores_trans; [eapply Hm, E1|eapply Hk, E2].
  - eapply Hm, E1.
Qed.

Lemma reads_only_try_catch {A} (m : M A) h :
  reads_only m -> (forall e, reads_only (h e)) -> reads_only (try_catch m h).
Proof.
  intros Hm Hh w r w' E. apply try_catch_inv in E.
  destruct E as [(a & E1 & _)|(e & w1 & E1 & E2)].
  - eapply Hm, E1.
  - eapply same_stores_trans; [eapply Hm, E1|eapply Hh, E2].
Qed.

Lemma reads_only_of_result {A} (r : result A) : reads_only (of_result r).
Proof. intros w x w' E. inversion E; subst. apply same_stores_refl. Qed.

Lemma reads_only_emit e : reads_only (emit e).
Proof. intros w r w' E. inversion E; subst. repeat split. Qed.

Lemma reads_only_Math_random : reads_only Math_random.
Proof. intros w r w' E. inversion E; subst. repeat split. Qed.

Lemma reads_only_json code p : reads_only (json code p).
Proof. apply reads_only_ret. Qed.

Lemma reads_only_castObjectId s : reads_only (castObjectId s).
Proof.
  unfold castObjectId. destruct (hex24 s); [apply reads_only_ret|apply reads_only_throw].
Qed.

Lemma reads_only_Product_findById id : reads_only (Product_findById id).
Proof. intros w r w' E. inversion E; subst. apply same_stores_refl. Qed.

Lemma reads_only_Report_findById id : reads_only (Report_findById id).
Proof. intros w r w' E. inversion E; subst. apply same_stores_refl. Qed.

Lemma reads_only_populate r : reads_only (populate r).
Proof. intros w x w' E. inversion E; subst. apply same_stores_refl. Qed.

Lemma reads_only_member o k : reads_only (member o k).
Proof. destruct o; first [apply reads_only_ret|apply reads_only_throw]. Qed.

Lemma reads_only_lift {A} (r : result A) e : reads_only (lift r e).
Proof. destruct r; [apply reads_only_ret|apply reads_only_throw]. Qed.

Lemma reads_only_protect req : reads_only (protect req).
Proof.
  intros w r w' E. apply protect_keeps_world in E. subst. apply same_stores_refl.
Qed.

Section Frames.
Context `{Builtins}.

Lemma reads_only_axios product answers_ : reads_only (axios_post_analyze product answers_).
Proof.
  intros w r w' E. unfold axios_post_analyze in E.
  destruct (ai_service w _ _); inversion E; subst; repeat split.
Qed.

Lemma reads_only_fallback product : reads_only (fallback_analysis product).
Proof.
  unfold fallback_analysis. apply reads_only_bind; [apply reads_only_Math_random|].
  intros a. apply reads_only_ret.
Qed.

Lemma reads_only_base aiResult : reads_only (base aiResult).
Proof.
  unfold base. apply reads_only_bind; [apply reads_only_of_result|]. intros n.
  destruct (Number_isFinite n); [apply reads_only_ret|].
  apply reads_only_bind; [apply reads_only_Math_random|]. intros a. apply reads_only_ret.
Qed.

Lemma reads_only_scorer aiResult productObj answersObj :
  reads_only (deriveTransparencyScore aiResult productObj answersObj).
Proof.
  intros w r w' E. rewrite deriveTransparencyScore_by_parts in E. revert w r w' E.
  unfold score_from_parts. apply reads_only_bind; [apply reads_only_base|].
  intros a. apply reads_only_bind; [apply reads_only_of_result|].
  intros c. apply reads_only_ret.
Qed.

Lemma reads_only_assign_body report b : reads_only (assign_body report b).
Proof.
  unfold assign_body.
  apply reads_only_bind.
  { destruct (get b "summary"); first [apply reads_only_ret|apply reads_only_lift]. }
  intros s. apply reads_only_bind.
  { destruct (get b "transparencyScore"); first [apply reads_only_ret|apply reads_only_lift]. }
  intros x. apply reads_only_bind.
  { destruct (get b "status"); first [apply reads_only_ret|apply reads_only_lift]. }
  intros st. apply reads_only_ret.
Qed.

End Frames.

(** The three GET handlers write nothing and always answer. *)
Lemma get_stats_overview_run req w :
  exists res, get_stats_overview req w = (Ok res, w) /\ status_code res = 200.
Proof. unfold get_stats_overview, try_catch, json, ret. eexists. split; reflexivity. Qed.

Lemma get_report_run req w :
  exists res, get_report req w = (Ok res, w).
Proof.
  unfold get_report, try_catch, bind, castObjectId.
  destruct (hex24 (params_id req)) as [id|]; unfold ret, throw, json, ret; [|eauto].
  unfold Report_findById. destruct (reports w !! id) as [report|]; [|eauto].
  destruct (forbidden req report); unfold populate; eauto.
Qed.
(** * Authentication: [protect] in front of every route *)

Lemma protect_cases req w :
  (exists u t id h,
     protect req w = (Ok (inr u), w)
     /\ authorization req = Some h /\ String.prefix "Bearer" h = true
     /\ nth_error (split_space h) 1 = Some t /\ t <> EmptyString
     /\ jwt_verify w t = Some id /\ users w !! id = Some u /\ u_isActive u = true)
  \/ (exists denied, protect req w = (Ok (inl denied), w) /\ status_code denied = 401).
Proof.
  unfold protect.
  destruct (authorization req) as [h|] eqn:Hh;
    [|right; eexists; split; reflexivity].
  destruct (String.prefix "Bearer" h) eqn:Hpre;
    [|right; eexists; split; reflexivity].
  destruct (nth_error (split_space h) 1) as [[|c t]|] eqn:Ht;
    unfold ret; try (right; eexists; split; reflexivity).
  destruct (jwt_verify w (String c t)) as [id|] eqn:Hj;
    [|right; eexists; split; reflexivity].
  destruct (users w !! id) as [u|] eqn:Hu; [|right; eexists; split; reflexivity].
  destruct (u_isActive u) eqn:Ha; cbn [negb].
  - left. exists u, (String c t), id, h. repeat split; try assumption. discriminate.
  - right. eexists. split; reflexivity.
Qed.

(** X8: no handler runs for a request that [protect] turns down.
    Whatever the route, either the Authorization header of the request
    starts with [Bearer], the token after its first blank is not empty
    and verifies to the id of a stored, active user, who is the one
    handed to the handler, or the response is the 401 of [protect] and
    nothing has changed. *)
Theorem routes_require_an_active_user
    (handler : Request -> M Response) (req : Request) (w : World) :
  (exists u t id h,
     authorization req = Some h /\ String.prefix "Bearer" h = true /\
     nth_error (split_space h) 1 = Some t /\ t <> EmptyString /\
     jwt_verify w t = Some id /\ users w !! id = Some u /\ u_isActive u = true /\
     protect req w = (Ok (inr u), w) /\
     route handler req w
     = match handler (with_user u req) w with
       | (Ok res, w') => (res, w')
       | (Throw _, w') =>
           ({| status_code := 500;
               payload := PError "Cannot convert object to primitive value" |}, w')
       end)
  \/ (exists denied,
        protect req w = (Ok (inl denied), w) /\ status_code denied = 401 /\
        route handler req w = (denied, w)).
Proof.
  destruct (protect_cases req w)
    as [(u & t & id & h & Hp & Hh & Hpre & Ht & Hne & Hj & Hu & Ha)|(denied & Hp & Hd)].
  - left. exists u, t, id, h. repeat (split; [assumption|]).
    unfold route. rewrite Hp. reflexivity.
  - right. exists denied. repeat (split; [assumption|]).
    unfold route. rewrite Hp. reflexivity.
Qed.

Lemma split_go_word a rest acc :
  no_blank a = true ->
  split_go (a ++ String " " rest) acc
  = string_of_list_ascii (rev acc ++ list_ascii_of_string a) :: split_go rest [].
Proof.
  revert acc. induction a as [|c a IH]; intros acc Ha.
  - cbn [list_ascii_of_string]. rewrite app_nil_r. reflexivity.
  - unfold no_blank in Ha. cbn [list_ascii_of_string forallb] in Ha.
    apply andb_prop in Ha. destruct Ha as [Hc Ha].
    rewrite string_app_cons. cbn [split_go].
    destruct (Ascii.eqb c " "); [discriminate|].
    rewrite (IH (c :: acc) Ha). cbn [rev list_ascii_of_string].
    rewrite <- app_assoc. reflexivity.
Qed.

Lemma split_go_last a acc :
  no_blank a = true ->
  split_go a acc = [string_of_list_ascii (rev acc ++ list_ascii_of_string a)].
Proof.
  revert acc. induction a as [|c a IH]; intros acc Ha.
  - cbn [list_ascii_of_string split_go]. rewrite app_nil_r. reflexivity.
  - unfold no_blank in Ha. cbn [list_ascii_of_string forallb] in Ha.
    apply andb_prop in Ha. destruct Ha as [Hc Ha].
    cbn [split_go]. destruct (Ascii.eqb c " "); [discriminate|].
    rewrite (IH (c :: acc) Ha). cbn [rev list_ascii_of_string].
    rewrite <- app_assoc. reflexivity.
Qed.

Lemma no_blank_app a b : no_blank a = true -> no_blank b = true -> no_blank (a ++ b) = true.
Proof.
  unfold no_blank. intros Ha Hb. rewrite list_ascii_app, forallb_app, Ha, Hb. reflexivity.
Qed.

Lemma token_of_header x t :
  no_blank x = true -> no_blank t = true ->
  nth_error (split_space ("Bearer" ++ x ++ String " " t)) 1 = Some t.
Proof.
  intros Hx Ht. unfold split_space.
  rewrite <- string_app_assoc.
  rewrite split_go_word by (apply no_blank_app; [reflexivity|exact Hx]).
  rewrite split_go_last by exact Ht.
  cbn [nth_error rev app]. rewrite string_of_list_ascii_of_string. reflexivity.
Qed.

Lemma prefix_Bearer s : String.prefix "Bearer" ("Bearer" ++ s) = true.
Proof. destruct s; reflexivity. Qed.

(** X9: how [protect] reads the Authorization header. Without a header,
    or with one that does not start with [Bearer], the answer is 401
    "no token provided". The token is what stands between the first and
    the second blank: two blanks after [Bearer] give the empty token and
    the same 401, whatever follows. Only the start of the scheme is
    looked at: [BearerX tok] is treated as [Bearer tok]. *)
Theorem protect_reads_the_header (req : Request) (w : World) :
  let no_token := (Ok (inl {| status_code := 401;
                              payload := PError "Not authorized, no token provided" |}), w) in
  (authorization req = None -> protect req w = no_token)
  /\ (forall h, authorization req = Some h -> String.prefix "Bearer" h = false ->
                protect req w = no_token)
  /\ (forall rest, authorization req = Some ("Bearer  " ++ rest)%string ->
                   protect req w = no_token)
  /\ (forall x t req',
        no_blank x = true -> no_blank t = true ->
        authorization req = Some ("Bearer" ++ x ++ String " " t)%string ->
        authorization req' = Some ("Bearer " ++ t)%string ->
        protect req w = protect req' w).
Proof.
  cbv zeta. repeat split.
  - intros Hn. unfold protect. rewrite Hn. reflexivity.
  - intros h Hh Hp. unfold protect. rewrite Hh, Hp. reflexivity.
  - intros rest Hh. unfold protect. rewrite Hh.
    change ("Bearer  " ++ rest)%string with ("Bearer" ++ String " " (String " " rest))%string.
    rewrite prefix_Bearer.
    unfold split_space. rewrite split_go_word by reflexivity.
    cbn [split_go nth_error]. replace (Ascii.eqb " " " ") with true by reflexivity.
    reflexivity.
  - intros x t req' Hx Ht Hh Hh'. unfold protect. rewrite Hh, Hh'.
    change ("Bearer " ++ t)%string with ("Bearer" ++ EmptyString ++ String " " t)%string.
    rewrite !prefix_Bearer.
    rewrite (token_of_header x t), (token_of_header EmptyString t) by (assumption || reflexivity).
    reflexivity.
Qed.

(** X10: the GET routes write nothing: whatever the request, the world
    after the statistics, the list and the single-report route (and
    after GET /api/products/:id) is the world before. *)
Theorem get_routes_write_nothing `{Builtins} (req : Request) (w : World) :
  snd (route get_stats_overview req w) = w
  /\ snd (route get_reports req w) = w
  /\ snd (route get_report req w) = w
  /\ snd (get_product req w) = w.
Proof.
  assert (Hroute : forall handler,
             (forall r w0, exists res, handler r w0 = (Ok res, w0)) ->
             snd (route handler req w) = w).
  { intros handler Hh. unfold route.
    destruct (protect req w) as [[[denied|u]|e] w'] eqn:Hp;
      apply protect_keeps_world in Hp; subst w'; try reflexivity.
    destruct (Hh (with_user u req) w) as (res & ->). reflexivity. }
  repeat split.
  - apply Hroute. intros r w0. destruct (get_stats_overview_run r w0) as (res & E & _). eauto.
  - apply Hroute. intros r w0. destruct (get_reports_run r w0) as (res & E & _ & _). eauto.
  - apply Hroute. intros r w0. apply get_report_run.
  - unfold get_product, try_catch, bind, castObjectId.
    destruct (hex24 (params_id req)) as [id|]; unfold ret, throw; [|reflexivity].
    unfold Product_findById. destruct (products w !! id); reflexivity.
Qed.

(** * GET /api/reports: pages, order and filters *)

(** ** The numerals of the query *)

Lemma digit_in_10 c : digit_in 10 c = digit c.
Proof. destruct c as [[] [] [] [] [] [] [] []]; reflexivity. Qed.

Lemma digit_not_space c d : digit c = Some d -> is_space c = false.
Proof. destruct c as [[] [] [] [] [] [] [] []]; try discriminate; reflexivity. Qed.

Lemma digit_not_sign c d :
  digit c = Some d ->
  Ascii.eqb c "-" = false /\ Ascii.eqb c "+" = false
  /\ Ascii.eqb c "x" = false /\ Ascii.eqb c "X" = false.
Proof.
  destruct c as [[] [] [] [] [] [] [] []]; try discriminate; repeat split; reflexivity.
Qed.

Lemma digits_prefix_go s acc v :
  digits_go s acc = Some v -> digits_prefix 10 s (Some acc) = Some v.
Proof.
  revert acc. induction s as [|c s IH]; intros acc; cbn [digits_go digits_prefix].
  - intros E. exact E.
  - rewrite digit_in_10. destruct (digit c) as [d|]; [|discriminate].
    cbn [default]. apply IH.
Qed.

(** On a decimal numeral [parseInt] reads the number the numeral
    denotes. *)
Lemma parseInt_digits s v neg :
  parse_nat s = Some v ->
  match digits_prefix 10 s None with
  | None => NaN
  | Some n => if n =? 0 then S754_zero neg else Z2N (if neg then - n else n)
  end = if v =? 0 then S754_zero neg else Z2N (if neg then - v else v).
Proof.
  destruct s as [|c s]; [discriminate|].
  unfold parse_nat. cbn [digits_go digits_prefix]. rewrite digit_in_10.
  destruct (digit c) as [d|]; [|discriminate].
  cbn [default]. intros E. replace (10 * 0 + d) with (10 * 0 + d) in E by reflexivity.
  rewrite (digits_prefix_go s _ v E). reflexivity.
Qed.

Lemma parse_nat_head s v :
  parse_nat s = Some v -> exists c s' d, s = String c s' /\ digit c = Some d.
Proof.
  destruct s as [|c s]; [discriminate|].
  unfold parse_nat. cbn [digits_go]. destruct (digit c) as [d|] eqn:Ed; [|discriminate].
  intros _. exists c, s, d. split; [reflexivity|exact Ed].
Qed.

Lemma parse_nat_second s v c c' s' :
  parse_nat s = Some v -> s = String c (String c' s') -> exists d, digit c' = Some d.
Proof.
  intros E ->. unfold parse_nat in E. cbn [digits_go] in E.
  destruct (digit c); [|discriminate]. destruct (digit c') as [d|]; [eauto|discriminate].
Qed.

Lemma parseInt_unsigned s v neg :
  parse_nat s = Some v ->
  (let '(radix, s0) := match s with
                       | String "0" (String "x" s') | String "0" (String "X" s') => (16, s')
                       | _ => (10, s)
                       end in
   match digits_prefix radix s0 None with
   | None => NaN
   | Some n => if n =? 0 then S754_zero neg else Z2N (if neg then - n else n)
   end) = if v =? 0 then S754_zero neg else Z2N (if neg then - v else v).
Proof.
  intros E.
  assert (Hradix : match s with
                   | String "0" (String "x" s') | String "0" (String "X" s') => (16, s')
                   | _ => (10, s)
                   end = (10, s)).
  { destruct s as [|c [|c' s']]; [reflexivity| |].
    - destruct c as [[] [] [] [] [] [] [] []]; reflexivity.
    - destruct (parse_nat_second _ _ _ _ _ E eq_refl) as (d & Hd).
      destruct (digit_not_sign c' d Hd) as (_ & _ & Hx & HX).
      destruct c as [[] [] [] [] [] [] [] []]; try reflexivity;
        destruct c' as [[] [] [] [] [] [] [] []]; try reflexivity; discriminate. }
  rewrite Hradix. apply parseInt_digits, E.
Qed.

Lemma parseInt_numeral s n :
  parse_int s = Some n ->
  exists neg, parseInt s = if n =? 0 then S754_zero neg else Z2N n.
Proof.
  intros E. unfold parseInt.
  assert (Htrim : trim_start s = s).
  { destruct s as [|c s']; [reflexivity|]. cbn [trim_start].
    assert (Hc : is_space c = false).
    { unfold parse_int in E.
      destruct (Ascii.eqb_spec c "+") as [->|Hp]; [reflexivity|].
      destruct (Ascii.eqb_spec c "-") as [->|Hm]; [reflexivity|].
      assert (E' : parse_nat (String c s') = Some n).
      { destruct c as [[] [] [] [] [] [] [] []]; try exact E; congruence. }
      destruct (parse_nat_head _ _ E') as (c0 & s0 & d & Hs & Hd).
      inversion Hs; subst. eapply digit_not_space, Hd. }
    rewrite Hc. reflexivity. }
  rewrite Htrim. unfold parse_int in E.
  destruct s as [|c s']; [discriminate|].
  destruct (Ascii.eqb_spec c "-") as [->|Hm].
  - destruct (parse_nat s') as [v|] eqn:Ev; [|discriminate].
    cbn [option_map] in E. inversion E; subst n.
    exists true. rewrite (parseInt_unsigned s' v true Ev).
    destruct (Z.eqb_spec v 0) as [->|Hv]; [reflexivity|].
    replace (- v =? 0) with false by (symmetry; apply Z.eqb_neq; lia). reflexivity.
  - destruct (Ascii.eqb_spec c "+") as [->|Hp].
    + exists false. rewrite (parseInt_unsigned s' n false E). reflexivity.
    + assert (E' : parse_nat (String c s') = Some n).
      { destruct c as [[] [] [] [] [] [] [] []]; try exact E; congruence. }
      exists false.
      assert (Hsame : match String c s' with
                      | String "-" s0 => (true, s0)
                      | String "+" s0 => (false, s0)
                      | _ => (false, String c s')
                      end = (false, String c s')).
      { destruct c as [[] [] [] [] [] [] [] []]; try reflexivity; congruence. }
      rewrite Hsame. apply (parseInt_unsigned _ n false E').
Qed.

Lemma truthy_Z2N n : 0 < n < 2 ^ 53 -> truthy (VNum (Z2N n)) = true.
Proof.
  intros Hn. destruct (Z2N_pos_shape n Hn) as (m & e & -> & _). reflexivity.
Qed.

Lemma parseInt_or_numeral o d lo :
  optional (isInt_min lo) o = true -> 1 <= lo -> 1 <= d < 2 ^ 53 ->
  numeral_or o d < 2 ^ 53 ->
  parseInt_or o (Z2N d) = Z2N (numeral_or o d)
  /\ 1 <= numeral_or o d /\ (o = None -> numeral_or o d = d)
  /\ (forall s n, o = Some s -> parse_int s = Some n -> lo <= n /\ numeral_or o d = n).
Proof.
  intros Hv Hlo Hd Hlt. unfold parseInt_or, numeral_or in *.
  destruct o as [s|]; cbn [optional] in Hv.
  - unfold isInt_min in Hv. destruct (parse_int s) as [n|] eqn:En; [|discriminate].
    apply Z.leb_le in Hv.
    destruct (parseInt_numeral s n En) as (neg & ->).
    destruct n as [|p|p]; try lia.
    cbn [Z.eqb]. rewrite truthy_Z2N by lia.
    split; [reflexivity|]. split; [lia|]. split; [discriminate|].
    intros s0 n0 Es En0. inversion Es; subst. rewrite En in En0. inversion En0; subst.
    split; [lia|reflexivity].
  - cbn [truthy]. split; [reflexivity|]. split; [lia|]. split; [reflexivity|]. discriminate.
Qed.

Lemma isInt_min_of_isInt lo hi o :
  optional (isInt lo hi) o = true ->
  optional (isInt_min lo) o = true
  /\ (forall s n, o = Some s -> parse_int s = Some n -> n <= hi).
Proof.
  destruct o as [s|]; cbn [optional]; [|split; [reflexivity|discriminate]].
  unfold isInt, isInt_min. destruct (parse_int s) as [n|] eqn:Ep; [|discriminate].
  intros Hn. apply andb_prop in Hn. destruct Hn as [H1 H2]. split; [exact H1|].
  intros s0 n0 Es En. inversion Es; subst s0. rewrite Ep in En. inversion En; subst n0.
  apply Z.leb_le, H2.
Qed.

Lemma validated_limit q :
  optional (isInt 1 100) (q_limit q) = true ->
  parseInt_or (q_limit q) (Z2N 10) = Z2N (numeral_or (q_limit q) 10)
  /\ 1 <= numeral_or (q_limit q) 10 <= 100
  /\ (q_limit q = None -> numeral_or (q_limit q) 10 = 10).
Proof.
  intros Hv. destruct (isInt_min_of_isInt 1 100 _ Hv) as [Hmin Hmax].
  assert (Hle : numeral_or (q_limit q) 10 <= 100).
  { unfold numeral_or. destruct (q_limit q) as [s|]; [|lia].
    destruct (parse_int s) as [n|] eqn:En; [|lia].
    pose proof (Hmax s n eq_refl En). destruct n; lia. }
  destruct (parseInt_or_numeral (q_limit q) 10 1 Hmin ltac:(lia)
              ltac:(change (2 ^ 53) with 9007199254740992; lia)
              ltac:(change (2 ^ 53) with 9007199254740992; lia))
    as (Hp & H1 & Hnone & _).
  split; [exact Hp|]. split; [lia|exact Hnone].
Qed.

(** ** The page *)

(** X11: a page of GET /api/reports. On a query that passes the
    validators, for a page number below 2^45 (so that [(page - 1) * limit]
    is computed exactly), the route answers 200 with the page number it
    read; that number is at least 1 (1 when none is given), the limit is
    between 1 and 100 (10 when none is given); [total] counts all the
    reports the filter matches, whatever the page, and the page holds
    [min(limit, max(0, total - (page - 1) * limit))] of them: a full page,
    what is left on the last one, nothing beyond it. *)
Theorem get_reports_page `{Builtins} (req : Request) (w : World) :
  list_query_valid (query req) = true ->
  page_of req < 2 ^ 45 ->
  exists count total totalPages data,
    get_reports req w
    = (Ok {| status_code := 200;
             payload := PList count total (Z2N (page_of req)) totalPages data |}, w)
    /\ 1 <= page_of req /\ 1 <= limit_of req <= 100
    /\ (q_page (query req) = None -> page_of req = 1)
    /\ (q_limit (query req) = None -> limit_of req = 10)
    /\ total = Z.of_nat (length (matching req w))
    /\ count = Z.of_nat (length data)
    /\ count = Z.min (limit_of req) (Z.max 0 (total - (page_of req - 1) * limit_of req)).
Proof.
  intros Hvalid Hsmall. unfold get_reports. rewrite Hvalid. cbn [negb].
  unfold list_query_valid in Hvalid.
  repeat (apply andb_prop in Hvalid; destruct Hvalid as [Hvalid ?]).
  assert (H45 : 2 ^ 45 * 100 < 2 ^ 53) by reflexivity.
  assert (P45 : 0 < 2 ^ 45) by reflexivity.
  destruct (parseInt_or_numeral (q_page (query req)) 1 1 Hvalid ltac:(lia)
              ltac:(change (2 ^ 53) with 9007199254740992; lia)
              ltac:(unfold page_of in Hsmall; lia))
    as (Hpage & Hp & Hp1 & _).
  destruct (validated_limit (query req) ltac:(assumption)) as (Hlimit & Hl & Hl10).
  fold (page_of req) in Hpage, Hp, Hp1. fold (limit_of req) in Hlimit, Hl, Hl10.
  rewrite Hpage, Hlimit.
  assert (Hskip : 0 <= (page_of req - 1) * limit_of req < 2 ^ 53) by nia.
  rewrite skip_exact by lia.
  unfold try_catch, bind, Report_find, of_result, Query_count.
  rewrite !safe_count_Z2N by lia.
  unfold Report_countDocuments, json, ret. fold (matching req w).
  destruct (Z.to_nat (limit_of req)) as [|k] eqn:Ek; [lia|].
  eexists _, _, _, _. split; [reflexivity|].
  do 4 (split; [assumption || lia|]).
  split; [reflexivity|].
  rewrite !length_map. split; [reflexivity|].
  rewrite length_take, length_drop.
  rewrite (Permutation_length (merge_sort_Permutation newer_first (matching req w))).
  unfold matching. rewrite <- Ek.
  set (total := length (List.filter (list_filter req) (all_reports w))).
  set (skip := (page_of req - 1) * limit_of req) in *.
  lia.
Qed.

Lemma get_reports_page_witness :
  exists count total totalPages data,
    get_reports (with_user alice
                   (list_request "alice" (query_of (Some "02") (Some "+2") None None None)%string))
                world3
    = (Ok {| status_code := 200; payload := PList count total (Z2N 2) totalPages data |},
       world3)
    /\ total = 3 /\ count = 1.
Proof.
  destruct (get_reports_page
              (with_user alice
                 (list_request "alice" (query_of (Some "02") (Some "+2") None None None)%string))
              world3 eq_refl eq_refl)
    as (count & total & totalPages & data & Hrun & _ & _ & _ & _ & Ht & _ & Hc).
  exists count, total, totalPages, data. split; [exact Hrun|].
  assert (Ht3 : total = 3) by (rewrite Ht; vm_compute; reflexivity).
  split; [exact Ht3|]. rewrite Hc, Ht3. vm_compute. reflexivity.
Defined.

(** ** The order *)

#[local] Instance newer_first_total : Total newer_first.
Proof. intros a b. unfold newer_first. lia. Qed.

#[local] Instance newer_first_trans : Transitive newer_first.
Proof. intros a b c. unfold newer_first. lia. Qed.

Lemma StronglySorted_sublist {A} (R : relation A) k l :
  sublist k l -> StronglySorted R l -> StronglySorted R k.
Proof.
  intros Hsub. induction Hsub as [|x k l Hsub IH|x k l Hsub IH]; intros Hs.
  - constructor.
  - apply StronglySorted_inv in Hs. destruct Hs as [Hl Hx].
    constructor; [apply IH, Hl|].
    rewrite Forall_forall in Hx |- *. intros y Hy. apply Hx.
    eapply elem_of_sublist; [exact Hy|exact Hsub].
  - apply StronglySorted_inv in Hs. destruct Hs as [Hl _]. apply IH, Hl.
Qed.

(** What the route sends: nothing, or a part of the matching reports of
    the user [protect] resolved, on a query that passed the
    validators. *)
Lemma listed_of_run `{Builtins} req w :
  listed (payload (fst (route get_reports req w))) = []
  \/ exists u,
       protect req w = (Ok (inr u), w)
       /\ list_query_valid (query req) = true
       /\ sublist (listed (payload (fst (route get_reports req w))))
                  (merge_sort newer_first (matching (with_user u req) w)).
Proof.
  unfold route.
  destruct (protect_cases0 req w) as [(u & Hp)|(denied & Hp)]; rewrite Hp.
  - destruct (get_reports_run (with_user u req) w) as (res & Hrun & Hsub & Hvalid).
    rewrite Hrun. cbn [fst].
    destruct (listed (payload res)) as [|r l] eqn:El; [left; reflexivity|].
    right. exists u. split; [reflexivity|].
    split; [apply Hvalid; discriminate|exact Hsub].
  - left. cbn [fst]. apply (protect_denied_payload _ _ _ Hp).
Qed.

(** X12: the reports of a page come newest first: in the list that
    GET /api/reports sends, no report was created before one that follows
    it. *)
Theorem get_reports_newest_first `{Builtins} (req : Request) (w : World) :
  StronglySorted newer_first (listed (payload (fst (route get_reports req w)))).
Proof.
  destruct (listed_of_run req w) as [->|(u & _ & _ & Hsub)]; [constructor|].
  eapply StronglySorted_sublist; [exact Hsub|].
  apply StronglySorted_merge_sort; typeclasses eauto.
Qed.

(** ** The filters *)

Lemma listed_are_matching `{Builtins} req w r :
  In r (listed (payload (fst (route get_reports req w)))) ->
  exists u, protect req w = (Ok (inr u), w)
            /\ list_query_valid (query req) = true
            /\ In r (matching (with_user u req) w).
Proof.
  destruct (listed_of_run req w) as [->|(u & Hp & Hvalid & Hsub)]; [contradiction|].
  intros Hin. exists u. split; [exact Hp|]. split; [exact Hvalid|].
  apply list_elem_of_In in Hin. apply list_elem_of_In.
  rewrite <- (merge_sort_Permutation newer_first).
  eapply elem_of_sublist; [exact Hin|exact Hsub].
Qed.

Lemma parse_int_nonempty s n : parse_int s = Some n -> exists c s', s = String c s'.
Proof. destruct s; [discriminate|eauto]. Qed.

Lemma Ncompare_zero_sign x s : Ncompare x (S754_zero s) = Ncompare x (Z2N 0).
Proof. destruct x as [[|]|[|]| |[|] m e], s; reflexivity. Qed.

Lemma Ncompare_zero_sign_l x s : Ncompare (S754_zero s) x = Ncompare (Z2N 0) x.
Proof. destruct x as [[|]|[|]| |[|] m e], s; reflexivity. Qed.

(** A bound of the query, as the filter reads it. *)
Lemma score_bound_numeral s n x :
  parse_int s = Some n ->
  Ncompare x (parseInt s) = Ncompare x (Z2N n)
  /\ Ncompare (parseInt s) x = Ncompare (Z2N n) x.
Proof.
  intros En. destruct (parseInt_numeral s n En) as (neg & ->).
  destruct (Z.eqb_spec n 0) as [->|Hn]; [|split; reflexivity].
  split; [apply Ncompare_zero_sign|apply Ncompare_zero_sign_l].
Qed.

(** X13: GET /api/reports honours its filters. Every report it sends is
    a stored one; with a [status] parameter it has that status; with a
    [minScore] (a [maxScore]) that reads as the integer [n], its score is
    at least (at most) [n]. *)
Theorem get_reports_honours_filters `{Builtins} (req : Request) (w : World) (r : Report) :
  In r (listed (payload (fst (route get_reports req w)))) ->
  In r (all_reports w)
  /\ (forall s, q_status (query req) = Some s -> s <> EmptyString ->
                Status_toString (status r) = s)
  /\ (forall s n, q_minScore (query req) = Some s -> parse_int s = Some n ->
                  Nge (transparencyScore r) (Z2N n) = true)
  /\ (forall s n, q_maxScore (query req) = Some s -> parse_int s = Some n ->
                  Nge (Z2N n) (transparencyScore r) = true).
Proof.
  intros Hin. apply listed_are_matching in Hin. destruct Hin as (u & _ & _ & Hin).
  unfold matching in Hin.
  apply filter_In in Hin. destruct Hin as [Hstored Hf].
  split; [exact Hstored|].
  unfold list_filter in Hf. cbn [query with_user] in Hf.
  apply andb_prop in Hf. destruct Hf as [Hf Hmax].
  apply andb_prop in Hf. destruct Hf as [Hf Hmin].
  apply andb_prop in Hf. destruct Hf as [_ Hstatus].
  repeat split.
  - intros s Hs Hne. rewrite Hs in Hstatus. destruct s; [contradiction|].
    apply String.eqb_eq in Hstatus. exact Hstatus.
  - intros s n Hs Hn. unfold score_bound in Hmin. rewrite Hs in Hmin.
    destruct (parse_int_nonempty s n Hn) as (c & s' & ->).
    unfold Nge in *. rewrite (proj1 (score_bound_numeral _ n _ Hn)) in Hmin. exact Hmin.
  - intros s n Hs Hn. unfold score_bound in Hmax. rewrite Hs in Hmax.
    destruct (parse_int_nonempty s n Hn) as (c & s' & ->).
    unfold Nge in *. rewrite (proj2 (score_bound_numeral _ n _ Hn)) in Hmax. exact Hmax.
Qed.

Lemma get_reports_honours_filters_witness :
  In (report_at 1 72 completed 2)
     (listed (payload (fst (route get_reports
        (list_request "alice" (query_of None None (Some "completed") (Some "050") None)%string)
        world3))))
  /\ Status_toString (status (report_at 1 72 completed 2)) = "completed"%string
  /\ Nge (transparencyScore (report_at 1 72 completed 2)) (Z2N 50) = true.
Proof.
  assert (Hin : In (report_at 1 72 completed 2)
     (listed (payload (fst (route get_reports
        (list_request "alice" (query_of None None (Some "completed") (Some "050") None)%string)
        world3))))) by (vm_compute; right; left; reflexivity).
  split; [exact Hin|].
  destruct (get_reports_honours_filters _ _ _ Hin) as (_ & Hs & Hmin & _).
  split.
  - apply (Hs "completed"%string); [reflexivity|discriminate].
  - apply (Hmin "050"%string 50); reflexivity.
Defined.
(** * GET /api/reports/stats/overview: counts, histogram and extremes *)

Lemma stats_run req w :
  get_stats_overview req w
  = (Ok {| status_code := 200;
           payload := PStats (match group_overview (matched req w) with
                              | s :: _ => s
                              | [] => zero_overview
                              end)
                             (bucket [0; 20; 40; 60; 80; 100] (matched req w)) |}, w).
Proof. reflexivity. Qed.

Lemma count_by_status rs :
  Z.of_nat (length rs)
  = count_where (fun r => Status_eqb (status r) completed) rs
    + count_where (fun r => Status_eqb (status r) pending) rs
    + count_where (fun r => Status_eqb (status r) draft) rs.
Proof.
  unfold count_where. induction rs as [|r rs IH]; [reflexivity|].
  cbn [List.filter length]. destruct (status r); cbn [Status_eqb length]; lia.
Qed.

(** X14: the overview of the statistics route counts the caller's
    reports, each once: [totalReports] is the number of stored reports
    whose owner is the caller, and it is the sum of the completed, the
    pending and the draft ones. *)
Theorem stats_overview_counts (req : Request) (w : World) :
  exists overview dist,
    get_stats_overview req w
    = (Ok {| status_code := 200; payload := PStats overview dist |}, w)
    /\ totalReports overview = Z.of_nat (length (matched req w))
    /\ totalReports overview
       = completedReports overview + pendingReports overview + draftReports overview
    /\ (forall u r, user_ req = Some u ->
                    In r (matched req w) <-> In r (all_reports w) /\ userId r = Some (u_id u)).
Proof.
  eexists _, _. split; [apply stats_run|]. split; [|split].
  - destruct (matched req w) as [|r rs]; reflexivity.
  - destruct (matched req w) as [|r rs] eqn:E; [reflexivity|].
    cbn [group_overview totalReports completedReports pendingReports draftReports].
    apply count_by_status.
  - intros u r Hu. unfold matched. rewrite filter_In. unfold stats_match. rewrite Hu.
    destruct (userId r) as [owner|].
    + rewrite N.eqb_eq. split; intros [? ?]; split; congruence.
    + split; intros [? ?]; discriminate.
Qed.

Lemma bucket_of_cases x :
  let b := bucket_of [0; 20; 40; 60; 80; 100] x in
  b = BLower 0 \/ b = BLower 20 \/ b = BLower 40 \/ b = BLower 60 \/ b = BLower 80
  \/ b = BOther.
Proof.
  cbn [bucket_of].
  repeat match goal with
         | |- context [if ?c then _ else _] => destruct c
         end; tauto.
Qed.

Lemma count_by_bucket rs :
  let count id :=
    count_where (fun r => BucketId_eqb (bucket_of [0; 20; 40; 60; 80; 100] (transparencyScore r)) id)
                rs in
  Z.of_nat (length rs)
  = count (BLower 0) + count (BLower 20) + count (BLower 40) + count (BLower 60)
    + count (BLower 80) + count BOther.
Proof.
  cbv zeta. unfold count_where. induction rs as [|r rs IH]; [reflexivity|].
  cbn [List.filter length].
  destruct (bucket_of_cases (transparencyScore r)) as [E|[E|[E|[E|[E|E]]]]];
    cbv zeta in E; rewrite E; cbn [BucketId_eqb Z.eqb Pos.eqb length]; lia.
Qed.

Lemma count_where_nonneg f rs : 0 <= count_where f rs.
Proof. unfold count_where. lia. Qed.

Lemma total_count_positive (l : list (BucketId * Z)) :
  Forall (fun d => 0 <= snd d) l ->
  total_count (List.filter (fun d => 0 <? snd d) l) = total_count l.
Proof.
  unfold total_count. induction 1 as [|d l Hd _ IH]; [reflexivity|].
  cbn [List.filter]. destruct (Z.ltb_spec 0 (snd d)); cbn [map fold_right]; lia.
Qed.

Lemma NoDup_map_fst_filter {A B} (f : A * B -> bool) (l : list (A * B)) :
  List.NoDup (map fst l) -> List.NoDup (map fst (List.filter f l)).
Proof.
  induction l as [|d l IH]; [intros; constructor|].
  cbn [map List.filter]. intros Hnd. inversion Hnd as [|? ? Hnotin Hnd']; subst.
  destruct (f d); [|apply IH, Hnd'].
  cbn [map]. constructor; [|apply IH, Hnd'].
  intros Hin. apply Hnotin. apply in_map_iff in Hin. destruct Hin as (d' & E & Hin).
  apply filter_In in Hin. apply in_map_iff. exists d'. tauto.
Qed.

(** X15: the score histogram accounts for every report of the caller
    exactly once: the counts of its documents add up to the number of
    matched reports, every document it lists has a positive count, and
    the documents are those of the five buckets and the default one,
    each at most once. *)
Theorem score_histogram_counts_each_report_once (req : Request) (w : World) :
  exists overview dist,
    get_stats_overview req w
    = (Ok {| status_code := 200; payload := PStats overview dist |}, w)
    /\ total_count dist = Z.of_nat (length (matched req w))
    /\ total_count dist = totalReports overview
    /\ Forall (fun d => 0 < snd d) dist
    /\ (forall d, In d dist ->
                  In (fst d) [BLower 0; BLower 20; BLower 40; BLower 60; BLower 80; BOther])
    /\ List.NoDup (map fst dist).
Proof.
  eexists _, _. split; [apply stats_run|].
  set (rs := matched req w).
  assert (Htotal : total_count (bucket [0; 20; 40; 60; 80; 100] rs) = Z.of_nat (length rs)).
  { unfold bucket. cbn [removelast map app].
    rewrite total_count_positive
      by (repeat constructor; cbn [snd]; apply count_where_nonneg).
    unfold total_count. cbn [map snd fold_right].
    pose proof (count_by_bucket rs) as Hc. cbv zeta in Hc. lia. }
  split; [exact Htotal|]. split; [|split; [|split]].
  - rewrite Htotal. destruct rs as [|r rs']; reflexivity.
  - unfold bucket. apply Forall_forall. intros d Hd.
    apply list_elem_of_In, filter_In in Hd.
    destruct Hd as [_ Hd]. apply Z.ltb_lt in Hd. exact Hd.
  - intros d Hd. unfold bucket in Hd. apply filter_In in Hd. destruct Hd as [Hd _].
    cbn [removelast map app] in Hd. cbn [In] in Hd. cbn [In].
    repeat (destruct Hd as [<-|Hd]; [cbn [fst]; tauto|]). contradiction.
  - unfold bucket. apply NoDup_map_fst_filter. cbn [removelast map app fst].
    repeat (constructor; [cbn [In]; intros Hin;
                          repeat (destruct Hin as [Hin|Hin]; [discriminate Hin|]);
                          contradiction|]).
    constructor.
Qed.

Lemma schema_valid_score r :
  schema_valid r = true ->
  Number_isFinite (transparencyScore r) = true
  /\ Nge (transparencyScore r) (Z2N 0) = true
  /\ Nge (Z2N 100) (transparencyScore r) = true.
Proof.
  unfold schema_valid. intros Hv.
  apply andb_prop in Hv. destruct Hv as [Hv Hmax].
  apply andb_prop in Hv. destruct Hv as [_ Hmin].
  repeat split; try assumption.
  destruct (transparencyScore r) as [s|[|]| |s m e]; try reflexivity;
    try (vm_compute in Hmin; discriminate); vm_compute in Hmax; discriminate.
Qed.

Lemma Ngt_imp_Nge x y : Ngt x y = true -> Nge x y = true.
Proof. unfold Ngt, Nge. destruct (Ncompare x y) as [[| |]|]; try discriminate; reflexivity. Qed.

Lemma Nlt_imp_Nge x y :
  Number_isFinite x = true -> Number_isFinite y = true -> Nlt x y = true -> Nge y x = true.
Proof.
  intros Hx Hy. unfold Nlt, Nge.
  set (e0 := Z.min (Fexp x) (Fexp y)).
  rewrite (Ncompare_scaled x y e0), (Ncompare_scaled y x e0) by (assumption || lia).
  rewrite (Z.compare_antisym (scaled e0 x) (scaled e0 y)).
  destruct (scaled e0 x ?= scaled e0 y); try discriminate; reflexivity.
Qed.

Lemma fold_max_spec xs acc :
  Number_isFinite acc = true -> Forall (fun y => Number_isFinite y = true) xs ->
  let m := fold_left (fun acc y => if Ngt y acc then y else acc) xs acc in
  Number_isFinite m = true /\ (m = acc \/ In m xs) /\ Nge m acc = true
  /\ Forall (fun y => Nge m y = true) xs.
Proof.
  intros Hacc Hxs. revert acc Hacc. induction Hxs as [|y xs Hy _ IH]; intros acc Hacc.
  - cbn. repeat split; [assumption|left; reflexivity|apply Nge_refl, Hacc|constructor].
  - cbn [fold_left].
    set (acc' := if Ngt y acc then y else acc).
    assert (Hacc' : Number_isFinite acc' = true) by (unfold acc'; destruct (Ngt y acc); assumption).
    assert (H1 : Nge acc' acc = true).
    { unfold acc'. destruct (Ngt y acc) eqn:E; [apply Ngt_imp_Nge, E|apply Nge_refl, Hacc]. }
    assert (H2 : Nge acc' y = true).
    { unfold acc'. destruct (Ngt y acc) eqn:E; [apply Nge_refl, Hy|].
      rewrite (Ngt_Nge acc y Hacc Hy) in E. destruct (Nge acc y); [reflexivity|discriminate]. }
    destruct (IH acc' Hacc') as (Hm & Hin & Hge & Hall). cbv zeta in *.
    set (m := fold_left _ xs acc') in *.
    repeat split.
    + exact Hm.
    + destruct Hin as [Hin|Hin]; [|right; right; exact Hin].
      rewrite Hin. unfold acc'. destruct (Ngt y acc); [right; left; reflexivity|left; reflexivity].
    + apply (Nge_trans m acc' acc); assumption.
    + constructor; [apply (Nge_trans m acc' y); assumption|exact Hall].
Qed.

Lemma fold_min_spec xs acc :
  Number_isFinite acc = true -> Forall (fun y => Number_isFinite y = true) xs ->
  let m := fold_left (fun acc y => if Nlt y acc then y else acc) xs acc in
  Number_isFinite m = true /\ (m = acc \/ In m xs) /\ Nge acc m = true
  /\ Forall (fun y => Nge y m = true) xs.
Proof.
  intros Hacc Hxs. revert acc Hacc. induction Hxs as [|y xs Hy _ IH]; intros acc Hacc.
  - cbn. repeat split; [assumption|left; reflexivity|apply Nge_refl, Hacc|constructor].
  - cbn [fold_left].
    set (acc' := if Nlt y acc then y else acc).
    assert (Hacc' : Number_isFinite acc' = true) by (unfold acc'; destruct (Nlt y acc); assumption).
    assert (H1 : Nge acc acc' = true).
    { unfold acc'. destruct (Nlt y acc) eqn:E; [apply Nlt_imp_Nge; assumption|apply Nge_refl, Hacc]. }
    assert (H2 : Nge y acc' = true).
    { unfold acc'. destruct (Nlt y acc) eqn:E; [apply Nge_refl, Hy|].
      rewrite (Nlt_Nge acc y Hacc Hy) in E. destruct (Nge y acc); [reflexivity|discriminate]. }
    destruct (IH acc' Hacc') as (Hm & Hin & Hge & Hall). cbv zeta in *.
    set (m := fold_left _ xs acc') in *.
    repeat split.
    + exact Hm.
    + destruct Hin as [Hin|Hin]; [|right; right; exact Hin].
      rewrite Hin. unfold acc'. destruct (Nlt y acc); [right; left; reflexivity|left; reflexivity].
    + apply (Nge_trans acc acc' m); assumption.
    + constructor; [apply (Nge_trans y acc' m); assumption|exact Hall].
Qed.

Lemma stored_report w r : In r (all_reports w) -> exists id, reports w !! id = Some r.
Proof.
  unfold all_reports. intros Hin. apply in_map_iff in Hin.
  destruct Hin as ([id r'] & E & Hin). cbn in E. subst r'.
  exists id. apply elem_of_map_to_list. apply list_elem_of_In. exact Hin.
Qed.

(** X16: in a store whose reports pass the schema, the [maxScore] and
    the [minScore] of the overview are the scores of two of the caller's
    reports, and every report of the caller scores between them. *)
Theorem stats_overview_extremes (req : Request) (w : World) :
  store_ok w -> matched req w <> [] ->
  exists overview dist,
    get_stats_overview req w
    = (Ok {| status_code := 200; payload := PStats overview dist |}, w)
    /\ (exists r, In r (matched req w) /\ transparencyScore r = maxScore overview)
    /\ (exists r, In r (matched req w) /\ transparencyScore r = minScore overview)
    /\ (forall r, In r (matched req w) ->
                  Nge (maxScore overview) (transparencyScore r) = true
                  /\ Nge (transparencyScore r) (minScore overview) = true).
Proof.
  intros Hok Hne. eexists _, _. split; [apply stats_run|].
  assert (Hfin : Forall (fun y => Number_isFinite y = true) (map transparencyScore (matched req w))).
  { apply Forall_forall. intros y Hy. apply list_elem_of_In, in_map_iff in Hy.
    destruct Hy as (r & <- & Hr). unfold matched in Hr. apply filter_In in Hr.
    destruct Hr as [Hr _]. destruct (stored_report w r Hr) as (id & Hid).
    destruct (Hok id r Hid) as [_ Hv]. apply schema_valid_score, Hv. }
  destruct (matched req w) as [|r0 rs] eqn:E; [contradiction|].
  cbn [group_overview maxScore minScore map agg_max agg_min].
  cbn [map] in Hfin. inversion Hfin as [|? ? H0 Hrest]; subst.
  destruct (fold_max_spec _ _ H0 Hrest) as (_ & Hin1 & Hge1 & Hall1).
  destruct (fold_min_spec _ _ H0 Hrest) as (_ & Hin2 & Hge2 & Hall2).
  cbv zeta in *.
  set (mx := fold_left _ (map transparencyScore rs) (transparencyScore r0)) in *.
  set (mn := fold_left _ (map transparencyScore rs) (transparencyScore r0)) in *.
  assert (Hscore : forall m, m = transparencyScore r0 \/ In m (map transparencyScore rs) ->
                             exists r, In r (r0 :: rs) /\ transparencyScore r = m).
  { intros m [->|Hin]; [exists r0; split; [left|]; reflexivity|].
    apply in_map_iff in Hin. destruct Hin as (r & Er & Hr). exists r. split; [right|]; assumption. }
  split; [apply Hscore, Hin1|]. split; [apply Hscore, Hin2|].
  intros r [<-|Hr]; [split; assumption|].
  rewrite Forall_forall in Hall1, Hall2.
  split; [apply Hall1|apply Hall2]; apply list_elem_of_In, in_map, Hr.
Qed.

Lemma store_ok_world3 : store_ok world3.
Proof.
  intros id r Hr. unfold world3 in Hr. cbn [reports set_reports] in Hr.
  apply elem_of_list_to_map_2, list_elem_of_In in Hr. cbn [In] in Hr.
  repeat (destruct Hr as [Hr|Hr]; [inversion Hr; subst; split; vm_compute; reflexivity|]).
  contradiction.
Qed.

Lemma stats_overview_extremes_witness :
  exists overview dist,
    get_stats_overview (with_user alice (request "alice" EmptyString VUndefined)) world3
    = (Ok {| status_code := 200; payload := PStats overview dist |}, world3)
    /\ (exists r, In r (matched (with_user alice (request "alice" EmptyString VUndefined)) world3)
                  /\ transparencyScore r = maxScore overview)
    /\ (exists r, In r (matched (with_user alice (request "alice" EmptyString VUndefined)) world3)
                  /\ transparencyScore r = minScore overview)
    /\ (forall r, In r (matched (with_user alice (request "alice" EmptyString VUndefined)) world3) ->
                  Nge (maxScore overview) (transparencyScore r) = true
                  /\ Nge (transparencyScore r) (minScore overview) = true).
Proof.
  apply (stats_overview_extremes (with_user alice (request "alice" EmptyString VUndefined)) world3).
  - exact store_ok_world3.
  - vm_compute. discriminate.
Defined.
(** * What the writing routes do to the store *)

(** One step of a handler that writes nothing, followed by the rest. *)
Lemma bind_step {A B} (Q : result B * World -> Prop) (m : M A) (k : A -> M B) w0 w :
  same_stores w0 w -> reads_only m ->
  (forall e w1, same_stores w0 w1 -> Q (Throw e, w1)) ->
  (forall a w1, m w = (Ok a, w1) -> same_stores w0 w1 -> Q (k a w1)) ->
  Q (bind m k w).
Proof.
  intros Hw Hm Hthrow Hok. unfold bind.
  destruct (m w) as [[a|e] w1] eqn:E.
  - apply Hok; [reflexivity|]. eapply same_stores_trans; [exact Hw|eapply Hm, E].
  - apply Hthrow. eapply same_stores_trans; [exact Hw|eapply Hm, E].
Qed.

Lemma bind_throw {A B} (m : M A) (k : A -> M B) w e w' :
  m w = (Throw e, w') -> bind m k w = (Throw e, w').
Proof. intros E. unfold bind. rewrite E. reflexivity. Qed.

Lemma castObjectId_run s w :
  castObjectId s w = match hex24 s with
                     | Some id => (Ok id, w)
                     | None => (Throw CastError, w)
                     end.
Proof. unfold castObjectId. destruct (hex24 s); reflexivity. Qed.

Lemma reads_only_castObjectId_of v : reads_only (castObjectId_of v).
Proof. destruct v; first [apply reads_only_castObjectId|apply reads_only_throw]. Qed.

Lemma fresh_report_id (m : gmap N Report) : m !! fresh (dom m) = None.
Proof. apply not_elem_of_dom, is_fresh. Qed.

Section Effects.
Context `{Builtins}.

(** POST: one new report under a fresh id, or nothing. *)
Lemma post_report_effect req w :
  exists res w',
    post_report req w = (Ok res, w')
    /\ users w' = users w /\ products w' = products w /\ clock w' = clock w
    /\ ((exists r,
           status_code res = 201
           /\ payload res = PReport r (products w !! productId r)
           /\ reports w !! r_id r = None
           /\ reports w' = <[r_id r := r]> (reports w)
           /\ schema_valid r = true
           /\ userId r = option_map u_id (user_ req)
           /\ status r = completed
           /\ createdAt r = clock w
           /\ isMongoId (get (body req) "productId") = true
           /\ is_Some (products w !! productId r))
        \/ (reports w' = reports w
            /\ (status_code res = 400 \/ status_code res = 404 \/ status_code res = 500))).
Proof.
  unfold post_report.
  destruct (create_body_valid (body req)) eqn:Hvalid; cbn [negb].
  2:{ eexists _, w. split; [reflexivity|]. repeat (split; [reflexivity|]).
      right. split; [reflexivity|]. left. reflexivity. }
  assert (Hmongo : isMongoId (get (body req) "productId") = true).
  { unfold create_body_valid in Hvalid. apply andb_prop in Hvalid. apply Hvalid. }
  set (Q := fun out : result Response * World =>
              match out with
              | (Ok res, w') =>
                  users w' = users w /\ products w' = products w /\ clock w' = clock w
                  /\ ((exists r,
                         status_code res = 201
                         /\ payload res = PReport r (products w !! productId r)
                         /\ reports w !! r_id r = None
                         /\ reports w' = <[r_id r := r]> (reports w)
                         /\ schema_valid r = true
                         /\ userId r = option_map u_id (user_ req)
                         /\ status r = completed
                         /\ createdAt r = clock w
                         /\ isMongoId (get (body req) "productId") = true
                         /\ is_Some (products w !! productId r))
                      \/ (reports w' = reports w /\ status_code res = 404))
              | (Throw _, w') => same_stores w w'
              end).
  match goal with
  | |- exists res w', try_catch ?m ?h w = _ /\ _ => assert (Hbody : Q (m w))
  end.
  { apply (bind_step Q _ _ w);
      [apply same_stores_refl|apply reads_only_castObjectId_of|intros e w1 Hs; exact Hs|].
    intros pid w1 _ Hs1.
    apply (bind_step Q _ _ w);
      [exact Hs1|apply reads_only_Product_findById|intros e w2 Hs; exact Hs|].
    intros found w2 Efound Hs2. unfold Product_findById in Efound. inversion Efound; subst.
    destruct (products w2 !! pid) as [product|] eqn:Hprod.
    2:{ cbn. destruct Hs2 as (A1 & A2 & A3 & A4 & _). repeat (split; [assumption|]).
        right. split; [assumption|reflexivity]. }
    apply (bind_step Q _ _ w);
      [exact Hs2
      |apply reads_only_try_catch; [apply reads_only_axios|intros; apply reads_only_fallback]
      |intros e w3 Hs; exact Hs|].
    intros aiAnalysis w3 _ Hs3.
    apply (bind_step Q _ _ w); [exact Hs3|apply reads_only_emit|intros e w4 Hs; exact Hs|].
    intros [] w4 _ Hs4.
    apply (bind_step Q _ _ w); [exact Hs4|apply reads_only_scorer|intros e w5 Hs; exact Hs|].
    intros computedScore w5 _ Hs5.
    apply (bind_step Q _ _ w); [exact Hs5|apply reads_only_member|intros e w6 Hs; exact Hs|].
    intros summary1 w6 _ Hs6.
    apply (bind_step Q _ _ w); [exact Hs6|apply reads_only_member|intros e w7 Hs; exact Hs|].
    intros analysis1 w7 _ Hs7.
    apply (bind_step Q _ _ w); [exact Hs7|apply reads_only_lift|intros e w8 Hs; exact Hs|].
    intros summary2 w8 _ Hs8.
    apply (bind_step Q _ _ w); [exact Hs8|apply reads_only_lift|intros e w9 Hs; exact Hs|].
    intros analysis2 w9 _ Hs9.
    destruct Hs9 as (A1 & A2 & A3 & A4 & A5).
    unfold bind at 1, Report_create.
    match goal with
    | |- context [schema_valid ?r && pre_save_ok ?r] =>
        set (report := r); destruct (schema_valid report && pre_save_ok report) eqn:Hsave
    end.
    2:{ cbn. repeat split; assumption. }
    unfold bind, populate, json, ret.
    cbn [fst snd Q products users clock reports set_trace set_reports].
    repeat (split; [assumption|]).
    left. exists report.
    apply andb_prop in Hsave. destruct Hsave as [Hschema _].
    cbn [status_code payload productId r_id userId status createdAt report].
    rewrite A2, A3, A4.
    repeat split; try reflexivity; try assumption.
    - apply fresh_report_id.
    - destruct Hs2 as (_ & B2 & _). rewrite <- B2, Hprod. eauto. }
  unfold try_catch.
  destruct (bind _ _ w) as [[res|e] w1].
  - exists res, w1. split; [reflexivity|]. cbn in Hbody.
    destruct Hbody as (A1 & A2 & A3 & [Hcreated|[Hsame H404]]).
    + repeat (split; [assumption|]). left. exact Hcreated.
    + repeat (split; [assumption|]). right. split; [assumption|]. right. left. exact H404.
  - cbn in Hbody. destruct Hbody as (A1 & A2 & A3 & A4 & _).
    eexists _, w1. split; [reflexivity|]. repeat (split; [assumption|]).
    right. split; [assumption|]. right. right. reflexivity.
Qed.

(** What [Object.assign] leaves alone. *)
Lemma assign_body_fields report b w a w' :
  assign_body report b w = (Ok a, w') ->
  w' = w
  /\ r_id a = r_id report /\ productId a = productId report /\ userId a = userId report
  /\ analysis a = analysis report /\ pdfUrl a = pdfUrl report
  /\ createdAt a = createdAt report /\ updatedAt a = updatedAt report
  /\ (get b "summary" = VUndefined -> summary a = summary report)
  /\ (get b "transparencyScore" = VUndefined -> transparencyScore a = transparencyScore report)
  /\ (get b "status" = VUndefined -> status a = status report)
  /\ (get b "answers" = VUndefined -> answers a = answers report)
  /\ (get b "answers" <> VUndefined -> answers a = get b "answers").
Proof.
  unfold assign_body. intros E.
  apply bind_inv in E. destruct E as [(s & w1 & E1 & E)|(e & _ & Hr)]; [|discriminate].
  apply bind_inv in E. destruct E as [(x & w2 & E2 & E)|(e & _ & Hr)]; [|discriminate].
  apply bind_inv in E. destruct E as [(st & w3 & E3 & E)|(e & _ & Hr)]; [|discriminate].
  unfold ret in E. inversion E; subst a w'. clear E.
  assert (Hw1 : w1 = w /\ (get b "summary" = VUndefined -> s = summary report)).
  { destruct (get b "summary") eqn:G;
      try (unfold lift in E1; destruct (cast_String _); unfold ret, throw in E1;
           inversion E1; subst; split; [reflexivity|discriminate]).
    unfold ret in E1. inversion E1; subst. split; reflexivity. }
  destruct Hw1 as [-> Hs].
  assert (Hw2 : w2 = w /\ (get b "transparencyScore" = VUndefined -> x = transparencyScore report)).
  { destruct (get b "transparencyScore") eqn:G;
      try (unfold lift in E2; destruct (cast_Number _); unfold ret, throw in E2;
           inversion E2; subst; split; [reflexivity|discriminate]).
    unfold ret in E2. inversion E2; subst. split; reflexivity. }
  destruct Hw2 as [-> Hx].
  assert (Hw3 : w3 = w /\ (get b "status" = VUndefined -> st = status report)).
  { destruct (get b "status") eqn:G;
      try (unfold lift in E3; destruct (cast_Status _); unfold ret, throw in E3;
           inversion E3; subst; split; [reflexivity|discriminate]).
    unfold ret in E3. inversion E3; subst. split; reflexivity. }
  destruct Hw3 as [-> Hst].
  cbn. repeat split; try assumption.
  - intros ->. reflexivity.
  - intros Hne. destruct (get b "answers"); try reflexivity. contradiction.
Qed.

(** What [save] does: the document passes the validators; it is written,
    with the time of the request as its update time, when a path was
    modified, and the store is left alone when none was. *)
Lemma Report_save_inv a m w saved w' :
  Report_save a m w = (Ok saved, w') ->
  schema_valid saved = true
  /\ saved = {| r_id := r_id a; productId := productId a; userId := userId a;
                summary := summary a; transparencyScore := transparencyScore a;
                analysis := analysis a; answers := answers a; pdfUrl := pdfUrl a;
                status := status a; createdAt := createdAt a;
                updatedAt := if m then clock w else updatedAt a |}
  /\ users w' = users w /\ products w' = products w /\ clock w' = clock w
  /\ reports w' = (if m then <[r_id a := saved]> (reports w) else reports w).
Proof.
  unfold Report_save. intros E.
  destruct (schema_valid _ && pre_save_ok _) eqn:Hsave; [|discriminate].
  apply andb_prop in Hsave. destruct Hsave as [Hschema _].
  injection E as Er Ew. subst saved w'.
  split; [exact Hschema|]. split; [reflexivity|].
  destruct m; repeat split.
Qed.

Lemma Report_save_throws a m w e w' :
  Report_save a m w = (Throw e, w') -> w' = w.
Proof.
  unfold Report_save. destruct (schema_valid _ && pre_save_ok _); [discriminate|].
  intros E. inversion E. reflexivity.
Qed.

(** PUT, on a body that sets validated paths only: the report found
    under the id is assigned and saved, and then sent if its product is
    gone; or nothing changes. *)
Lemma put_report_effect req w :
  validated_keys_onlyb (body req) = true ->
  exists r w',
    put_report req w = (r, w')
    /\ users w' = users w /\ products w' = products w /\ clock w' = clock w
    /\ ((exists id report a saved,
           hex24 (params_id req) = Some id
           /\ reports w !! id = Some report
           /\ forbidden req report = false
           /\ update_body_check (body req) = Ok true
           /\ assign_body report (body req) w = (Ok a, w)
           /\ Report_save a (modified report (body req) a) w = (Ok saved, w')
           /\ r = Ok (match products w !! productId saved with
                      | Some _ => {| status_code := 500;
                                     payload := PError "Server error updating report" |}
                      | None => {| status_code := 200; payload := PReport saved None |}
                      end))
        \/ (reports w' = reports w
            /\ forall res, r = Ok res -> status_code res <> 200)).
Proof.
  intros Hkeys. unfold put_report.
  destruct (update_body_check (body req)) as [[|]|e] eqn:Hvalid.
  3:{ eexists _, w. split; [reflexivity|]. repeat (split; [reflexivity|]).
      right. split; [reflexivity|]. intros res E. discriminate. }
  2:{ eexists _, w. split; [reflexivity|]. repeat (split; [reflexivity|]).
      right. split; [reflexivity|]. intros res E. inversion E. cbn. lia. }
  unfold try_catch.
  destruct (hex24 (params_id req)) as [id|] eqn:Hid.
  2:{ rewrite (bind_throw _ _ w CastError w) by (rewrite castObjectId_run, Hid; reflexivity).
      eexists _, w. split; [reflexivity|]. repeat (split; [reflexivity|]).
      right. split; [reflexivity|]. intros res E. inversion E. cbn. lia. }
  rewrite (bind_ok _ _ w id w) by (rewrite castObjectId_run, Hid; reflexivity).
  rewrite (bind_ok _ _ w (reports w !! id) w) by reflexivity.
  destruct (reports w !! id) as [report|] eqn:Hfound.
  2:{ eexists _, w. split; [reflexivity|]. repeat (split; [reflexivity|]).
      right. split; [reflexivity|]. intros res E. inversion E. cbn. lia. }
  destruct (forbidden req report) eqn:Hforb.
  { eexists _, w. split; [reflexivity|]. repeat (split; [reflexivity|]).
    right. split; [reflexivity|]. intros res E. inversion E. cbn. lia. }
  rewrite Hkeys. cbn [negb].
  destruct (assign_body report (body req) w) as [[a|e] w1] eqn:Ea.
  2:{ rewrite (bind_throw _ _ _ _ _ Ea).
      pose proof (reads_only_assign_body report (body req) w _ _ Ea) as (A1 & A2 & A3 & A4 & _).
      eexists _, w1. split; [reflexivity|]. repeat (split; [assumption|]).
      right. split; [assumption|]. intros res E. inversion E. cbn. lia. }
  rewrite (bind_ok _ _ _ _ _ Ea).
  destruct (assign_body_fields _ _ _ _ _ Ea) as (-> & _).
  destruct (Report_save a (modified report (body req) a) w) as [[saved|e] w2] eqn:Es.
  2:{ rewrite (bind_throw _ _ _ _ _ Es).
      apply Report_save_throws in Es. subst w2.
      eexists _, w. split; [reflexivity|].
      repeat (split; [reflexivity|]). right. split; [reflexivity|].
      intros res E. inversion E. cbn. lia. }
  rewrite (bind_ok _ _ _ _ _ Es).
  destruct (Report_save_inv _ _ _ _ _ Es) as (_ & _ & F1 & F2 & F3 & _).
  unfold bind, populate, json_without_ingredients. cbn [snd fst]. rewrite F2.
  exists (Ok (match products w !! productId saved with
              | Some _ => {| status_code := 500;
                             payload := PError "Server error updating report" |}
              | None => {| status_code := 200; payload := PReport saved None |}
              end)), w2. split.
  { destruct (products w !! productId saved); unfold throw, json, ret; reflexivity. }
  repeat (split; [assumption|]).
  left. exists id, report, a, saved.
  repeat (split; [first [assumption|reflexivity]|]).
  reflexivity.
Qed.
End Effects.

(** DELETE: the report found under the id is removed, or nothing. *)
Lemma delete_report_effect req w :
  exists res w',
    delete_report req w = (Ok res, w')
    /\ users w' = users w /\ products w' = products w /\ clock w' = clock w
    /\ ((exists id report,
           hex24 (params_id req) = Some id
           /\ reports w !! id = Some report
           /\ forbidden req report = false
           /\ res = {| status_code := 200; payload := PMessage "Report deleted successfully" |}
           /\ reports w' = delete (r_id report) (reports w))
        \/ (w' = w /\ status_code res <> 200)).
Proof.
  unfold delete_report, try_catch.
  destruct (hex24 (params_id req)) as [id|] eqn:Hid.
  2:{ rewrite (bind_throw _ _ w CastError w) by (rewrite castObjectId_run, Hid; reflexivity).
      eexists _, w. split; [reflexivity|]. repeat (split; [reflexivity|]).
      right. split; [reflexivity|]. cbn. lia. }
  rewrite (bind_ok _ _ w id w) by (rewrite castObjectId_run, Hid; reflexivity).
  rewrite (bind_ok _ _ w (reports w !! id) w) by reflexivity.
  destruct (reports w !! id) as [report|] eqn:Hfound.
  2:{ eexists _, w. split; [reflexivity|]. repeat (split; [reflexivity|]).
      right. split; [reflexivity|]. cbn. lia. }
  destruct (forbidden req report) eqn:Hforb.
  { eexists _, w. split; [reflexivity|]. repeat (split; [reflexivity|]).
    right. split; [reflexivity|]. cbn. lia. }
  eexists _, _. split; [reflexivity|].
  cbn [users products clock reports set_trace set_reports].
  repeat (split; [reflexivity|]).
  left. exists id, report. repeat (split; [first [assumption|reflexivity]|]). reflexivity.
Qed.
(** * The report store under the routes *)

(** X17: POST /api/reports stores one report or none. The route always
    answers, and leaves the users and the products as they were. When it
    answers 201 it has added exactly one report, the one it sends: under
    an id that was free, for an existing product, owned by the caller,
    completed, created at the time of the request, and accepted by the
    validators of the schema (so its score is between 0 and 100). When
    it answers anything else, the reports are as they were. *)
Theorem post_report_stores_one_report_or_none `{Builtins} (req : Request) (w : World) :
  exists res w',
    post_report req w = (Ok res, w')
    /\ users w' = users w /\ products w' = products w
    /\ ((status_code res = 201
         /\ exists r,
              payload res = PReport r (products w !! productId r)
              /\ is_Some (products w !! productId r)
              /\ reports w !! r_id r = None
              /\ reports w' = <[r_id r := r]> (reports w)
              /\ schema_valid r = true
              /\ userId r = option_map u_id (user_ req)
              /\ status r = completed
              /\ createdAt r = clock w)
        \/ (status_code res <> 201 /\ reports w' = reports w)).
Proof.
  destruct (post_report_effect req w)
    as (res & w' & Hrun & Hu & Hp & _ & [(r & H201 & Hpay & Hfree & Hrep & Hv & Ho & Hs & Hc & _ & Hprod)
                                        |(Hsame & Hcode)]).
  - exists res, w'. repeat (split; [assumption|]). left. split; [assumption|].
    exists r. repeat (split; [assumption|]). assumption.
  - exists res, w'. repeat (split; [assumption|]). right. split; [lia|assumption].
Qed.

Lemma store_ok_insert w r :
  (forall id r', reports w !! id = Some r' -> r_id r' = id /\ schema_valid r' = true) ->
  schema_valid r = true ->
  forall id r', <[r_id r := r]> (reports w) !! id = Some r' ->
                r_id r' = id /\ schema_valid r' = true.
Proof.
  intros Hok Hv id r' Hl. destruct (decide (id = r_id r)) as [->|Hne].
  - rewrite lookup_insert_eq in Hl. inversion Hl; subst. split; [reflexivity|assumption].
  - rewrite lookup_insert_ne in Hl by congruence. apply Hok, Hl.
Qed.

(** X18: the routes of /api/reports keep the store in order: if every
    stored report sits under its own id and passes the validators of the
    schema, the same holds after any request to any of the six routes.
    (For PUT the body is taken to set only the paths the route
    validates.) *)
Theorem report_routes_keep_the_store_valid `{Builtins}
    (handler : Request -> M Response) (req : Request) (w : World) :
  report_route handler -> store_ok w ->
  (handler = put_report -> validated_keys_only (body req)) ->
  store_ok (snd (route handler req w)).
Proof.
  intros Hroute Hok Hkeys. unfold route.
  destruct (protect req w) as [[[denied|u]|e] w0] eqn:Hp;
    apply protect_keeps_world in Hp; subst w0; try exact Hok.
  set (req' := with_user u req).
  destruct Hroute.
  - destruct (get_stats_overview_run req' w) as (res & -> & _). exact Hok.
  - destruct (get_reports_run req' w) as (res & -> & _). exact Hok.
  - destruct (get_report_run req' w) as (res & ->). exact Hok.
  - destruct (post_report_effect req' w)
      as (res & w' & -> & _ & _ & _ & [(r & _ & _ & _ & Hrep & Hv & _)|(Hsame & _)]);
      cbn [snd]; unfold store_ok.
    + rewrite Hrep. apply (store_ok_insert w r Hok Hv).
    + rewrite Hsame. exact Hok.
  - destruct (put_report_effect req' w (Hkeys eq_refl))
      as (r & w' & -> & _ & _ & _
          & [(id & report & a & saved & _ & Hfound & _ & _ & Ha & Hs & _)|(Hsame & _)]).
    + assert (Hstore : store_ok w').
      { destruct (Report_save_inv _ _ _ _ _ Hs) as (Hv & Er & _ & _ & _ & Hrep).
        unfold store_ok. rewrite Hrep.
        destruct (modified report (body req') a); [|exact Hok].
        assert (Hrid : r_id a = r_id saved) by (rewrite Er; reflexivity).
        rewrite Hrid. apply (store_ok_insert w saved Hok Hv). }
      destruct r; exact Hstore.
    + assert (Hstore : store_ok w') by (unfold store_ok; rewrite Hsame; exact Hok).
      destruct r; exact Hstore.
  - destruct (delete_report_effect req' w)
      as (res & w' & -> & _ & _ & _ & [(id & report & _ & _ & _ & _ & Hrep)|(-> & _)]);
      cbn [snd]; [|exact Hok].
    unfold store_ok. rewrite Hrep. intros id' r' Hl.
    apply lookup_delete_Some in Hl. apply Hok, Hl.
Qed.

Lemma validated_keys_only_status st :
  validated_keys_only (obj [("status"%string, VStr st)]).
Proof.
  unfold validated_keys_only, validated_keys_onlyb, obj.
  cbn [list_to_map foldr uncurry]. rewrite insert_empty, map_to_list_singleton. reflexivity.
Qed.

Lemma report_routes_keep_the_store_valid_witness :
  store_ok (snd (route put_report (request "alice" id0 (obj [("status"%string, VStr "draft")]))
                   world3)).
Proof.
  apply (report_routes_keep_the_store_valid put_report
           (request "alice" id0 (obj [("status"%string, VStr "draft")])) world3).
  - constructor.
  - exact store_ok_world3.
  - intros _. apply validated_keys_only_status.
Defined.

(** X19: a deleted report is gone. After DELETE /api/reports/:id has
    answered 200 in a store in order, the store is the old one without
    that id, and a further GET or DELETE of the same id answers 404. *)
Theorem deleted_report_is_gone (req req' : Request) (w w' : World) (id : ObjectId) :
  store_ok w ->
  hex24 (params_id req) = Some id -> hex24 (params_id req') = Some id ->
  delete_report req w
  = (Ok {| status_code := 200; payload := PMessage "Report deleted successfully" |}, w') ->
  reports w' = delete id (reports w)
  /\ get_report req' w'
     = (Ok {| status_code := 404; payload := PError "Report not found" |}, w')
  /\ delete_report req' w'
     = (Ok {| status_code := 404; payload := PError "Report not found" |}, w').
Proof.
  intros Hok Hid Hid' Hrun.
  destruct (delete_report_effect req w)
    as (res & w1 & Hrun' & _ & _ & _ & [(id1 & report & Hid1 & Hfound & _ & _ & Hrep)|(_ & Hcode)]);
    rewrite Hrun in Hrun'; injection Hrun' as <- <-; [|cbn in Hcode; lia].
  assert (id1 = id) by congruence. subst id1.
  destruct (Hok id report Hfound) as [Hrid _]. rewrite Hrid in Hrep.
  assert (Hgone : reports w' !! id = None) by (rewrite Hrep; apply lookup_delete_eq).
  split; [exact Hrep|]. split.
  - unfold get_report, try_catch.
    rewrite (bind_ok _ _ w' id w') by (rewrite castObjectId_run, Hid'; reflexivity).
    rewrite (bind_ok _ _ w' (reports w' !! id) w') by reflexivity.
    rewrite Hgone. reflexivity.
  - unfold delete_report, try_catch.
    rewrite (bind_ok _ _ w' id w') by (rewrite castObjectId_run, Hid'; reflexivity).
    rewrite (bind_ok _ _ w' (reports w' !! id) w') by reflexivity.
    rewrite Hgone. reflexivity.
Qed.

Lemma deleted_report_is_gone_witness :
  reports world3_deleted = delete 0%N (reports world3)
  /\ get_report (with_user bob (request "bob" id0 VUndefined)) world3_deleted
     = (Ok {| status_code := 404; payload := PError "Report not found" |}, world3_deleted)
  /\ delete_report (with_user bob (request "bob" id0 VUndefined)) world3_deleted
     = (Ok {| status_code := 404; payload := PError "Report not found" |}, world3_deleted).
Proof.
  apply (deleted_report_is_gone (with_user alice (request "alice" id0 VUndefined))
           (with_user bob (request "bob" id0 VUndefined)) world3 world3_deleted 0%N
           store_ok_world3 eq_refl eq_refl).
  vm_compute. reflexivity.
Defined.

(** X20: a created report can be read back. When POST /api/reports has
    answered 201, a GET of the new id by the same user answers 200 with
    the same report and the same product. *)
Theorem created_report_can_be_read `{Builtins}
    (req reqG : Request) (w w' : World) (r : Report) (p : option Product) :
  post_report req w = (Ok {| status_code := 201; payload := PReport r p |}, w') ->
  hex24 (params_id reqG) = Some (r_id r) ->
  user_ reqG = user_ req ->
  get_report reqG w' = (Ok {| status_code := 200; payload := PReport r p |}, w').
Proof.
  intros Hrun Hid Huser.
  destruct (post_report_effect req w)
    as (res & w1 & Hrun' & _ & Hprods & _
        & [(r0 & _ & Hpay & _ & Hrep & _ & Hown & _)|(_ & Hcode)]);
    rewrite Hrun in Hrun'; injection Hrun' as <- <-;
    [|cbn in Hcode; destruct Hcode as [?|[?|?]]; lia].
  cbn in Hpay. injection Hpay as <- ->.
  unfold get_report, try_catch.
  rewrite (bind_ok _ _ w' (r_id r) w') by (rewrite castObjectId_run, Hid; reflexivity).
  rewrite (bind_ok _ _ w' (reports w' !! r_id r) w') by reflexivity.
  rewrite Hrep, lookup_insert_eq.
  assert (Hf : forbidden reqG r = false).
  { unfold forbidden. rewrite Huser, Hown.
    destruct (user_ req) as [u|]; [|reflexivity]. cbn. rewrite N.eqb_refl. reflexivity. }
  rewrite Hf. unfold bind, populate, json, ret. cbn [fst snd]. rewrite Hprods. reflexivity.
Qed.

Lemma created_report_can_be_read_witness :
  exists r p,
    post_report (with_user alice (request "alice" EmptyString (create_body "00000000000000000000000a")))
                world0
    = (Ok {| status_code := 201; payload := PReport r p |}, world1)
    /\ get_report (with_user alice (request "alice" id0 VUndefined)) world1
       = (Ok {| status_code := 200; payload := PReport r p |}, world1).
Proof.
  assert (E : exists r p,
    post_report (with_user alice (request "alice" EmptyString (create_body "00000000000000000000000a")))
                world0
    = (Ok {| status_code := 201; payload := PReport r p |}, world1)
    /\ hex24 (params_id (with_user alice (request "alice" id0 VUndefined))) = Some (r_id r)).
  { vm_compute. eexists _, _. split; reflexivity. }
  destruct E as (r & p & Hrun & Hid). exists r, p. split; [exact Hrun|].
  exact (created_report_can_be_read _ (with_user alice (request "alice" id0 VUndefined))
           world0 world1 r p Hrun Hid eq_refl).
Defined.

(** X21: an id that cannot be cast to an ObjectId (anything but 24
    hexadecimal digits) is answered 500, not 404 or 400, by the
    single-report routes and by the product routes, and nothing
    changes. *)
Theorem malformed_id_is_a_server_error `{Builtins} (req : Request) (w : World) :
  hex24 (params_id req) = None ->
  get_report req w
  = (Ok {| status_code := 500; payload := PError "Server error fetching report" |}, w)
  /\ delete_report req w
     = (Ok {| status_code := 500; payload := PError "Server error deleting report" |}, w)
  /\ (update_body_valid (body req) = true ->
      put_report req w
      = (Ok {| status_code := 500; payload := PError "Server error updating report" |}, w))
  /\ get_product req w
     = (Ok {| pr_status := 500; pr_payload := PPError "Server error fetching product" |}, w)
  /\ delete_product req w
     = (Ok {| pr_status := 500; pr_payload := PPError "Server error deleting product" |}, w).
Proof.
  intros Hid.
  assert (Hcast : forall B (k : ObjectId -> M B),
             bind (castObjectId (params_id req)) k w = (Throw CastError, w)).
  { intros B k. apply bind_throw. rewrite castObjectId_run, Hid. reflexivity. }
  repeat split.
  - unfold get_report, try_catch. rewrite Hcast. reflexivity.
  - unfold delete_report, try_catch. rewrite Hcast. reflexivity.
  - intros Hvalid. unfold put_report. rewrite (update_body_valid_check _ Hvalid).
    unfold try_catch. rewrite Hcast. reflexivity.
  - unfold get_product, try_catch. rewrite Hcast. reflexivity.
  - unfold delete_product, try_catch. rewrite Hcast. reflexivity.
Qed.

Lemma malformed_id_is_a_server_error_witness :
  get_report (with_user alice (request "alice" "42" VUndefined)) world3
  = (Ok {| status_code := 500; payload := PError "Server error fetching report" |}, world3)
  /\ delete_report (with_user alice (request "alice" "42" VUndefined)) world3
     = (Ok {| status_code := 500; payload := PError "Server error deleting report" |}, world3).
Proof.
  destruct (malformed_id_is_a_server_error (with_user alice (request "alice" "42" VUndefined))
              world3 eq_refl) as (H1 & H2 & _).
  split; assumption.
Defined.
(** * Report creation without a summary, and what PUT changes *)

Lemma schema_rejects_empty_summary r : summary r = EmptyString -> schema_valid r = false.
Proof.
  intros E. unfold schema_valid. rewrite E. cbn [String.eqb negb].
  rewrite andb_false_r. reflexivity.
Qed.

(** X22: report creation needs a summary from the AI service. When the
    service answers, but with something that has no [summary] (an empty
    object, a string, null), the route answers 500 and stores
    nothing. *)
Theorem post_report_needs_a_summary `{Builtins}
    (req : Request) (w : World) (s : string) (pid : ObjectId) (product : Product)
    (data : value) :
  get (body req) "productId" = VStr s -> hex24 s = Some pid ->
  isObject (get (body req) "answers") = true ->
  products w !! pid = Some product ->
  ai_service w (Product_toObject product) (get (body req) "answers") = Some data ->
  get data "summary" = VUndefined ->
  exists w',
    post_report req w
    = (Ok {| status_code := 500; payload := PError "Server error creating report" |}, w')
    /\ reports w' = reports w /\ users w' = users w /\ products w' = products w.
Proof.
  intros Hs Hhex Hobj Hprod Hai Hsum.
  destruct (post_report_effect req w) as (res & w' & Hrun & Hu & Hp & _ & Heff).
  exists w'.
  assert (Hres : res = {| status_code := 500; payload := PError "Server error creating report" |}).
  { revert Hrun. unfold post_report, create_body_valid. rewrite Hs, Hobj.
    cbn [isMongoId ToString]. rewrite Hhex. cbn [andb negb].
    unfold try_catch.
    rewrite (bind_ok _ _ w pid w)
      by (unfold castObjectId_of; rewrite castObjectId_run, Hhex; reflexivity).
    rewrite (bind_ok _ _ w (Some product) w)
      by (unfold Product_findById; rewrite Hprod; reflexivity).
    set (w1 := set_trace (trace w ++ [EvAiRequest (p_id product)]) w).
    rewrite (bind_ok _ _ w data w1)
      by (apply try_catch_ok; unfold axios_post_analyze; rewrite Hai; reflexivity).
    set (w2 := set_trace (trace w1 ++ [EvScorer]) w1).
    rewrite (bind_ok _ _ w1 tt w2) by reflexivity.
    destruct (deriveTransparencyScore data (Product_toObject product)
                (get (body req) "answers") w2) as [[x|e] w3] eqn:Hscore.
    2:{ rewrite (bind_throw _ _ _ _ _ Hscore). intros E; inversion E; reflexivity. }
    rewrite (bind_ok _ _ _ _ _ Hscore).
    destruct data as [| |b|n|t|l|o];
      try (rewrite (bind_throw _ _ w3 TypeError w3) by reflexivity;
           intros E; inversion E; reflexivity).
    all: rewrite (bind_ok _ _ w3 VUndefined w3) by (cbn [member]; rewrite Hsum; reflexivity).
    all: match goal with
         | |- context [member ?d "analysis"] =>
             rewrite (bind_ok _ _ w3 (get d "analysis") w3) by reflexivity
         end.
    all: rewrite (bind_ok _ _ w3 EmptyString w3) by reflexivity.
    all: match goal with
         | |- context [cast_Analysis ?v] => destruct (cast_Analysis v) as [an|e]
         end.
    all: try (rewrite (bind_throw _ _ w3 ValidationError w3) by reflexivity;
              intros E; inversion E; reflexivity).
    all: rewrite (bind_ok _ _ w3 an w3) by reflexivity.
    all: rewrite (bind_throw _ _ w3 ValidationError w3)
           by (unfold Report_create; rewrite schema_rejects_empty_summary by reflexivity;
               reflexivity).
    all: intros E; inversion E; reflexivity. }
  subst res. split; [exact Hrun|].
  destruct Heff as [(r & H201 & _)|(Hsame & _)]; [cbn in H201; lia|].
  repeat split; assumption.
Qed.

Lemma post_report_needs_a_summary_witness :
  exists w',
    post_report (with_user alice
                   (request "alice" EmptyString (create_body "00000000000000000000000a")))
                (set_ai (fun _ _ => Some (obj [])) world0)
    = (Ok {| status_code := 500; payload := PError "Server error creating report" |}, w')
    /\ reports w' = reports world0 /\ users w' = users world0 /\ products w' = products world0.
Proof.
  apply (post_report_needs_a_summary
           (with_user alice (request "alice" EmptyString (create_body "00000000000000000000000a")))
           (set_ai (fun _ _ => Some (obj [])) world0)
           "00000000000000000000000a" 10%N soap (obj []));
    vm_compute; reflexivity.
Defined.

(** X23: what a PUT can change. On a body that sets only the paths the
    route validates, when PUT /api/reports/:id of an existing report
    answers, it leaves the users and the products alone, and either the
    reports are as they were, or the stored report is replaced by one
    that passes the validators of the schema and has the id, the
    product, the owner, the analysis, the PDF link and the creation time
    of the old one, the time of the request as its update time, and the
    old value on every path the body leaves out. The answer after such a
    change is 200 with the new report only when the product of the
    report is gone: when the product exists, the report is saved and the
    answer is 500 all the same. An answer 200 carries a report with the
    id, the product and the owner of the old one, and no product. *)
Theorem put_report_changes_only_validated_paths `{Builtins}
    (req : Request) (w w' : World) (res : Response) (id : ObjectId) (report : Report) :
  validated_keys_only (body req) ->
  hex24 (params_id req) = Some id -> reports w !! id = Some report ->
  put_report req w = (Ok res, w') ->
  users w' = users w /\ products w' = products w
  /\ (reports w' = reports w
      \/ exists r,
           reports w' = <[r_id report := r]> (reports w)
           /\ schema_valid r = true
           /\ r_id r = r_id report /\ productId r = productId report /\ userId r = userId report
           /\ analysis r = analysis report /\ pdfUrl r = pdfUrl report
           /\ createdAt r = createdAt report /\ updatedAt r = clock w
           /\ (get (body req) "summary" = VUndefined -> summary r = summary report)
           /\ (get (body req) "transparencyScore" = VUndefined ->
               transparencyScore r = transparencyScore report)
           /\ (get (body req) "status" = VUndefined -> status r = status report)
           /\ (get (body req) "answers" = VUndefined -> answers r = answers report)
           /\ res = match products w !! productId report with
                    | Some _ => {| status_code := 500;
                                   payload := PError "Server error updating report" |}
                    | None => {| status_code := 200; payload := PReport r None |}
                    end)
  /\ (status_code res = 200 ->
      products w !! productId report = None
      /\ exists r,
           payload res = PReport r None
           /\ schema_valid r = true
           /\ r_id r = r_id report /\ productId r = productId report
           /\ userId r = userId report).
Proof.
  intros Hkeys Hid Hfound Hrun.
  destruct (put_report_effect req w Hkeys)
    as (r1 & w1 & Hrun' & Hu & Hp & _
        & [(id1 & report1 & a & saved & Hid1 & Hfound1 & _ & _ & Ha & Hs & Hres)
          |(Hsame & Hcode)]);
    rewrite Hrun in Hrun'; injection Hrun' as <- <-.
  2:{ split; [assumption|]. split; [assumption|]. split; [left; exact Hsame|].
      intros H200. exfalso. apply (Hcode res eq_refl H200). }
  assert (id1 = id) by congruence. subst id1.
  assert (report1 = report) by congruence. subst report1.
  destruct (assign_body_fields _ _ _ _ _ Ha)
    as (_ & F1 & F2 & F3 & F4 & F5 & F6 & _ & G1 & G2 & G3 & G4 & _).
  destruct (Report_save_inv _ _ _ _ _ Hs) as (Hv & Er & _ & _ & _ & Hrep).
  assert (Hfields : r_id saved = r_id a /\ productId saved = productId a
                    /\ userId saved = userId a
                    /\ analysis saved = analysis a /\ pdfUrl saved = pdfUrl a
                    /\ createdAt saved = createdAt a
                    /\ summary saved = summary a
                    /\ transparencyScore saved = transparencyScore a
                    /\ status saved = status a /\ answers saved = answers a)
    by (rewrite Er; repeat split).
  destruct Hfields as (E1 & E2 & E3 & E4 & E5 & E6 & E8 & E9 & E10 & E11).
  injection Hres as Hres. rewrite E2, F2 in Hres.
  split; [assumption|]. split; [assumption|]. split.
  - destruct (modified report (body req) a) eqn:Hmod; [|left; exact Hrep].
    right. exists saved. rewrite F1 in Hrep.
    split; [exact Hrep|]. split; [exact Hv|].
    assert (Hup : updatedAt saved = clock w) by (rewrite Er; reflexivity).
    repeat split; try congruence.
    + intros G. rewrite E8. apply G1, G.
    + intros G. rewrite E9. apply G2, G.
    + intros G. rewrite E10. apply G3, G.
    + intros G. rewrite E11. apply G4, G.
  - intros H200. destruct (products w !! productId report); subst res;
      [cbn in H200; lia|].
    split; [reflexivity|]. exists saved. cbn [payload].
    repeat split; congruence.
Qed.

(** A report of world3 whose product exists: the PUT saves the new
    status, and answers 500. *)
Lemma put_report_changes_only_validated_paths_witness :
  exists w',
    put_report (with_user alice (request "alice" id0 (obj [("status"%string, VStr "completed")])))
               world3
    = (Ok {| status_code := 500; payload := PError "Server error updating report" |}, w')
    /\ exists r,
         reports w' = <[0%N := r]> (reports world3)
         /\ status r = completed
         /\ userId r = userId (report_at 0 35 draft 1)
         /\ transparencyScore r = transparencyScore (report_at 0 35 draft 1).
Proof.
  assert (Hrun : exists w' r0,
    put_report (with_user alice (request "alice" id0 (obj [("status"%string, VStr "completed")])))
               world3
    = (Ok {| status_code := 500; payload := PError "Server error updating report" |}, w')
    /\ reports w' !! 0%N = Some r0 /\ status r0 = completed
    /\ reports w' <> reports world3).
  { vm_compute. eexists _, _. split; [reflexivity|]. split; [reflexivity|].
    split; [reflexivity|]. discriminate. }
  destruct Hrun as (w' & r0 & Hrun & Hstored & Hst & Hchanged).
  exists w'. split; [exact Hrun|].
  destruct (put_report_changes_only_validated_paths
              (with_user alice (request "alice" id0 (obj [("status"%string, VStr "completed")])))
              world3 w' _ 0%N (report_at 0 35 draft 1)
              (validated_keys_only_status "completed") eq_refl eq_refl Hrun)
    as (_ & _ & [Hsame|(r & Hrep & _ & _ & _ & Hown & _ & _ & _ & _ & _ & Hscore & _)] & _);
    [contradiction|].
  exists r. split; [exact Hrep|].
  assert (r0 = r).
  { rewrite Hrep in Hstored. change (r_id (report_at 0 35 draft 1)) with 0%N in Hstored.
    rewrite lookup_insert_eq in Hstored. congruence. }
  subst r0. repeat split; [exact Hst|exact Hown|apply Hscore; reflexivity].
Defined.
(** * The routes of /api/ai, the error handler and product deletion *)

Lemma member_object o k w : member (VObj o) k w = (Ok (get (VObj o) k), w).
Proof. reflexivity. Qed.

(** X24: the routes of /api/ai never answer 500 on a parsed body, and
    hide the failure of the AI service. With validation errors each of
    the three answers 400 with the errors. Without, each answers 200 with
    [success: true]; when the service fails (for generate-questions also
    when it answers null), what is sent beside it is [undefined], since
    the fallback helpers of the module are empty. Nothing is written. *)
Theorem ai_routes_hide_service_failure
    (AI_SERVICE_URL : option string) (remote : string -> value -> option value)
    (req : AiRequest) (w : World) (o : gmap string value) :
  ai_body req = VObj o ->
  (validation_errors req <> [] ->
   generate_questions AI_SERVICE_URL remote req w
   = (Ok (validation_failed_json (validation_errors req)), w)
   /\ transparency_score AI_SERVICE_URL remote req w
      = (Ok (validation_failed_json (validation_errors req)), w)
   /\ analyze_product AI_SERVICE_URL remote req w
      = (Ok (validation_failed_json (validation_errors req)), w))
  /\ (validation_errors req = [] ->
      (exists q,
         generate_questions AI_SERVICE_URL remote req w
         = (Ok {| http_status := 200;
                  http_body := VObj (list_to_map [("success", VBool true);
                                                  ("questions", q)]%string) |}, w)
         /\ ((forall url data, remote url data = None \/ remote url data = Some VNull) ->
             q = VUndefined))
      /\ (exists d,
            transparency_score AI_SERVICE_URL remote req w
            = (Ok {| http_status := 200;
                     http_body := VObj (list_to_map [("success", VBool true);
                                                     ("data", d)]%string) |}, w)
            /\ ((forall url data, remote url data = None) -> d = VUndefined))
      /\ (exists d,
            analyze_product AI_SERVICE_URL remote req w
            = (Ok {| http_status := 200;
                     http_body := VObj (list_to_map [("success", VBool true);
                                                     ("data", d)]%string) |}, w)
            /\ ((forall url data, remote url data = None) -> d = VUndefined))).
Proof.
  intros Hbody. split.
  - intros Hne.
    assert (Hempty : isEmpty (validation_errors req) = false)
      by (destruct (validation_errors req); [contradiction|reflexivity]).
    unfold generate_questions, transparency_score, analyze_product.
    rewrite Hempty. repeat split; reflexivity.
  - intros Hnone.
    unfold generate_questions, transparency_score, analyze_product.
    rewrite Hnone, Hbody. cbn [isEmpty negb].
    split; [|split].
    + unfold try_catch at 1. rewrite (bind_ok _ _ _ _ _ (member_object o _ w)).
      unfold try_catch, bind, axios_post.
      destruct (remote _ _) as [data|] eqn:Hremote.
      * destruct data; unfold member, ret, throw, generateFallbackQuestions;
          eexists; (split; [reflexivity|]); intros Hfail;
          try reflexivity;
          match goal with
          | Hr : remote ?u ?d = Some _ |- _ =>
              destruct (Hfail u d) as [Hf|Hf]; rewrite Hf in Hr; discriminate Hr
          end.
      * eexists. split; [reflexivity|]. intros _. reflexivity.
    + unfold try_catch at 1. rewrite !(bind_ok _ _ _ _ _ (member_object o _ w)).
      unfold try_catch, bind, axios_post.
      destruct (remote _ _) as [data|] eqn:Hremote.
      * eexists. split; [reflexivity|]. intros Hfail. rewrite Hfail in Hremote. discriminate.
      * eexists. split; [reflexivity|]. intros _. reflexivity.
    + unfold try_catch at 1. rewrite !(bind_ok _ _ _ _ _ (member_object o _ w)).
      unfold try_catch, bind, axios_post.
      destruct (remote _ _) as [data|] eqn:Hremote.
      * eexists. split; [reflexivity|]. intros Hfail. rewrite Hfail in Hremote. discriminate.
      * eexists. split; [reflexivity|]. intros _. reflexivity.
Qed.

Lemma ai_routes_hide_service_failure_witness :
  generate_questions None (fun _ _ => None) ai_request world0
  = (Ok {| http_status := 200;
           http_body := VObj (list_to_map [("success", VBool true);
                                           ("questions", VUndefined)]%string) |}, world0)
  /\ analyze_product None (fun _ _ => None) ai_request world0
     = (Ok {| http_status := 200;
              http_body := VObj (list_to_map [("success", VBool true);
                                              ("data", VUndefined)]%string) |}, world0).
Proof.
  destruct (ai_routes_hide_service_failure None (fun _ _ => None) ai_request world0 _ eq_refl)
    as (_ & Hok).
  destruct (Hok eq_refl) as ((q & Hq & Hqu) & _ & (d & Hd & Hdu)).
  rewrite (Hqu (fun _ _ => or_introl eq_refl)) in Hq.
  rewrite (Hdu (fun _ _ => eq_refl)) in Hd.
  split; assumption.
Defined.
(** * [errorHandler] *)

Lemma messages_printable `{Engine} (vals : list value) :
  Forall (fun v => v <> VNull /\ v <> VUndefined
                   /\ exists text, ToString (get v "message") = Ok text) vals ->
  exists ms, messages vals = Ok ms
             /\ Forall (fun m => exists text, ToString m = Ok text) ms.
Proof.
  induction 1 as [|v vals (Hn & Hu & Hm) _ (ms & IH & Hall)];
    [exists []; split; [reflexivity|constructor]|].
  cbn [messages]. rewrite IH.
  exists (get v "message" :: ms).
  split; [destruct v; try contradiction; reflexivity|].
  constructor; assumption.
Qed.

Lemma join_total `{Engine} sep (ms : list value) :
  Forall (fun m => exists text, ToString m = Ok text) ms ->
  exists text, join sep ms = Ok text.
Proof.
  unfold join. induction 1 as [|v l (t & Hv) _ (rest & IH)];
    [exists EmptyString; reflexivity|].
  rewrite join_with_cons.
  assert (Hse : exists se, match v with
                           | VUndefined | VNull => Ok EmptyString
                           | _ => ToString v
                           end = Ok se) by (destruct v; eauto).
  destruct Hse as (se & ->).
  destruct l; [eauto|]. rewrite IH. eauto.
Qed.

Lemma includes_nonempty s t :
  t <> EmptyString -> includes s t = true -> String.eqb s EmptyString = false.
Proof.
  intros Ht Hi. destruct s; [|reflexivity].
  destruct t; [contradiction|]. discriminate Hi.
Qed.

(** X25: the error handler always answers an error that Mongoose or the
    other middlewares raise (no entry of [errors] is null, and the
    message of every entry can be printed), with [success: false] and a
    text that is never empty. The status is 400,
    401, 404 or 429, or the [statusCode] of the error when that is a
    number other than 0 and NaN, and 500 otherwise; the stack is sent
    only when NODE_ENV is [development]. *)
Theorem errorHandler_always_answers `{Builtins} (NODE_ENV : option string) (err : CustomError) :
  Forall (fun kv => snd kv <> VNull /\ snd kv <> VUndefined
                    /\ exists text, ToString (get (snd kv) "message") = Ok text)
         (default [] (err_errors err)) ->
  exists res,
    errorHandler NODE_ENV err = Ok res
    /\ er_success res = false
    /\ er_error res <> EmptyString
    /\ (In (er_status res) [Z2N 400; Z2N 401; Z2N 404; Z2N 429; Z2N 500]
        \/ (err_statusCode err = Some (er_status res)
            /\ truthy (VNum (er_status res)) = true))
    /\ (er_stack res = Some (err_stack err) <-> NODE_ENV = Some "development"%string)
    /\ (er_stack res = None <-> NODE_ENV <> Some "development"%string).
Proof.
  intros Hvals.
  assert (Hms : exists ms, messages (map snd (default [] (err_errors err))) = Ok ms
                           /\ Forall (fun m => exists text, ToString m = Ok text) ms).
  { apply messages_printable. apply Forall_forall. intros v Hv.
    apply list_elem_of_In, in_map_iff in Hv. destruct Hv as (kv & <- & Hkv).
    rewrite Forall_forall in Hvals. apply Hvals, list_elem_of_In, Hkv. }
  destruct Hms as (ms & Hms & Hprint).
  destruct (join_total ", " ms Hprint) as (text & Hjoin).
  unfold errorHandler. rewrite Hms, Hjoin.
  set (e1 := if String.eqb (err_name err) "CastError" then _ else _).
  set (e2 := if match err_code err with Some c => _ | None => false end then _ else e1).
  set (e3 := if String.eqb (err_name err) "ValidationError" then Ok _ else Ok e2).
  assert (He3 : exists e, e3 = Ok e
                          /\ (In (eo_statusCode e) [Some (Z2N 400); Some (Z2N 404)]
                              \/ eo_statusCode e = err_statusCode err)).
  { unfold e3, e2, e1.
    destruct (String.eqb (err_name err) "ValidationError");
      [eexists; split; [reflexivity|]; left; left; reflexivity|].
    destruct (match err_code err with Some c => _ | None => false end);
      [eexists; split; [reflexivity|]; left; left; reflexivity|].
    destruct (String.eqb (err_name err) "CastError");
      eexists; (split; [reflexivity|]); [left; right; left; reflexivity|right; reflexivity]. }
  destruct He3 as (e & -> & He).
  eexists. split; [reflexivity|]. cbn [er_success er_error er_status er_stack].
  split; [reflexivity|]. split; [|split; [|split]].
  - match goal with |- (if String.eqb ?m EmptyString then _ else _) <> _ =>
      destruct (String.eqb_spec m EmptyString) as [E|E]; [discriminate|exact E] end.
  - match goal with
    | |- context [eo_statusCode ?x] =>
        assert (Hx : In (eo_statusCode x)
                        [Some (Z2N 400); Some (Z2N 401); Some (Z2N 404); Some (Z2N 429)]
                     \/ eo_statusCode x = err_statusCode err);
        [|set (final := x) in *]
    end.
    { destruct (negb _ && includes _ _); [left; cbn; tauto|].
      destruct (String.eqb (err_name err) "TokenExpiredError"); [left; cbn; tauto|].
      destruct (String.eqb (err_name err) "JsonWebTokenError"); [left; cbn; tauto|].
      destruct He as [[He|[He|[]]]|He]; [left|left|right]; rewrite <- ?He; cbn; tauto. }
    destruct Hx as [Hx|Hx].
    + left. cbn [In] in Hx.
      destruct Hx as [Hx|[Hx|[Hx|[Hx|[]]]]]; rewrite <- Hx; cbn; tauto.
    + rewrite Hx. destruct (err_statusCode err) as [c|]; [|left; cbn; tauto].
      destruct (truthy (VNum c)) eqn:Ht; [right; split; [reflexivity|exact Ht]|left; cbn; tauto].
  - destruct NODE_ENV as [env|]; [|split; discriminate].
    destruct (String.eqb_spec env "development") as [->|Hne].
    + split; reflexivity.
    + split; [discriminate|]. intros E. inversion E. contradiction.
  - destruct NODE_ENV as [env|]; [|split; [discriminate|reflexivity]].
    destruct (String.eqb_spec env "development") as [->|Hne].
    + split; [discriminate|]. intros E. contradiction.
    + split; [intros _ E; inversion E; contradiction|reflexivity].
Qed.

Lemma errorHandler_always_answers_witness :
  exists res,
    errorHandler (Some "production"%string) validation_error = Ok res
    /\ er_success res = false
    /\ er_error res <> EmptyString
    /\ er_stack res = None.
Proof.
  destruct (errorHandler_always_answers (Some "production"%string) validation_error)
    as (res & Hrun & Hs & Ht & _ & _ & Hstack).
  - repeat constructor; try discriminate; eexists; vm_compute; reflexivity.
  - exists res. repeat (split; [assumption|]). apply Hstack. discriminate.
Defined.

(** X26: in the error handler the later checks override the earlier
    ones. A message that contains [Too many requests] gives 429 and is
    sent as it is, whatever the name and the code of the error. Without
    it, a ValidationError gives 400 and the messages of its entries
    joined by a comma and a blank, even with the duplicate-key code; the
    duplicate-key code 11000 gives 400 and names the first key of
    [keyValue], even on a CastError; a CastError without that code gives
    404. *)
Theorem errorHandler_precedence `{Builtins}
    (NODE_ENV : option string) (err : CustomError) (res : ErrorResponse) :
  errorHandler NODE_ENV err = Ok res ->
  (includes (err_message err) "Too many requests" = true ->
   er_status res = Z2N 429 /\ er_error res = err_message err)
  /\ (includes (err_message err) "Too many requests" = false ->
      (err_name err = "ValidationError"%string ->
       exists ms text,
         messages (map snd (default [] (err_errors err))) = Ok ms
         /\ join ", " ms = Ok text
         /\ er_status res = Z2N 400
         /\ er_error res = if String.eqb text EmptyString
                           then "Server Error"%string
                           else text)
      /\ (forall c, err_code err = Some c -> Neq c (Z2N 11000) = true ->
                    err_name err = "CastError"%string ->
                    er_status res = Z2N 400
                    /\ er_error res
                       = (match default [] (err_keyValue err) with
                          | (k, _) :: _ => k
                          | [] => "undefined"
                          end ++ " already exists")%string)
      /\ (err_name err = "CastError"%string ->
          (forall c, err_code err = Some c -> Neq c (Z2N 11000) = false) ->
          er_status res = Z2N 404 /\ er_error res = "Resource not found"%string)).
Proof.
  intros Hrun. split.
  - intros Hrate.
    assert (Hne : String.eqb (err_message err) EmptyString = false)
      by (apply (includes_nonempty _ "Too many requests"); [discriminate|exact Hrate]).
    unfold errorHandler in Hrun. cbv zeta in Hrun.
    destruct (if String.eqb (err_name err) "ValidationError" then _ else _) as [e|x];
      [|discriminate].
    rewrite Hne, Hrate in Hrun. cbn [negb andb] in Hrun.
    injection Hrun as <-. cbn [er_status er_error eo_statusCode eo_message].
    rewrite Hne. split; reflexivity.
  - intros Hrate. unfold errorHandler in Hrun. cbv zeta in Hrun.
    rewrite Hrate, andb_false_r in Hrun.
    split; [|split].
    + intros Hname. rewrite Hname in Hrun. cbn [String.eqb Ascii.eqb Bool.eqb] in Hrun.
      destruct (messages _) as [ms|x]; [|discriminate].
      destruct (join ", " ms) as [text|x] eqn:Hjoin; [|discriminate].
      exists ms, text. split; [reflexivity|]. split; [exact Hjoin|].
      injection Hrun as <-. split; reflexivity.
    + intros c Hc Hdup Hname. rewrite Hname, Hc, Hdup in Hrun.
      cbn [String.eqb Ascii.eqb Bool.eqb] in Hrun.
      injection Hrun as <-. cbn [er_status er_error eo_statusCode eo_message].
      split; [reflexivity|].
      set (field := match default [] (err_keyValue err) with
                    | (k, _) :: _ => k
                    | [] => "undefined"%string
                    end).
      destruct (String.eqb_spec (field ++ " already exists") EmptyString) as [E|E];
        [|reflexivity].
      exfalso. destruct field; discriminate E.
    + intros Hname Hcode. rewrite Hname in Hrun.
      cbn [String.eqb Ascii.eqb Bool.eqb] in Hrun.
      assert (Hdup : match err_code err with
                     | Some c => Neq c (Z2N 11000)
                     | None => false
                     end = false).
      { destruct (err_code err) as [c|]; [apply Hcode; reflexivity|reflexivity]. }
      rewrite Hdup in Hrun. injection Hrun as <-. split; reflexivity.
Qed.

Lemma errorHandler_precedence_witness :
  exists res ms,
    errorHandler None validation_error = Ok res
    /\ messages (map snd (default [] (err_errors validation_error))) = Ok ms
    /\ er_status res = Z2N 400
    /\ er_error res = "Report summary is required, Score cannot exceed 100"%string.
Proof.
  assert (Hrun : exists res, errorHandler None validation_error = Ok res)
    by (vm_compute; eexists; reflexivity).
  destruct Hrun as (res & Hrun).
  destruct (errorHandler_precedence None validation_error res Hrun) as (_ & Hrest).
  destruct (Hrest eq_refl) as (Hval & _).
  destruct (Hval eq_refl) as (ms & text & Hms & Hjoin & Hst & Htext).
  exists res, ms. repeat (split; [assumption|]).
  rewrite Htext. vm_compute in Hms. injection Hms as <-.
  vm_compute in Hjoin. injection Hjoin as <-. reflexivity.
Defined.
(** * Deleting a product *)

(** X27: deleting a product does not touch the reports on it. Whoever
    the caller is, DELETE /api/products/:id of an existing product
    answers 200 and removes it; the reports, also those on that product,
    stay, and GET /api/reports/:id then sends such a report with no
    product beside it. A second DELETE or a GET of the product answers
    404. *)
Theorem deleted_product_leaves_its_reports
    (req : Request) (w : World) (pid : ObjectId) (product : Product) :
  hex24 (params_id req) = Some pid -> products w !! pid = Some product ->
  exists w',
    delete_product req w
    = (Ok {| pr_status := 200; pr_payload := PPMessage "Product deleted successfully" |}, w')
    /\ products w' = delete pid (products w)
    /\ reports w' = reports w /\ users w' = users w
    /\ get_product req w'
       = (Ok {| pr_status := 404; pr_payload := PPError "Product not found" |}, w')
    /\ delete_product req w'
       = (Ok {| pr_status := 404; pr_payload := PPError "Product not found" |}, w')
    /\ (forall reqR id report,
          hex24 (params_id reqR) = Some id -> reports w !! id = Some report ->
          productId report = pid -> forbidden reqR report = false ->
          get_report reqR w'
          = (Ok {| status_code := 200; payload := PReport report None |}, w')).
Proof.
  intros Hid Hprod.
  set (w' := set_products (fun m => delete pid m) w).
  assert (Hgone : products w' !! pid = None) by apply lookup_delete_eq.
  exists w'. split; [|split; [reflexivity|split; [reflexivity|split; [reflexivity|]]]].
  - unfold delete_product, try_catch.
    rewrite (bind_ok _ _ w pid w) by (rewrite castObjectId_run, Hid; reflexivity).
    rewrite (bind_ok _ _ w (Some product) w')
      by (unfold Product_findByIdAndDelete; rewrite Hprod; reflexivity).
    reflexivity.
  - split; [|split].
    + unfold get_product, try_catch.
      rewrite (bind_ok _ _ w' pid w') by (rewrite castObjectId_run, Hid; reflexivity).
      rewrite (bind_ok _ _ w' None w') by (unfold Product_findById; rewrite Hgone; reflexivity).
      reflexivity.
    + unfold delete_product, try_catch.
      rewrite (bind_ok _ _ w' pid w') by (rewrite castObjectId_run, Hid; reflexivity).
      unfold bind, Product_findByIdAndDelete. rewrite Hgone.
      assert (Hsame : set_products (fun m => delete pid m) w' = w').
      { unfold w', set_products; cbn. rewrite delete_delete_eq. reflexivity. }
      rewrite Hsame. reflexivity.
    + intros reqR id report HidR Hfound Hpid Hforb.
      unfold get_report, try_catch.
      rewrite (bind_ok _ _ w' id w') by (rewrite castObjectId_run, HidR; reflexivity).
      rewrite (bind_ok _ _ w' (Some report) w')
        by (unfold Report_findById; cbn [w' reports set_products]; rewrite Hfound; reflexivity).
      rewrite Hforb. unfold bind, populate, json, ret. cbn [fst snd].
      rewrite Hpid, Hgone. reflexivity.
Qed.

Lemma deleted_product_leaves_its_reports_witness :
  exists w',
    delete_product (with_user bob (request "bob" "00000000000000000000000a" VUndefined)) world3
    = (Ok {| pr_status := 200; pr_payload := PPMessage "Product deleted successfully" |}, w')
    /\ reports w' = reports world3
    /\ get_report (with_user alice (request "alice" id0 VUndefined)) w'
       = (Ok {| status_code := 200; payload := PReport (report_at 0 35 draft 1) None |}, w').
Proof.
  destruct (deleted_product_leaves_its_reports
              (with_user bob (request "bob" "00000000000000000000000a" VUndefined))
              world3 10%N soap eq_refl eq_refl)
    as (w' & Hrun & _ & Hreports & _ & _ & _ & Hget).
  exists w'. split; [exact Hrun|]. split; [exact Hreports|].
  apply (Hget (with_user alice (request "alice" id0 VUndefined)) 0%N (report_at 0 35 draft 1));
    reflexivity.
Defined.
